(** * WhatsApp multi-account manager: a shallow embedding of
    [utils/whatsappManager.js] and of the store helpers of
    [config/database.js], with the properties of its specification.

    The manager is effectful JavaScript: every [await] talks to the
    persistent store (Supabase), to a webhook subscriber (axios) or to the
    transport (whatsapp-web.js).  It is embedded as a state-and-exception
    monad over a [World]; the answers of the outside world are read from an
    environment [Env], and every call to the store, to a subscriber or to
    a transport client is recorded in a trace. *)

From Stdlib Require Import Ascii String List Bool Arith ZArith Lia.
From stdpp Require Import base gmap strings.
Import ListNotations.

Local Open Scope string_scope.
Local Open Scope list_scope.

(* stdpp blocks [simpl] on string concatenation; the proofs below compute
   with it. *)
#[local] Arguments String.append !_ _ : simpl nomatch.

(** ** JavaScript strings

    A string is a sequence of code units; only the ASCII range matters to
    the code below (every other unit is neither a digit nor a plus sign). *)

Module Js.

(** The class [\d] of a regular expression without the [u] flag: 0-9. *)
Definition is_digit (c : ascii) : bool :=
  (48 <=? nat_of_ascii c)%nat && (nat_of_ascii c <=? 57)%nat.

(** [s.replace(/[^\d+]/g, '')]: every code unit outside the class
    "digit or plus" is replaced by the empty string. *)
Definition in_class_digit_plus (c : ascii) : bool :=
  is_digit c || Ascii.eqb c "+"%char.

Fixpoint replace_non_digit_plus (s : string) : string :=
  match s with
  | EmptyString => EmptyString
  | String c rest =>
      if in_class_digit_plus c
      then String c (replace_non_digit_plus rest)
      else replace_non_digit_plus rest
  end.

(** [s.startsWith(p)] *)
Fixpoint startsWith (s p : string) : bool :=
  match p, s with
  | EmptyString, _ => true
  | String _ _, EmptyString => false
  | String a p', String b s' => Ascii.eqb a b && startsWith s' p'
  end.

(** [s.includes(c)] for a single code unit. *)
Fixpoint includes (s : string) (c : ascii) : bool :=
  match s with
  | EmptyString => false
  | String b rest => Ascii.eqb b c || includes rest c
  end.

(** [s.slice(0, s.length - n)] *)
Definition drop_last (n : nat) (s : string) : string :=
  substring 0 (String.length s - n) s.

(** Template literal interpolation of a value that may be [undefined]. *)
Definition interpolate (v : option string) : string :=
  match v with
  | Some s => s
  | None => "undefined"
  end.

End Js.

(** ** [formatPhoneNumber] (whatsappManager.js, lines 325-336) *)

Definition default_country_code : string := "+91".
Definition address_suffix : string := "@c.us".

Definition formatPhoneNumber (number : string) : string :=
  let cleaned := Js.replace_non_digit_plus number in
  let cleaned :=
    if negb (Js.startsWith cleaned "+")
    then default_country_code +:+ cleaned
    else cleaned in
  cleaned +:+ address_suffix.

(** The part of a formatted address before the transport suffix. *)
Definition address_body (formatted : string) : string :=
  Js.drop_last (String.length address_suffix) formatted.

(** "A plus sign occurs in the leading position only." *)
Definition plus_only_leading (s : string) : bool :=
  match s with
  | EmptyString => true
  | String _ rest => negb (Js.includes rest "+"%char)
  end.

(** ** Data model

    The rows of the three tables of the persistent store and the objects
    handed over by the transport, with the field names of the source.  An
    optional field (absent from the object literal, [undefined] or
    [null]) is an [option]. *)

Module Account.
Record t := {
  id : string;
  name : string;
  description : string;
  status : string;
  session_dir : option string;
  phone_number : option string;
  qr_code : option string;
  error_message : option string;
  created_at : string;
  updated_at : option string
}.

(** The object passed to [db.updateAccount]: the columns to overwrite. *)
Record updates := {
  set_status : option string;
  set_phone_number : option string;
  set_qr_code : option string;
  set_error_message : option string;
  set_updated_at : option string
}.

Definition overwrite {A} (new : option A) (old : option A) : option A :=
  match new with
  | Some v => Some v
  | None => old
  end.

Definition apply (u : updates) (a : t) : t :=
  {| id := id a;
     name := name a;
     description := description a;
     status := match set_status u with Some s => s | None => status a end;
     session_dir := session_dir a;
     phone_number := overwrite (set_phone_number u) (phone_number a);
     qr_code := overwrite (set_qr_code u) (qr_code a);
     error_message := overwrite (set_error_message u) (error_message a);
     created_at := created_at a;
     updated_at := overwrite (set_updated_at u) (updated_at a) |}.
End Account.

Module Webhook.
Record t := {
  id : string;
  account_id : string;
  url : string;
  secret : option string;
  is_active : bool;
  created_at : string
}.
End Webhook.

Module Media.
Record t := {
  mimetype : string;
  data : string;
  filename : option string
}.
End Media.

Module MessageLog.
Record t := {
  account_id : string;
  direction : string;
  message_id : option string;
  sender : option string;
  recipient : option string;
  message : option string;
  timestamp : option Z;
  type : option string;
  chat_id : option string;
  is_group : option bool;
  group_name : option string;
  media : option Media.t;
  status : option string;
  webhook_id : option string;
  webhook_url : option string;
  response_status : option Z;
  error_message : option string;
  created_at : string
}.
End MessageLog.

(** What [getMessageStats] returns. *)
Module Stats.
Record t := {
  total : nat;
  incoming : nat;
  outgoing : nat;
  success : nat;
  failed : nat
}.
End Stats.

(** ** Results of calls that may throw

    A thrown value is represented by its [message], the only member the
    code reads. *)

Inductive Res (A : Type) : Type :=
| Ok (value : A)
| Throw (message : string).
Arguments Ok {A} value.
Arguments Throw {A} message.

(** ** Objects of the transport (whatsapp-web.js) *)

Module Chat.
Record t := {
  id_serialized : string;
  isGroup : bool;
  name : string
}.
End Chat.

(** An inbound message event.  [getChat] and [downloadMedia] are the
    outcomes of the two asynchronous methods of the message object;
    [downloadMedia] may resolve to [undefined]. *)
Module Message.
Record t := {
  id_serialized : string;
  from : string;
  to : string;
  body : string;
  timestamp : Z;
  type : string;
  hasMedia : bool;
  getChat : Res Chat.t;
  downloadMedia : Res (option Media.t)
}.
End Message.

(** The value [client.sendMessage] resolves to. *)
Module Sent.
Record t := {
  id_serialized : string;
  from : string;
  to : string;
  timestamp : Z
}.
End Sent.

(** What [sendMessage] of the manager returns. *)
Module Receipt.
Record t := {
  success : bool;
  messageId : string;
  timestamp : Z
}.
End Receipt.

(** A transport client as the manager sees it: [pupPage] is [undefined]
    until the browser page exists; a page may be [_closed]. *)
Module Client.
Record page := { _closed : bool }.
Record t := {
  clientId : string;
  dataPath : string;
  pupPage : option page
}.
End Client.

(** The request [axios.post(url, data, config)] of the dispatcher. *)
Module Axios.
Record request := {
  url : string;
  data : MessageLog.t;
  content_type : string;
  x_webhook_secret : string;
  x_account_id : string;
  timeout : Z
}.
Record response := { status : Z }.
End Axios.

(** ** The outside world *)

(** The queries this program sends to the store. *)
Inductive Query : Type :=
| InsertMessageLog (row : MessageLog.t)
| SelectWebhooks (account_id : string)
| SelectAccounts
| UpdateAccount (id : string) (updates : Account.updates)
| SelectMessageStats (account_id : string).

(** Calls that leave the process, in the order they are made. *)
Inductive Effect : Type :=
| Supabase (q : Query)
| AxiosPost (r : Axios.request)
| ClientInitialize (accountId : string)
| ClientSendMessage (accountId to body : string).

(** How the outside world answers.  [supabase_error q] is the [error]
    member of the answer to [q] ([None] for [null]); [axios_post]
    resolves to a response or rejects (timeout, network error, status
    outside 2xx); [client_initialize] gives the rejection of
    [client.initialize()], if any; [clock n] is the value of
    [new Date().toISOString()] at the [n]-th reading.  An answer depends
    on the request alone: the outside world is deterministic. *)
Record Env := {
  supabase_error : Query -> option string;
  axios_post : Axios.request -> Res Axios.response;
  client_initialize : string -> option string;
  client_sendMessage : string -> string -> string -> Res Sent.t;
  clock : nat -> string
}.

(** The manager's three maps, the three tables, the trace of effects and
    the number of clock readings so far. *)
Record World := {
  clients : gmap string Client.t;
  qrCodes : gmap string string;
  accountStatus : gmap string string;
  whatsapp_accounts : list Account.t;
  webhooks : list Webhook.t;
  message_logs : list MessageLog.t;
  trace : list Effect;
  ticks : nat
}.

(** ** The monad of asynchronous code: state and exceptions *)

Definition M (A : Type) : Type := World -> Res A * World.

Definition ret {A} (a : A) : M A := fun w => (Ok a, w).

Definition throw {A} (message : string) : M A := fun w => (Throw message, w).

Definition bind {A B} (m : M A) (k : A -> M B) : M B :=
  fun w =>
    match m w with
    | (Ok a, w') => k a w'
    | (Throw e, w') => (Throw e, w')
    end.

(** [try { body } catch (error) { handler }] *)
Definition try_catch {A} (body : M A) (handler : string -> M A) : M A :=
  fun w =>
    match body w with
    | (Ok a, w') => (Ok a, w')
    | (Throw e, w') => handler e w'
    end.

Declare Scope js_scope.
Delimit Scope js_scope with js.
Notation "x <- m ;; k" := (bind m (fun x => k))
  (at level 100, m at next level, right associativity) : js_scope.
Notation "m ;;; k" := (bind m (fun _ => k))
  (at level 100, right associativity) : js_scope.
Local Open Scope js_scope.

(** [for (const x of xs) { body }] *)
Fixpoint for_of {A} (xs : list A) (body : A -> M unit) : M unit :=
  match xs with
  | [] => ret tt
  | x :: rest => body x ;;; for_of rest body
  end.

Definition get {A} (proj : World -> A) : M A := fun w => (Ok (proj w), w).

Definition emit (e : Effect) : M unit :=
  fun w =>
    (Ok tt,
     {| clients := clients w; qrCodes := qrCodes w;
        accountStatus := accountStatus w;
        whatsapp_accounts := whatsapp_accounts w; webhooks := webhooks w;
        message_logs := message_logs w;
        trace := trace w ++ [e]; ticks := ticks w |}).

Definition set_message_logs (rows : list MessageLog.t) : M unit :=
  fun w =>
    (Ok tt,
     {| clients := clients w; qrCodes := qrCodes w;
        accountStatus := accountStatus w;
        whatsapp_accounts := whatsapp_accounts w; webhooks := webhooks w;
        message_logs := rows;
        trace := trace w; ticks := ticks w |}).

Definition set_whatsapp_accounts (rows : list Account.t) : M unit :=
  fun w =>
    (Ok tt,
     {| clients := clients w; qrCodes := qrCodes w;
        accountStatus := accountStatus w;
        whatsapp_accounts := rows; webhooks := webhooks w;
        message_logs := message_logs w;
        trace := trace w; ticks := ticks w |}).

Definition set_clients (m : gmap string Client.t) : M unit :=
  fun w =>
    (Ok tt,
     {| clients := m; qrCodes := qrCodes w;
        accountStatus := accountStatus w;
        whatsapp_accounts := whatsapp_accounts w; webhooks := webhooks w;
        message_logs := message_logs w;
        trace := trace w; ticks := ticks w |}).

Definition set_accountStatus (m : gmap string string) : M unit :=
  fun w =>
    (Ok tt,
     {| clients := clients w; qrCodes := qrCodes w;
        accountStatus := m;
        whatsapp_accounts := whatsapp_accounts w; webhooks := webhooks w;
        message_logs := message_logs w;
        trace := trace w; ticks := ticks w |}).

Definition lift {A} (r : Res A) : M A := fun w => (r, w).

(** [new Date().toISOString()] *)
Definition now (env : Env) : M string :=
  fun w =>
    (Ok (clock env (ticks w)),
     {| clients := clients w; qrCodes := qrCodes w;
        accountStatus := accountStatus w;
        whatsapp_accounts := whatsapp_accounts w; webhooks := webhooks w;
        message_logs := message_logs w;
        trace := trace w; ticks := S (ticks w) |}).

(** ** The store helpers (config/database.js)

    Each helper sends one query and throws the [error] of the answer when
    there is one.  A table is kept in the order its [select] lists it. *)

Module db.

Definition query (env : Env) (q : Query) : M unit :=
  emit (Supabase q) ;;;
  match supabase_error env q with
  | Some error => throw error
  | None => ret tt
  end.

(** [logMessage]: insert one row into [message_logs]. *)
Definition logMessage (env : Env) (messageData : MessageLog.t)
  : M MessageLog.t :=
  query env (InsertMessageLog messageData) ;;;
  rows <- get message_logs ;;
  set_message_logs (rows ++ [messageData]) ;;;
  ret messageData.

(** [getWebhooks]: the rows of [webhooks] with this [account_id]. *)
Definition getWebhooks (env : Env) (accountId : string)
  : M (list Webhook.t) :=
  query env (SelectWebhooks accountId) ;;;
  rows <- get webhooks ;;
  ret (List.filter
         (fun row => String.eqb (Webhook.account_id row) accountId) rows).

(** [getAccounts]: every row of [whatsapp_accounts]. *)
Definition getAccounts (env : Env) : M (list Account.t) :=
  query env SelectAccounts ;;;
  get whatsapp_accounts.

(** [updateAccount]: overwrite columns of the rows with this [id];
    resolves to the first updated row ([data[0]]). *)
Definition updateAccount (env : Env) (id : string)
  (updates : Account.updates) : M (option Account.t) :=
  query env (UpdateAccount id updates) ;;;
  rows <- get whatsapp_accounts ;;
  set_whatsapp_accounts
    (List.map (fun row => if String.eqb (Account.id row) id
                          then Account.apply updates row else row) rows) ;;;
  ret (List.head
         (List.map (Account.apply updates)
            (List.filter (fun row => String.eqb (Account.id row) id) rows))).

Definition has_direction (d : string) (m : MessageLog.t) : bool :=
  String.eqb (MessageLog.direction m) d.

Definition has_status (s : string) (m : MessageLog.t) : bool :=
  match MessageLog.status m with
  | Some x => String.eqb x s
  | None => false
  end.

(** The aggregation of [getMessageStats] over the selected rows. *)
Definition stats_of (data : list MessageLog.t) : Stats.t :=
  {| Stats.total := length data;
     Stats.incoming := length (List.filter (has_direction "incoming") data);
     Stats.outgoing := length (List.filter (has_direction "outgoing") data);
     Stats.success := length (List.filter (has_status "success") data);
     Stats.failed := length (List.filter (has_status "failed") data) |}.

Definition getMessageStats (env : Env) (accountId : string) : M Stats.t :=
  query env (SelectMessageStats accountId) ;;;
  rows <- get message_logs ;;
  let data :=
    List.filter
      (fun row => String.eqb (MessageLog.account_id row) accountId) rows in
  ret (stats_of data).

End db.

(** ** The manager (utils/whatsappManager.js) *)

(** [axios.post(webhook.url, messageData, { headers, timeout: 10000 })] *)
Definition webhook_request (accountId : string) (messageData : MessageLog.t)
  (webhook : Webhook.t) : Axios.request :=
  {| Axios.url := Webhook.url webhook;
     Axios.data := messageData;
     Axios.content_type := "application/json";
     Axios.x_webhook_secret :=
       match Webhook.secret webhook with
       | Some s => s
       | None => ""
       end;
     Axios.x_account_id := accountId;
     Axios.timeout := 10000%Z |}.

Definition post (env : Env) (r : Axios.request) : M Axios.response :=
  emit (AxiosPost r) ;;; lift (axios_post env r).

Definition delivery_success (accountId : string) (webhook : Webhook.t)
  (response : Axios.response) (created : string) : MessageLog.t :=
  {| MessageLog.account_id := accountId;
     MessageLog.direction := "webhook";
     MessageLog.message_id := None;
     MessageLog.sender := None;
     MessageLog.recipient := None;
     MessageLog.message := None;
     MessageLog.timestamp := None;
     MessageLog.type := None;
     MessageLog.chat_id := None;
     MessageLog.is_group := None;
     MessageLog.group_name := None;
     MessageLog.media := None;
     MessageLog.status := Some "success";
     MessageLog.webhook_id := Some (Webhook.id webhook);
     MessageLog.webhook_url := Some (Webhook.url webhook);
     MessageLog.response_status := Some (Axios.status response);
     MessageLog.error_message := None;
     MessageLog.created_at := created |}.

Definition delivery_failed (accountId : string) (webhook : Webhook.t)
  (error : string) (created : string) : MessageLog.t :=
  {| MessageLog.account_id := accountId;
     MessageLog.direction := "webhook";
     MessageLog.message_id := None;
     MessageLog.sender := None;
     MessageLog.recipient := None;
     MessageLog.message := None;
     MessageLog.timestamp := None;
     MessageLog.type := None;
     MessageLog.chat_id := None;
     MessageLog.is_group := None;
     MessageLog.group_name := None;
     MessageLog.media := None;
     MessageLog.status := Some "failed";
     MessageLog.webhook_id := Some (Webhook.id webhook);
     MessageLog.webhook_url := Some (Webhook.url webhook);
     MessageLog.response_status := None;
     MessageLog.error_message := Some error;
     MessageLog.created_at := created |}.

(** The body of the loop of [sendToWebhooks] (lines 210-246). *)
Definition deliver (env : Env) (accountId : string)
  (messageData : MessageLog.t) (webhook : Webhook.t) : M unit :=
  if negb (Webhook.is_active webhook) then ret tt   (* continue *)
  else
    try_catch
      (response <- post env (webhook_request accountId messageData webhook) ;;
       created <- now env ;;
       db.logMessage env
         (delivery_success accountId webhook response created) ;;;
       ret tt)
      (fun error =>
         created <- now env ;;
         db.logMessage env
           (delivery_failed accountId webhook error created) ;;;
         ret tt).

(** [sendToWebhooks] (lines 206-250); the outer handler only writes to
    the console. *)
Definition sendToWebhooks (env : Env) (accountId : string)
  (messageData : MessageLog.t) : M unit :=
  try_catch
    (webhooks <- db.getWebhooks env accountId ;;
     for_of webhooks (deliver env accountId messageData))
    (fun error => ret tt).

(** [client.sendMessage(formattedNumber, message, options)] on the client
    of [accountId]. *)
Definition transport_send (env : Env) (accountId to body : string)
  : M Sent.t :=
  emit (ClientSendMessage accountId to body) ;;;
  lift (client_sendMessage env accountId to body).

Definition outgoing_success (accountId message : string) (result : Sent.t)
  (created : string) : MessageLog.t :=
  {| MessageLog.account_id := accountId;
     MessageLog.direction := "outgoing";
     MessageLog.message_id := Some (Sent.id_serialized result);
     MessageLog.sender := Some (Sent.from result);
     MessageLog.recipient := Some (Sent.to result);
     MessageLog.message := Some message;
     MessageLog.timestamp := Some (Sent.timestamp result);
     MessageLog.type := Some "text";
     MessageLog.chat_id := None;
     MessageLog.is_group := None;
     MessageLog.group_name := None;
     MessageLog.media := None;
     MessageLog.status := Some "success";
     MessageLog.webhook_id := None;
     MessageLog.webhook_url := None;
     MessageLog.response_status := None;
     MessageLog.error_message := None;
     MessageLog.created_at := created |}.

Definition outgoing_failed (accountId number message error : string)
  (created : string) : MessageLog.t :=
  {| MessageLog.account_id := accountId;
     MessageLog.direction := "outgoing";
     MessageLog.message_id := None;
     MessageLog.sender := None;
     MessageLog.recipient := Some number;
     MessageLog.message := Some message;
     MessageLog.timestamp := None;
     MessageLog.type := None;
     MessageLog.chat_id := None;
     MessageLog.is_group := None;
     MessageLog.group_name := None;
     MessageLog.media := None;
     MessageLog.status := Some "failed";
     MessageLog.webhook_id := None;
     MessageLog.webhook_url := None;
     MessageLog.response_status := None;
     MessageLog.error_message := Some error;
     MessageLog.created_at := created |}.

Definition client_not_found : string :=
  "WhatsApp client not found for this account".

Definition client_not_ready (status : option string) : string :=
  "WhatsApp client is not ready. Current status: " +:+ Js.interpolate status.

Definition page_not_available : string :=
  "WhatsApp client page is closed or not available".

(** [status !== 'ready'], where [status] may be [undefined]. *)
Definition is_not_ready (status : option string) : bool :=
  match status with
  | Some s => negb (String.eqb s "ready")
  | None => true
  end.

(** [!client.pupPage || client.pupPage._closed] *)
Definition page_unavailable (client : Client.t) : bool :=
  match Client.pupPage client with
  | None => true
  | Some page => Client._closed page
  end.

(** [sendMessage] (lines 253-322).  The [options] argument is passed on
    to the transport untouched and is left out. *)
Definition sendMessage (env : Env) (accountId number message : string)
  : M Receipt.t :=
  try_catch
    (registry <- get clients ;;
     match registry !! accountId with
     | None => throw client_not_found
     | Some client =>
         statuses <- get accountStatus ;;
         let status := statuses !! accountId in
         if is_not_ready status then throw (client_not_ready status)
         else if page_unavailable client then throw page_not_available
         else
           let formattedNumber := formatPhoneNumber number in
           result <- transport_send env accountId formattedNumber message ;;
           created <- now env ;;
           db.logMessage env
             (outgoing_success accountId message result created) ;;;
           ret {| Receipt.success := true;
                  Receipt.messageId := Sent.id_serialized result;
                  Receipt.timestamp := Sent.timestamp result |}
     end)
    (fun error =>
       created <- now env ;;
       db.logMessage env
         (outgoing_failed accountId number message error created) ;;;
       throw error).

Definition incoming_entry (accountId : string) (message : Message.t)
  (chat : Chat.t) (media : option Media.t) (created : string)
  : MessageLog.t :=
  {| MessageLog.account_id := accountId;
     MessageLog.direction := "incoming";
     MessageLog.message_id := Some (Message.id_serialized message);
     MessageLog.sender := Some (Message.from message);
     MessageLog.recipient := Some (Message.to message);
     MessageLog.message := Some (Message.body message);
     MessageLog.timestamp := Some (Message.timestamp message);
     MessageLog.type := Some (Message.type message);
     MessageLog.chat_id := Some (Chat.id_serialized chat);
     MessageLog.is_group := Some (Chat.isGroup chat);
     MessageLog.group_name :=
       if Chat.isGroup chat then Some (Chat.name chat) else None;
     MessageLog.media := media;
     MessageLog.status := None;
     MessageLog.webhook_id := None;
     MessageLog.webhook_url := None;
     MessageLog.response_status := None;
     MessageLog.error_message := None;
     MessageLog.created_at := created |}.

Definition incoming_failed (accountId error : string) (created : string)
  : MessageLog.t :=
  {| MessageLog.account_id := accountId;
     MessageLog.direction := "incoming";
     MessageLog.message_id := None;
     MessageLog.sender := None;
     MessageLog.recipient := None;
     MessageLog.message := None;
     MessageLog.timestamp := None;
     MessageLog.type := None;
     MessageLog.chat_id := None;
     MessageLog.is_group := None;
     MessageLog.group_name := None;
     MessageLog.media := None;
     MessageLog.status := Some "failed";
     MessageLog.webhook_id := None;
     MessageLog.webhook_url := None;
     MessageLog.response_status := None;
     MessageLog.error_message := Some error;
     MessageLog.created_at := created |}.

(** Reading [media.mimetype] when [downloadMedia] resolved to
    [undefined]. *)
Definition undefined_media : string :=
  "Cannot read properties of undefined (reading 'mimetype')".

(** Lines 176-183: the media descriptor added to [messageData]. *)
Definition attach_media (message : Message.t) : M (option Media.t) :=
  if Message.hasMedia message then
    media <- lift (Message.downloadMedia message) ;;
    match media with
    | Some m => ret (Some m)
    | None => throw undefined_media
    end
  else ret None.

(** [handleIncomingMessage] (lines 155-203).  The [client] argument is
    not used by the body. *)
Definition handleIncomingMessage (env : Env) (client : Client.t)
  (accountId : string) (message : Message.t) : M unit :=
  try_catch
    (chat <- lift (Message.getChat message) ;;
     created <- now env ;;
     media <- attach_media message ;;
     let messageData := incoming_entry accountId message chat media created in
     db.logMessage env messageData ;;;
     sendToWebhooks env accountId messageData)
    (fun error =>
       created <- now env ;;
       db.logMessage env (incoming_failed accountId error created) ;;;
       ret tt).

(** [client.initialize()]: on success the client of the registry has its
    browser page. *)
Definition transport_initialize (env : Env) (accountId : string) : M unit :=
  emit (ClientInitialize accountId) ;;;
  match client_initialize env accountId with
  | Some error => throw error
  | None =>
      registry <- get clients ;;
      set_clients
        (alter (fun c => {| Client.clientId := Client.clientId c;
                            Client.dataPath := Client.dataPath c;
                            Client.pupPage :=
                              Some {| Client._closed := false |} |})
               accountId registry)
  end.

Definition mark_disconnected (updated : string) : Account.updates :=
  {| Account.set_status := Some "disconnected";
     Account.set_phone_number := None;
     Account.set_qr_code := None;
     Account.set_error_message := None;
     Account.set_updated_at := Some updated |}.

(** [reconnectAccount] (lines 395-440).  [setupEventHandlers] only
    registers callbacks; nothing runs until the transport emits. *)
Definition reconnectAccount (env : Env) (account : Account.t) : M unit :=
  let id := Account.id account in
  try_catch
    (let sessionDir := "./sessions/" +:+ id in
     let client := {| Client.clientId := id;
                      Client.dataPath := sessionDir;
                      Client.pupPage := None |} in
     registry <- get clients ;;
     set_clients (<[id := client]> registry) ;;;
     statuses <- get accountStatus ;;
     set_accountStatus (<[id := "initializing"]> statuses) ;;;
     transport_initialize env id)
    (fun error =>
       updated <- now env ;;
       db.updateAccount env id (mark_disconnected updated) ;;;
       statuses <- get accountStatus ;;
       set_accountStatus (<[id := "disconnected"]> statuses)).

(** The test of line 385. *)
Definition to_reconnect (account : Account.t) : bool :=
  String.eqb (Account.status account) "ready"
  || String.eqb (Account.status account) "qr_ready".

(** [initializeExistingAccounts] (lines 380-392). *)
Definition initializeExistingAccounts (env : Env) : M unit :=
  try_catch
    (accounts <- db.getAccounts env ;;
     for_of accounts
       (fun account =>
          if to_reconnect account then reconnectAccount env account
          else ret tt))
    (fun error => ret tt).

(** * Vocabulary of the statements *)

(** ** Runs *)

(** The world [w] after more rows were appended to [message_logs], more
    effects to the trace, and the clock was read [reads] more times. *)
Definition after (w : World) (rows : list MessageLog.t)
  (effects : list Effect) (reads : nat) : World :=
  {| clients := clients w; qrCodes := qrCodes w;
     accountStatus := accountStatus w;
     whatsapp_accounts := whatsapp_accounts w; webhooks := webhooks w;
     message_logs := message_logs w ++ rows;
     trace := trace w ++ effects;
     ticks := reads + ticks w |}.

(** The store answers every query without an error. *)
Definition store_available (env : Env) : Prop :=
  forall q, supabase_error env q = None.

(** A computation that only appends: it leaves the registry and the
    tables of accounts and webhooks alone, and only adds rows to the log
    and effects to the trace.  Everything in the manager but the
    reconnection code is of this kind. *)
Definition appends {A} (m : M A) : Prop :=
  forall w, exists result rows effects reads,
    m w = (result, after w rows effects reads).

(** ** Dispatch *)

(** The webhooks [db.getWebhooks] lists for an account. *)
Definition subscribers (accountId : string) (w : World) : list Webhook.t :=
  List.filter (fun row => String.eqb (Webhook.account_id row) accountId)
    (webhooks w).

(** The row one delivery attempt leaves in the log when the store accepts
    it, the clock reading being the [tick]-th. *)
Definition delivery_entry (env : Env) (accountId : string)
  (messageData : MessageLog.t) (webhook : Webhook.t) (tick : nat)
  : MessageLog.t :=
  match axios_post env (webhook_request accountId messageData webhook) with
  | Ok response =>
      delivery_success accountId webhook response (clock env tick)
  | Throw error =>
      delivery_failed accountId webhook error (clock env tick)
  end.

Fixpoint delivery_entries (env : Env) (accountId : string)
  (messageData : MessageLog.t) (hooks : list Webhook.t) (tick : nat)
  : list MessageLog.t :=
  match hooks with
  | [] => []
  | webhook :: rest =>
      if Webhook.is_active webhook
      then delivery_entry env accountId messageData webhook tick
           :: delivery_entries env accountId messageData rest (S tick)
      else delivery_entries env accountId messageData rest tick
  end.

Fixpoint delivery_effects (env : Env) (accountId : string)
  (messageData : MessageLog.t) (hooks : list Webhook.t) (tick : nat)
  : list Effect :=
  match hooks with
  | [] => []
  | webhook :: rest =>
      if Webhook.is_active webhook
      then AxiosPost (webhook_request accountId messageData webhook)
           :: Supabase (InsertMessageLog
                (delivery_entry env accountId messageData webhook tick))
           :: delivery_effects env accountId messageData rest (S tick)
      else delivery_effects env accountId messageData rest tick
  end.

Definition active (hooks : list Webhook.t) : list Webhook.t :=
  List.filter Webhook.is_active hooks.

Definition inactive (hooks : list Webhook.t) : list Webhook.t :=
  List.filter (fun webhook => negb (Webhook.is_active webhook)) hooks.

(** What a delivery-outcome row says about the attempt it records: the
    subscriber, its address and the outcome. *)
Definition records_delivery (accountId : string) (webhook : Webhook.t)
  (delivered : Res Axios.response) (row : MessageLog.t) : Prop :=
  MessageLog.direction row = "webhook"
  /\ MessageLog.account_id row = accountId
  /\ MessageLog.webhook_id row = Some (Webhook.id webhook)
  /\ MessageLog.webhook_url row = Some (Webhook.url webhook)
  /\ MessageLog.status row
     = Some (match delivered with
             | Ok _ => "success"
             | Throw _ => "failed"
             end).

(** A world with three webhooks of account ["acc"], the second one
    switched off, and the log holding the incoming message ["hi"]. *)
Module Scenario.

Definition w1 : Webhook.t :=
  {| Webhook.id := "w1"; Webhook.account_id := "acc";
     Webhook.url := "https://one.example/hook";
     Webhook.secret := Some "s3cret"; Webhook.is_active := true;
     Webhook.created_at := "2024-01-03T00:00:00.000Z" |}.

Definition w_off : Webhook.t :=
  {| Webhook.id := "w0"; Webhook.account_id := "acc";
     Webhook.url := "https://off.example/hook";
     Webhook.secret := None; Webhook.is_active := false;
     Webhook.created_at := "2024-01-02T00:00:00.000Z" |}.

Definition w2 : Webhook.t :=
  {| Webhook.id := "w2"; Webhook.account_id := "acc";
     Webhook.url := "https://two.example/hook";
     Webhook.secret := None; Webhook.is_active := true;
     Webhook.created_at := "2024-01-01T00:00:00.000Z" |}.

Definition hi : Message.t :=
  {| Message.id_serialized := "false_15550001@c.us_AA";
     Message.from := "15550001@c.us";
     Message.to := "15550002@c.us";
     Message.body := "hi";
     Message.timestamp := 1700000000;
     Message.type := "chat";
     Message.hasMedia := false;
     Message.getChat :=
       Ok {| Chat.id_serialized := "15550001@c.us";
             Chat.isGroup := false; Chat.name := "Ann" |};
     Message.downloadMedia := Ok None |}.

Definition chat_of_hi : Chat.t :=
  {| Chat.id_serialized := "15550001@c.us";
     Chat.isGroup := false; Chat.name := "Ann" |}.

Definition hi_entry : MessageLog.t :=
  incoming_entry "acc" hi chat_of_hi None "2024-02-01T10:00:00.000Z".

Definition sent : Sent.t :=
  {| Sent.id_serialized := "true_919876543210@c.us_BB";
     Sent.from := "15550002@c.us";
     Sent.to := "919876543210@c.us";
     Sent.timestamp := 1700000100 |}.

(** Every query is answered; every delivery but the one to [w2] gets a
    response; the transport initialises and sends. *)
Definition env : Env :=
  {| supabase_error := fun _ => None;
     axios_post := fun r =>
       if String.eqb (Axios.url r) "https://two.example/hook"
       then Throw "timeout of 10000ms exceeded"
       else Ok {| Axios.status := 200 |};
     client_initialize := fun _ => None;
     client_sendMessage := fun _ _ _ => Ok sent;
     clock := fun _ => "2024-02-01T10:00:01.000Z" |}.

(** The same, but the delivery to [w1] is refused too. *)
Definition env_w1_down : Env :=
  {| supabase_error := fun _ => None;
     axios_post := fun r =>
       if String.eqb (Axios.url r) "https://two.example/hook"
       then Throw "timeout of 10000ms exceeded"
       else Throw "connect ECONNREFUSED";
     client_initialize := fun _ => None;
     client_sendMessage := fun _ _ _ => Ok sent;
     clock := fun _ => "2024-02-01T10:00:07.000Z" |}.

Definition world : World :=
  {| clients := ∅; qrCodes := ∅; accountStatus := ∅;
     whatsapp_accounts := [];
     webhooks := [w1; w_off; w2];
     message_logs := [hi_entry];
     trace := []; ticks := 0 |}.

End Scenario.

(** The outcome a delivery row records, without the time of writing. *)
Definition outcome (row : MessageLog.t)
  : option string * option string * option string * option Z
    * option string :=
  (MessageLog.webhook_id row, MessageLog.webhook_url row,
   MessageLog.status row, MessageLog.response_status row,
   MessageLog.error_message row).

(** The delivery rows written for the webhook with id [webhookId]. *)
Definition recorded_for (webhookId : string) (row : MessageLog.t) : bool :=
  String.eqb (MessageLog.direction row) "webhook"
  && match MessageLog.webhook_id row with
     | Some i => String.eqb i webhookId
     | None => false
     end.

Definition outcomes_for (webhookId : string) (rows : list MessageLog.t) :=
  List.map outcome (List.filter (recorded_for webhookId) rows).

(** ** Outbound sends *)

(** The messages handed to the transport, in order: the arguments of the
    calls to [client.sendMessage] in a trace. *)
Definition sends (effects : list Effect) : list (string * string * string) :=
  List.flat_map
    (fun effect =>
       match effect with
       | ClientSendMessage accountId to body => [(accountId, to, body)]
       | _ => []
       end)
    effects.

(** The error of the three checks [sendMessage] makes before it talks to
    the transport (lines 257-274), if one of them fails. *)
Definition send_refusal (w : World) (accountId : string) : option string :=
  match clients w !! accountId with
  | None => Some client_not_found
  | Some client =>
      let status := accountStatus w !! accountId in
      if is_not_ready status then Some (client_not_ready status)
      else if page_unavailable client then Some page_not_available
      else None
  end.

Module SendExample.

Definition client : Client.t :=
  {| Client.clientId := "acc"; Client.dataPath := "./sessions/acc";
     Client.pupPage := Some {| Client._closed := false |} |}.

(** Account ["acc"] has a live session that still shows its QR code. *)
Definition world_qr : World :=
  {| clients := {[ "acc" := client ]}; qrCodes := ∅;
     accountStatus := {[ "acc" := "qr_ready" ]};
     whatsapp_accounts := []; webhooks := []; message_logs := [];
     trace := []; ticks := 0 |}.

(** The same session once it is ready. *)
Definition world_ready : World :=
  {| clients := {[ "acc" := client ]}; qrCodes := ∅;
     accountStatus := {[ "acc" := "ready" ]};
     whatsapp_accounts := []; webhooks := []; message_logs := [];
     trace := []; ticks := 0 |}.

End SendExample.

(** ** Ingestion *)

(** The media descriptor of lines 176-183, as a value. *)
Definition media_of (message : Message.t) : Res (option Media.t) :=
  if Message.hasMedia message then
    match Message.downloadMedia message with
    | Ok (Some m) => Ok (Some m)
    | Ok None => Throw undefined_media
    | Throw e => Throw e
    end
  else Ok None.

(** The error that stops the ingestion of a message before the dispatch,
    if there is one: [getChat] or the media download fails
    (normalisation), or the store rejects the incoming row
    (persistence).  [tick] is the clock reading of [created_at]. *)
Definition ingestion_failure (env : Env) (accountId : string)
  (message : Message.t) (tick : nat) : option string :=
  match Message.getChat message with
  | Throw e => Some e
  | Ok chat =>
      match media_of message with
      | Throw e => Some e
      | Ok media =>
          supabase_error env
            (InsertMessageLog
               (incoming_entry accountId message chat media
                  (clock env tick)))
      end
  end.

(** The handler of line 191. *)
Definition log_ingestion_failure (env : Env) (accountId error : string)
  : M unit :=
  created <- now env ;;
  db.logMessage env (incoming_failed accountId error created) ;;;
  ret tt.

(** The effects of a dispatch: asking for the webhooks, posting to one. *)
Definition is_dispatch (e : Effect) : bool :=
  match e with
  | Supabase (SelectWebhooks _) => true
  | AxiosPost _ => true
  | _ => false
  end.

Module IngestExample.

(** A message whose chat cannot be fetched. *)
Definition orphan : Message.t :=
  {| Message.id_serialized := "false_15550001@c.us_CC";
     Message.from := "15550001@c.us";
     Message.to := "15550002@c.us";
     Message.body := "lost";
     Message.timestamp := 1700000200;
     Message.type := "chat";
     Message.hasMedia := false;
     Message.getChat := Throw "Evaluation failed: chat not found";
     Message.downloadMedia := Ok None |}.

Definition empty_world : World :=
  {| clients := ∅; qrCodes := ∅; accountStatus := ∅;
     whatsapp_accounts := [];
     webhooks := [Scenario.w1; Scenario.w_off; Scenario.w2];
     message_logs := []; trace := []; ticks := 0 |}.

(** A store that rejects every row of direction [incoming] which has no
    status, and accepts everything else. *)
Definition env_rejecting_incoming : Env :=
  {| supabase_error := fun q =>
       match q with
       | InsertMessageLog row =>
           match MessageLog.status row with
           | None => Some "null value in column status"
           | Some _ => None
           end
       | _ => None
       end;
     axios_post := axios_post Scenario.env;
     client_initialize := client_initialize Scenario.env;
     client_sendMessage := client_sendMessage Scenario.env;
     clock := clock Scenario.env |}.

End IngestExample.

(** ** Statistics *)

(** The rows [getMessageStats] selects for an account. *)
Definition rows_of (accountId : string) (w : World) : list MessageLog.t :=
  List.filter
    (fun row => String.eqb (MessageLog.account_id row) accountId)
    (message_logs w).

Definition no_status (row : MessageLog.t) : bool :=
  match MessageLog.status row with
  | None => true
  | Some _ => false
  end.

(** ** Start-up *)

(** The client object [reconnectAccount] builds for an account id. *)
Definition fresh_client (id : string) : Client.t :=
  {| Client.clientId := id;
     Client.dataPath := "./sessions/" +:+ id;
     Client.pupPage := None |}.

Definition launched_client (id : string) : Client.t :=
  {| Client.clientId := id;
     Client.dataPath := "./sessions/" +:+ id;
     Client.pupPage := Some {| Client._closed := false |} |}.

(** The world after a run of [reconnectAccount] for [id]. *)
Definition reconnected (w : World) (id : string) (client : Client.t)
  (status : string) (accounts : list Account.t) (effects : list Effect)
  (reads : nat) : World :=
  {| clients := <[id := client]> (clients w);
     qrCodes := qrCodes w;
     accountStatus := <[id := status]> (accountStatus w);
     whatsapp_accounts := accounts;
     webhooks := webhooks w;
     message_logs := message_logs w;
     trace := trace w ++ effects;
     ticks := reads + ticks w |}.

(** The rows of [whatsapp_accounts] after [updateAccount id updates]. *)
Definition updated_accounts (id : string) (updates : Account.updates)
  (rows : list Account.t) : list Account.t :=
  List.map (fun row => if String.eqb (Account.id row) id
                       then Account.apply updates row else row) rows.

(** The account ids on which [client.initialize()] was called. *)
Definition attempts (effects : list Effect) : list string :=
  List.flat_map
    (fun effect =>
       match effect with
       | ClientInitialize id => [id]
       | _ => []
       end)
    effects.

(** The ids of the accounts the loop of line 384 selects. *)
Definition eligible (accounts : list Account.t) : list string :=
  List.map Account.id (List.filter to_reconnect accounts).


Definition reconnect_each (env : Env) (account : Account.t) : M unit :=
  if to_reconnect account then reconnectAccount env account else ret tt.

Module StartupExample.

Definition account (id status : string) : Account.t :=
  {| Account.id := id; Account.name := "Shop " +:+ id;
     Account.description := "";
     Account.status := status;
     Account.session_dir := Some ("./sessions/" +:+ id);
     Account.phone_number := None; Account.qr_code := None;
     Account.error_message := None;
     Account.created_at := "2024-01-01T00:00:00.000Z";
     Account.updated_at := None |}.

(** Four persisted accounts, one in each state a start-up can find. *)
Definition world : World :=
  {| clients := ∅; qrCodes := ∅; accountStatus := ∅;
     whatsapp_accounts :=
       [account "a-ready" "ready"; account "a-failed" "auth_failed";
        account "a-qr" "qr_ready"; account "a-gone" "disconnected"];
     webhooks := []; message_logs := []; trace := []; ticks := 0 |}.

(** The browser of ["a-qr"] cannot be launched. *)
Definition env : Env :=
  {| supabase_error := fun _ => None;
     axios_post := axios_post Scenario.env;
     client_initialize := fun id =>
       if String.eqb id "a-qr" then Some "Failed to launch the browser"
       else None;
     client_sendMessage := client_sendMessage Scenario.env;
     clock := fun _ => "2024-03-01T08:00:00.000Z" |}.

End StartupExample.

(** * The rest of the manager, and the routes that call it *)

(** ** More of the outside world

    The answers to the calls the code below adds: the rendering of a QR
    code ([qrcode.toDataURL]), the reading of [client.info.wid.user] on
    the client of an account (it throws while the client has no [info]),
    the rejection of [client.destroy()], and the [error] of the insert
    into and of the delete from [whatsapp_accounts].  These calls leave no
    entry in the trace. *)
Record Outside := {
  qrcode_toDataURL : string -> Res string;
  client_info_user : string -> Res string;
  client_destroy : string -> option string;
  insert_account_error : Account.t -> option string;
  delete_account_error : string -> option string
}.

Definition set_qrCodes (m : gmap string string) : M unit :=
  fun w =>
    (Ok tt,
     {| clients := clients w; qrCodes := m;
        accountStatus := accountStatus w;
        whatsapp_accounts := whatsapp_accounts w; webhooks := webhooks w;
        message_logs := message_logs w;
        trace := trace w; ticks := ticks w |}).

(** ** Account rows (config/database.js, lines 25-33 and 67-75)

    [getAccounts] lists the newest account first, so a new row goes to
    the front of the table. *)
Module db_accounts.

(** [createAccount]: insert one row; resolves to the inserted row. *)
Definition createAccount (out : Outside) (accountData : Account.t)
  : M Account.t :=
  match insert_account_error out accountData with
  | Some error => throw error
  | None =>
      rows <- get whatsapp_accounts ;;
      set_whatsapp_accounts (accountData :: rows) ;;;
      ret accountData
  end.

(** [deleteAccount]: delete the rows of [whatsapp_accounts] with this
    [id]; resolves to [true].  What the store does to the rows of other
    tables that refer to the account is set by its schema, which is not
    part of the sources: the model leaves those tables as they are. *)
Definition deleteAccount (out : Outside) (id : string) : M bool :=
  match delete_account_error out id with
  | Some error => throw error
  | None =>
      rows <- get whatsapp_accounts ;;
      set_whatsapp_accounts
        (List.filter (fun row => negb (String.eqb (Account.id row) id))
           rows) ;;;
      ret true
  end.

End db_accounts.

(** ** [createAccount] (whatsappManager.js, lines 16-69)

    [accountId] is the value [uuidv4()] returns; [description] is
    [undefined] when the caller leaves it out. *)
Definition createAccount (env : Env) (out : Outside) (accountId : string)
  (accountName : string) (description : option string) : M Account.t :=
  try_catch
    (let sessionDir := "./sessions/" +:+ accountId in
     created <- now env ;;
     let accountData :=
       {| Account.id := accountId;
          Account.name := accountName;
          Account.description :=
            match description with Some d => d | None => "" end;
          Account.status := "initializing";
          Account.session_dir := Some sessionDir;
          Account.phone_number := None;
          Account.qr_code := None;
          Account.error_message := None;
          Account.created_at := created;
          Account.updated_at := None |} in
     account <- db_accounts.createAccount out accountData ;;
     let client := {| Client.clientId := accountId;
                      Client.dataPath := sessionDir;
                      Client.pupPage := None |} in
     registry <- get clients ;;
     set_clients (<[accountId := client]> registry) ;;;
     statuses <- get accountStatus ;;
     set_accountStatus (<[accountId := "initializing"]> statuses) ;;;
     transport_initialize env accountId ;;;
     ret account)
    (fun error => throw error).

(** ** [setupEventHandlers] (lines 72-152)

    The events a transport client emits, and for each the handler the
    manager registers on the client of [accountId]. *)
Inductive Event : Type :=
| Qr (qr : string)
| Ready
| Authenticated
| AuthFailure (msg : string)
| Disconnected (reason : string)
| IncomingMessage (message : Message.t).

Definition mark_qr_ready (qrDataUrl updated : string) : Account.updates :=
  {| Account.set_status := Some "qr_ready";
     Account.set_phone_number := None;
     Account.set_qr_code := Some qrDataUrl;
     Account.set_error_message := None;
     Account.set_updated_at := Some updated |}.

Definition mark_ready (user updated : string) : Account.updates :=
  {| Account.set_status := Some "ready";
     Account.set_phone_number := Some user;
     Account.set_qr_code := None;
     Account.set_error_message := None;
     Account.set_updated_at := Some updated |}.

Definition mark_failed (status error updated : string) : Account.updates :=
  {| Account.set_status := Some status;
     Account.set_phone_number := None;
     Account.set_qr_code := None;
     Account.set_error_message := Some error;
     Account.set_updated_at := Some updated |}.

(** Lines 73-91. *)
Definition on_qr (env : Env) (out : Outside) (accountId qr : string)
  : M unit :=
  try_catch
    (qrDataUrl <- lift (qrcode_toDataURL out qr) ;;
     codes <- get qrCodes ;;
     set_qrCodes (<[accountId := qrDataUrl]> codes) ;;;
     updated <- now env ;;
     db.updateAccount env accountId (mark_qr_ready qrDataUrl updated) ;;;
     statuses <- get accountStatus ;;
     set_accountStatus (<[accountId := "qr_ready"]> statuses))
    (fun error => ret tt).

(** Lines 93-109. *)
Definition on_ready (env : Env) (out : Outside) (accountId : string)
  : M unit :=
  try_catch
    (user <- lift (client_info_user out accountId) ;;
     updated <- now env ;;
     db.updateAccount env accountId (mark_ready user updated) ;;;
     statuses <- get accountStatus ;;
     set_accountStatus (<[accountId := "ready"]> statuses) ;;;
     codes <- get qrCodes ;;
     set_qrCodes (delete accountId codes))
    (fun error => ret tt).

(** Lines 115-128. *)
Definition on_auth_failure (env : Env) (accountId msg : string) : M unit :=
  try_catch
    (updated <- now env ;;
     db.updateAccount env accountId (mark_failed "auth_failed" msg updated) ;;;
     statuses <- get accountStatus ;;
     set_accountStatus (<[accountId := "auth_failed"]> statuses))
    (fun error => ret tt).

(** Lines 130-143. *)
Definition on_disconnected (env : Env) (accountId reason : string)
  : M unit :=
  try_catch
    (updated <- now env ;;
     db.updateAccount env accountId
       (mark_failed "disconnected" reason updated) ;;;
     statuses <- get accountStatus ;;
     set_accountStatus (<[accountId := "disconnected"]> statuses))
    (fun error => ret tt).

(** Lines 145-151. *)
Definition on_message (env : Env) (client : Client.t) (accountId : string)
  (message : Message.t) : M unit :=
  try_catch
    (handleIncomingMessage env client accountId message)
    (fun error => ret tt).

Definition setupEventHandlers (env : Env) (out : Outside)
  (client : Client.t) (accountId : string) (event : Event) : M unit :=
  match event with
  | Qr qr => on_qr env out accountId qr
  | Ready => on_ready env out accountId
  | Authenticated => ret tt               (* console.log only *)
  | AuthFailure msg => on_auth_failure env accountId msg
  | Disconnected reason => on_disconnected env accountId reason
  | IncomingMessage message => on_message env client accountId message
  end.

(** ** The getters (lines 339-346) *)

Definition getQRCode (accountId : string) : M (option string) :=
  get (fun w => qrCodes w !! accountId).

Definition getAccountStatus (accountId : string) : M (option string) :=
  get (fun w => accountStatus w !! accountId).

(** ** [deleteAccount] (lines 358-377) *)
Definition deleteAccount (out : Outside) (accountId : string) : M bool :=
  try_catch
    (registry <- get clients ;;
     match registry !! accountId with
     | Some client =>
         match client_destroy out accountId with
         | Some error => throw error
         | None =>
             registry <- get clients ;;
             set_clients (delete accountId registry)
         end
     | None => ret tt
     end ;;;
     codes <- get qrCodes ;;
     set_qrCodes (delete accountId codes) ;;;
     statuses <- get accountStatus ;;
     set_accountStatus (delete accountId statuses) ;;;
     db_accounts.deleteAccount out accountId ;;;
     ret true)
    (fun error => throw error).

(** ** Routes (index.js)

    A route handler is given the fields of the request it reads and
    returns the response it sends.  The fields of a JSON body are strings
    when present; a field is falsy when it is missing or empty. *)
Module Http.

Inductive json : Type :=
| SentReceipt (result : Receipt.t)
| ErrorMessage (error : string)
| SuccessTrue
| QrCode (qr_code : string).

Record response := { status : nat; body : json }.

Definition ok (b : json) : response := {| status := 200; body := b |}.

Definition error (code : nat) (message : string) : response :=
  {| status := code; body := ErrorMessage message |}.

End Http.

(** [webhook.secret === webhook_secret && webhook.is_active] *)
Definition authorizes (webhook_secret : string) (webhook : Webhook.t)
  : bool :=
  match Webhook.secret webhook with
  | Some s => String.eqb s webhook_secret
  | None => false
  end
  && Webhook.is_active webhook.

(** [error.message || fallback] *)
Definition message_or (fallback error : string) : string :=
  if String.eqb error "" then fallback else error.

(** [POST /api/webhook-reply] (lines 211-239). *)
Definition post_webhook_reply (env : Env)
  (account_id number message webhook_secret : option string)
  : M Http.response :=
  try_catch
    (match account_id, number, message, webhook_secret with
     | Some a, Some n, Some m, Some s =>
         if String.eqb a "" || String.eqb n "" || String.eqb m ""
            || String.eqb s ""
         then ret (Http.error 400
                "Account ID, number, message, and webhook_secret are required")
         else
           webhooks <- db.getWebhooks env a ;;
           match List.find (authorizes s) webhooks with
           | None => ret (Http.error 401 "Invalid webhook secret")
           | Some validWebhook =>
               result <- sendMessage env a n m ;;
               ret (Http.ok (Http.SentReceipt result))
           end
     | _, _, _, _ =>
         ret (Http.error 400
                "Account ID, number, message, and webhook_secret are required")
     end)
    (fun error =>
       ret (Http.error 500 (message_or "Failed to send message" error))).

(** [POST /api/send] (lines 242-261), once [requireAuth] has let the
    request through. *)
Definition post_send (env : Env) (account_id number message : option string)
  : M Http.response :=
  try_catch
    (match account_id, number, message with
     | Some a, Some n, Some m =>
         if String.eqb a "" || String.eqb n "" || String.eqb m ""
         then ret (Http.error 400
                "Account ID, number, and message are required")
         else
           result <- sendMessage env a n m ;;
           ret (Http.ok (Http.SentReceipt result))
     | _, _, _ =>
         ret (Http.error 400 "Account ID, number, and message are required")
     end)
    (fun error =>
       ret (Http.error 500 (message_or "Failed to send message" error))).

Definition webhook_incoming (accountId serialized created : string)
  : MessageLog.t :=
  {| MessageLog.account_id := accountId;
     MessageLog.direction := "webhook_incoming";
     MessageLog.message_id := None;
     MessageLog.sender := None;
     MessageLog.recipient := None;
     MessageLog.message := Some serialized;
     MessageLog.timestamp := None;
     MessageLog.type := None;
     MessageLog.chat_id := None;
     MessageLog.is_group := None;
     MessageLog.group_name := None;
     MessageLog.media := None;
     MessageLog.status := Some "success";
     MessageLog.webhook_id := None;
     MessageLog.webhook_url := None;
     MessageLog.response_status := None;
     MessageLog.error_message := None;
     MessageLog.created_at := created |}.

(** [POST /webhook/:accountId] (lines 321-340); [serialized] is
    [JSON.stringify(req.body)]. *)
Definition post_webhook (env : Env) (accountId serialized : string)
  : M Http.response :=
  try_catch
    (created <- now env ;;
     db.logMessage env (webhook_incoming accountId serialized created) ;;;
     ret (Http.ok Http.SuccessTrue))
    (fun error => ret (Http.error 500 "Failed to process webhook")).

(** [GET /api/accounts/:id/qr] (lines 307-318), once [requireAuth] has
    let the request through. *)
Definition get_qr (id : string) : M Http.response :=
  try_catch
    (qrCode <- getQRCode id ;;
     match qrCode with
     | Some code =>
         if String.eqb code ""
         then ret (Http.error 404 "QR code not available")
         else ret (Http.ok (Http.QrCode code))
     | None => ret (Http.error 404 "QR code not available")
     end)
    (fun error => ret (Http.error 500 "Failed to fetch QR code")).

(** ** More vocabulary *)

(** The requests posted to subscribers, in the order they were made. *)
Definition posts (effects : list Effect) : list Axios.request :=
  List.flat_map
    (fun effect =>
       match effect with
       | AxiosPost r => [r]
       | _ => []
       end)
    effects.

Module StoreScenario.

(** A store whose table of logs has no column [response_status]: a row
    that carries one is rejected, every other query is answered. *)
Definition env_no_response_status : Env :=
  {| supabase_error := fun q =>
       match q with
       | InsertMessageLog row =>
           match MessageLog.response_status row with
           | Some _ => Some "column response_status does not exist"
           | None => None
           end
       | _ => None
       end;
     axios_post := axios_post Scenario.env;
     client_initialize := client_initialize Scenario.env;
     client_sendMessage := client_sendMessage Scenario.env;
     clock := clock Scenario.env |}.

(** A store that cannot list webhooks. *)
Definition env_no_webhooks : Env :=
  {| supabase_error := fun q =>
       match q with
       | SelectWebhooks _ => Some "relation webhooks does not exist"
       | _ => None
       end;
     axios_post := axios_post Scenario.env;
     client_initialize := client_initialize Scenario.env;
     client_sendMessage := client_sendMessage Scenario.env;
     clock := clock Scenario.env |}.

(** A store that rejects every row of the log. *)
Definition env_no_logs : Env :=
  {| supabase_error := fun q =>
       match q with
       | InsertMessageLog _ => Some "permission denied for table message_logs"
       | _ => None
       end;
     axios_post := axios_post Scenario.env;
     client_initialize := client_initialize Scenario.env;
     client_sendMessage := client_sendMessage Scenario.env;
     clock := clock Scenario.env |}.

End StoreScenario.

(** The handler of line 306 of [sendMessage]. *)
Definition log_send_failure (env : Env)
  (accountId number message error : string) : M Receipt.t :=
  created <- now env ;;
  db.logMessage env
    (outgoing_failed accountId number message error created) ;;;
  throw error.

Module TransportScenario.

(** The transport refuses every message. *)
Definition env_down : Env :=
  {| supabase_error := fun _ => None;
     axios_post := axios_post Scenario.env;
     client_initialize := client_initialize Scenario.env;
     client_sendMessage := fun _ _ _ => Throw "Evaluation failed: invalid wid";
     clock := clock Scenario.env |}.

End TransportScenario.

(** A field of a request body that fails the check [!field]. *)
Definition missing (field : option string) : Prop :=
  field = None \/ field = Some "".

Module ReplyScenario.

(** The webhooks of [Scenario.world], and a ready session for ["acc"]. *)
Definition world : World :=
  {| clients := {[ "acc" := SendExample.client ]}; qrCodes := ∅;
     accountStatus := {[ "acc" := "ready" ]};
     whatsapp_accounts := [];
     webhooks := [Scenario.w1; Scenario.w_off; Scenario.w2];
     message_logs := []; trace := []; ticks := 0 |}.

End ReplyScenario.

(** The world [w] after a lifecycle event: the cache of QR codes, the
    in-memory statuses and the table of accounts may have changed, the
    trace and the clock have advanced, the rest is as it was. *)
Definition transition (w : World) (codes statuses : gmap string string)
  (accounts : list Account.t) (effects : list Effect) (reads : nat)
  : World :=
  {| clients := clients w;
     qrCodes := codes;
     accountStatus := statuses;
     whatsapp_accounts := accounts;
     webhooks := webhooks w;
     message_logs := message_logs w;
     trace := trace w ++ effects;
     ticks := reads + ticks w |}.

(** The two events that report a failure, with the status they lead to
    and the reason they carry. *)
Definition failure_of (event : Event) : option (string * string) :=
  match event with
  | AuthFailure msg => Some ("auth_failed", msg)
  | Disconnected reason => Some ("disconnected", reason)
  | _ => None
  end.

Module EventScenario.

Definition out : Outside :=
  {| qrcode_toDataURL := fun qr => Ok ("data:image/png;base64," +:+ qr);
     client_info_user := fun _ => Ok "1555000111";
     client_destroy := fun _ => None;
     insert_account_error := fun _ => None;
     delete_account_error := fun _ => None |}.

(** One persisted account, just created, with its client. *)
Definition world : World :=
  {| clients := {[ "acc" := launched_client "acc" ]}; qrCodes := ∅;
     accountStatus := {[ "acc" := "initializing" ]};
     whatsapp_accounts := [StartupExample.account "acc" "initializing"];
     webhooks := []; message_logs := []; trace := []; ticks := 0 |}.

(** A store that rejects every update of an account. *)
Definition env_no_updates : Env :=
  {| supabase_error := fun q =>
       match q with
       | UpdateAccount _ _ => Some "connection reset"
       | _ => None
       end;
     axios_post := axios_post Scenario.env;
     client_initialize := client_initialize Scenario.env;
     client_sendMessage := client_sendMessage Scenario.env;
     clock := clock Scenario.env |}.

End EventScenario.

(** The world after [deleteAccount] has forgotten an account in memory:
    the three maps have lost its key, and the table of accounts is
    [accounts]. *)
Definition forgotten (w : World) (id : string) (accounts : list Account.t)
  : World :=
  {| clients := delete id (clients w);
     qrCodes := delete id (qrCodes w);
     accountStatus := delete id (accountStatus w);
     whatsapp_accounts := accounts;
     webhooks := webhooks w;
     message_logs := message_logs w;
     trace := trace w;
     ticks := ticks w |}.

(** The rows of a table of accounts without those of one id. *)
Definition without (id : string) (rows : list Account.t) : list Account.t :=
  List.filter (fun row => negb (String.eqb (Account.id row) id)) rows.

(** The row [createAccount] inserts. *)
Definition new_account (accountId accountName : string)
  (description : option string) (created : string) : Account.t :=
  {| Account.id := accountId;
     Account.name := accountName;
     Account.description :=
       match description with Some d => d | None => "" end;
     Account.status := "initializing";
     Account.session_dir := Some ("./sessions/" +:+ accountId);
     Account.phone_number := None;
     Account.qr_code := None;
     Account.error_message := None;
     Account.created_at := created;
     Account.updated_at := None |}.

Module AccountScenario.

(** The store refuses new accounts. *)
Definition out_no_insert : Outside :=
  {| qrcode_toDataURL := qrcode_toDataURL EventScenario.out;
     client_info_user := client_info_user EventScenario.out;
     client_destroy := client_destroy EventScenario.out;
     insert_account_error := fun _ => Some "duplicate key value";
     delete_account_error := delete_account_error EventScenario.out |}.

(** The browser of a client cannot be closed. *)
Definition out_no_destroy : Outside :=
  {| qrcode_toDataURL := qrcode_toDataURL EventScenario.out;
     client_info_user := client_info_user EventScenario.out;
     client_destroy := fun _ => Some "Protocol error: Target closed";
     insert_account_error := insert_account_error EventScenario.out;
     delete_account_error := delete_account_error EventScenario.out |}.

(** The store refuses to delete accounts. *)
Definition out_no_delete : Outside :=
  {| qrcode_toDataURL := qrcode_toDataURL EventScenario.out;
     client_info_user := client_info_user EventScenario.out;
     client_destroy := client_destroy EventScenario.out;
     insert_account_error := insert_account_error EventScenario.out;
     delete_account_error := fun _ => Some "permission denied" |}.

(** No browser can be launched. *)
Definition env_no_browser : Env :=
  {| supabase_error := fun _ => None;
     axios_post := axios_post Scenario.env;
     client_initialize := fun _ => Some "Failed to launch the browser";
     client_sendMessage := client_sendMessage Scenario.env;
     clock := clock Scenario.env |}.

End AccountScenario.

Module RestartScenario.

(** Two accounts to bring back, the first one first. *)
Definition world : World :=
  {| clients := ∅; qrCodes := ∅; accountStatus := ∅;
     whatsapp_accounts :=
       [StartupExample.account "a-qr" "qr_ready";
        StartupExample.account "a-ready" "ready"];
     webhooks := []; message_logs := []; trace := []; ticks := 0 |}.

(** The browser of ["a-qr"] cannot be launched, and the store rejects
    every update of an account. *)
Definition env : Env :=
  {| supabase_error := supabase_error EventScenario.env_no_updates;
     axios_post := axios_post Scenario.env;
     client_initialize := client_initialize StartupExample.env;
     client_sendMessage := client_sendMessage Scenario.env;
     clock := clock StartupExample.env |}.

(** One account whose session is still good. *)
Definition world_ready : World :=
  {| clients := ∅; qrCodes := ∅; accountStatus := ∅;
     whatsapp_accounts := [StartupExample.account "a-ready" "ready"];
     webhooks := []; message_logs := []; trace := []; ticks := 0 |}.

End RestartScenario.

Module RejectingStore.

(** A store whose table of logs refuses the rows that carry an
    [error_message], and answers every other query. *)
Definition refuses_failed_rows (q : Query) : option string :=
  match q with
  | InsertMessageLog row =>
      match MessageLog.error_message row with
      | Some _ => Some "value too long for column"
      | None => None
      end
  | _ => None
  end.


(** The same store and the same subscribers, but the one at
    [https://one.example/hook] refuses the connection. *)
Definition env_w1_refused : Env :=
  {| supabase_error := refuses_failed_rows;
     axios_post := fun r =>
       if String.eqb (Axios.url r) "https://one.example/hook"
       then Throw "connect ECONNREFUSED"
       else Ok {| Axios.status := 200 |};
     client_initialize := client_initialize Scenario.env;
     client_sendMessage := client_sendMessage Scenario.env;
     clock := clock Scenario.env |}.

End RejectingStore.

(** ** A [number] that is not a string

    The routes hand [req.body.number] to [sendMessage] as the request
    has it (index.js, lines 213 and 244): a string, or another JSON
    value that passes the test of presence.  A number, a boolean, an
    array or an object has no [replace] method, so [formatPhoneNumber]
    (line 327) throws a [TypeError] on it once the three checks of
    [sendMessage] have passed, and the handler of line 306 logs the
    failure before it rethrows.  [as_recipient] is the field [recipient]
    of that row, as the log holds the value. *)
Inductive Number : Type :=
| Text (number : string)
| NotText (as_recipient : option string).

Definition replace_not_a_function : string :=
  "number.replace is not a function".

(** The row of line 310 for a [number] that is not a string. *)
Definition outgoing_failed_as (accountId : string)
  (recipient : option string) (message error : string) (created : string)
  : MessageLog.t :=
  {| MessageLog.account_id := accountId;
     MessageLog.direction := "outgoing";
     MessageLog.message_id := None;
     MessageLog.sender := None;
     MessageLog.recipient := recipient;
     MessageLog.message := Some message;
     MessageLog.timestamp := None;
     MessageLog.type := None;
     MessageLog.chat_id := None;
     MessageLog.is_group := None;
     MessageLog.group_name := None;
     MessageLog.media := None;
     MessageLog.status := Some "failed";
     MessageLog.webhook_id := None;
     MessageLog.webhook_url := None;
     MessageLog.response_status := None;
     MessageLog.error_message := Some error;
     MessageLog.created_at := created |}.

(** [sendMessage] (lines 253-322) on any [number]. *)
Definition sendMessage_of (env : Env) (accountId : string)
  (number : Number) (message : string) : M Receipt.t :=
  match number with
  | Text number => sendMessage env accountId number message
  | NotText recipient =>
      try_catch
        (registry <- get clients ;;
         match registry !! accountId with
         | None => throw client_not_found
         | Some client =>
             statuses <- get accountStatus ;;
             let status := statuses !! accountId in
             if is_not_ready status then throw (client_not_ready status)
             else if page_unavailable client then throw page_not_available
             else throw replace_not_a_function
         end)
        (fun error =>
           created <- now env ;;
           db.logMessage env
             (outgoing_failed_as accountId recipient message error created) ;;;
           throw error)
  end.



(** * Properties *)

(** ** Address normalisation *)

Example formatPhoneNumber_local :
  formatPhoneNumber "98765 43210" = "+919876543210@c.us".
Proof. reflexivity. Qed.

Example formatPhoneNumber_international :
  formatPhoneNumber "+1 (555) 000-111" = "+1555000111@c.us".
Proof. reflexivity. Qed.

Section FormatPhoneNumber.

Lemma replace_app (a b : string) :
  Js.replace_non_digit_plus (a +:+ b)
  = Js.replace_non_digit_plus a +:+ Js.replace_non_digit_plus b.
Proof.
  induction a as [|c a IH]; simpl; [reflexivity|].
  destruct (Js.in_class_digit_plus c); simpl; now rewrite IH.
Qed.

Lemma replace_idem (s : string) :
  Js.replace_non_digit_plus (Js.replace_non_digit_plus s)
  = Js.replace_non_digit_plus s.
Proof.
  induction s as [|c s IH]; simpl; [reflexivity|].
  destruct (Js.in_class_digit_plus c) eqn:Hc; simpl; [|exact IH].
  now rewrite Hc, IH.
Qed.

Lemma append_empty_r (s : string) : s +:+ "" = s.
Proof. induction s; simpl; congruence. Qed.

Lemma length_append (a b : string) :
  String.length (a +:+ b) = (String.length a + String.length b)%nat.
Proof. induction a; simpl; congruence. Qed.

Lemma substring_append_prefix (a b : string) :
  substring 0 (String.length a) (a +:+ b) = a.
Proof.
  induction a as [|c a IH]; simpl; [now destruct b|].
  now rewrite IH.
Qed.

Lemma address_body_suffix (core : string) :
  address_body (core +:+ address_suffix) = core.
Proof.
  unfold address_body, Js.drop_last.
  rewrite length_append, Nat.add_sub. apply substring_append_prefix.
Qed.

(** Every code unit kept by the replacement is a digit or a plus sign,
    and no digit or plus sign is dropped: the result is the filter of
    the input. *)
Lemma replace_is_filter (s : string) :
  list_ascii_of_string (Js.replace_non_digit_plus s)
  = List.filter Js.in_class_digit_plus (list_ascii_of_string s).
Proof.
  induction s as [|c s IH]; simpl; [reflexivity|].
  destruct (Js.in_class_digit_plus c); simpl; now rewrite IH.
Qed.

End FormatPhoneNumber.

(** C4. Destination normalisation is idempotent:
    [formatPhoneNumber (formatPhoneNumber x) = formatPhoneNumber x] for
    every input string [x]. *)
Theorem formatPhoneNumber_idempotent (x : string) :
  formatPhoneNumber (formatPhoneNumber x) = formatPhoneNumber x.
Proof.
  unfold formatPhoneNumber.
  set (c := Js.replace_non_digit_plus x).
  assert (Hc : Js.replace_non_digit_plus c = c) by apply replace_idem.
  destruct (Js.startsWith c "+") eqn:Hp; simpl negb; cbv iota.
  - rewrite replace_app, Hc. simpl (Js.replace_non_digit_plus address_suffix).
    rewrite append_empty_r, Hp. reflexivity.
  - rewrite replace_app, replace_app, Hc.
    simpl (Js.replace_non_digit_plus address_suffix).
    simpl (Js.replace_non_digit_plus default_country_code).
    rewrite append_empty_r. reflexivity.
Qed.

(** C5, as the specification words it, at the input ["1+2"]: the part of
    the result before the suffix is ["+911+2"], with a plus sign in the
    middle. *)
Lemma formatPhoneNumber_keeps_inner_plus :
  formatPhoneNumber "1+2" = "+911+2@c.us"
  /\ plus_only_leading (address_body (formatPhoneNumber "1+2")) = false.
Proof. split; reflexivity. Qed.

(** C5, amended.  [formatPhoneNumber] removes every character that is
    neither a digit nor a plus sign and keeps every digit and every plus
    sign, wherever it stands; when the stripped string does not begin
    with a plus sign the default country code ["+91"] is put in front;
    the suffix ["@c.us"] is appended.  The part before the suffix always
    begins with a plus sign. *)
Theorem formatPhoneNumber_shape (x : string) :
  let stripped := Js.replace_non_digit_plus x in
  list_ascii_of_string stripped
    = List.filter Js.in_class_digit_plus (list_ascii_of_string x)
  /\ formatPhoneNumber x
     = (if Js.startsWith stripped "+" then stripped
        else default_country_code +:+ stripped) +:+ address_suffix
  /\ address_body (formatPhoneNumber x)
     = (if Js.startsWith stripped "+" then stripped
        else default_country_code +:+ stripped)
  /\ Js.startsWith (address_body (formatPhoneNumber x)) "+" = true.
Proof.
  cbv zeta. split; [apply replace_is_filter|].
  unfold formatPhoneNumber.
  destruct (Js.startsWith (Js.replace_non_digit_plus x) "+") eqn:Hp;
    simpl negb; cbv iota; rewrite address_body_suffix;
    repeat split; try reflexivity; assumption.
Qed.

(** ** Runs of the primitive steps *)

Lemma after_nothing (w : World) : after w [] [] 0 = w.
Proof. destruct w; unfold after; simpl. now rewrite !app_nil_r. Qed.

Lemma after_after (w : World) rows1 effects1 reads1 rows2 effects2 reads2 :
  after (after w rows1 effects1 reads1) rows2 effects2 reads2
  = after w (rows1 ++ rows2) (effects1 ++ effects2) (reads2 + reads1).
Proof.
  unfold after; simpl. now rewrite <- !app_assoc, Nat.add_assoc.
Qed.

Ltac run_step :=
  unfold try_catch, bind, ret, throw, get, emit, lift, now,
    set_message_logs, set_whatsapp_accounts, set_clients,
    set_accountStatus; simpl.

Lemma logMessage_accepted (env : Env) (row : MessageLog.t) (w : World) :
  supabase_error env (InsertMessageLog row) = None ->
  db.logMessage env row w
  = (Ok row, after w [row] [Supabase (InsertMessageLog row)] 0).
Proof.
  intros H. unfold db.logMessage, db.query. run_step. now rewrite H.
Qed.

Lemma logMessage_rejected (env : Env) (row : MessageLog.t) (w : World) e :
  supabase_error env (InsertMessageLog row) = Some e ->
  db.logMessage env row w
  = (Throw e, after w [] [Supabase (InsertMessageLog row)] 0).
Proof.
  intros H. unfold db.logMessage, db.query. run_step. rewrite H.
  unfold after. now rewrite app_nil_r.
Qed.

(** ** The webhook dispatcher *)

Section Dispatcher.

Variable env : Env.
Variable accountId : string.
Variable messageData : MessageLog.t.
Hypothesis available : store_available env.

Lemma deliver_active (webhook : Webhook.t) (w : World) :
  Webhook.is_active webhook = true ->
  deliver env accountId messageData webhook w
  = (Ok tt,
     after w
       [delivery_entry env accountId messageData webhook (ticks w)]
       [AxiosPost (webhook_request accountId messageData webhook);
        Supabase (InsertMessageLog
          (delivery_entry env accountId messageData webhook (ticks w)))]
       1).
Proof.
  intros Hactive. unfold deliver, delivery_entry. rewrite Hactive.
  unfold post, db.logMessage, db.query. run_step.
  destruct (axios_post env _) as [response|error]; simpl;
    rewrite available; unfold after; simpl;
    now rewrite <- !app_assoc.
Qed.

Lemma deliver_inactive (webhook : Webhook.t) (w : World) :
  Webhook.is_active webhook = false ->
  deliver env accountId messageData webhook w = (Ok tt, w).
Proof. intros H. unfold deliver. now rewrite H. Qed.

Lemma for_of_deliver (hooks : list Webhook.t) (w : World) :
  for_of hooks (deliver env accountId messageData) w
  = (Ok tt,
     after w
       (delivery_entries env accountId messageData hooks (ticks w))
       (delivery_effects env accountId messageData hooks (ticks w))
       (length (active hooks))).
Proof.
  revert w. induction hooks as [|webhook rest IH]; intros w.
  - simpl. unfold ret. now rewrite after_nothing.
  - simpl for_of. unfold bind at 1.
    destruct (Webhook.is_active webhook) eqn:Hactive.
    + rewrite deliver_active by assumption. rewrite IH, after_after.
      simpl. rewrite Hactive. simpl.
      now rewrite Nat.add_1_r.
    + rewrite deliver_inactive by assumption. rewrite IH.
      simpl. now rewrite Hactive.
Qed.

Lemma sendToWebhooks_run (w : World) :
  sendToWebhooks env accountId messageData w
  = (Ok tt,
     after w
       (delivery_entries env accountId messageData
          (subscribers accountId w) (ticks w))
       (Supabase (SelectWebhooks accountId)
        :: delivery_effects env accountId messageData
             (subscribers accountId w) (ticks w))
       (length (active (subscribers accountId w)))).
Proof.
  unfold sendToWebhooks, db.getWebhooks, db.query.
  unfold try_catch, bind at 1 2 3. unfold emit at 1. simpl.
  rewrite available. unfold ret at 1, get at 1. unfold bind at 1.
  unfold ret at 1. rewrite for_of_deliver.
  unfold after, subscribers. simpl. now rewrite <- !app_assoc.
Qed.

End Dispatcher.

Lemma delivery_entry_records env accountId messageData webhook tick :
  records_delivery accountId webhook
    (axios_post env (webhook_request accountId messageData webhook))
    (delivery_entry env accountId messageData webhook tick).
Proof.
  unfold records_delivery, delivery_entry.
  destruct (axios_post env _); simpl; repeat split; reflexivity.
Qed.

Lemma delivery_entries_records env accountId messageData hooks tick :
  Forall2
    (fun webhook row =>
       records_delivery accountId webhook
         (axios_post env (webhook_request accountId messageData webhook))
         row)
    (active hooks)
    (delivery_entries env accountId messageData hooks tick).
Proof.
  revert tick. induction hooks as [|webhook rest IH]; intros tick; simpl.
  - constructor.
  - unfold active in *. simpl.
    destruct (Webhook.is_active webhook); [|apply IH].
    constructor; [apply delivery_entry_records | apply IH].
Qed.

Lemma Forall2_right_In {A B} (R : A -> B -> Prop) (xs : list A)
  (ys : list B) :
  Forall2 R xs ys -> forall y, In y ys -> exists x, In x xs /\ R x y.
Proof.
  induction 1 as [|x y xs ys HR _ IH]; intros b; simpl; [tauto|].
  intros [<-|Hb]; [now exists x; auto|].
  destruct (IH b Hb) as (a & Ha & HRa). exists a; auto.
Qed.

(** C2, as the specification words it, at an account with two active
    webhooks and one inactive: the first subscriber refuses the
    connection, the store refuses the row that records the failure, and
    the dispatch ends there.  It has written no row at all, and the
    second active webhook was not contacted. *)
Lemma sendToWebhooks_rows_missing :
  let run := sendToWebhooks RejectingStore.env_w1_refused "acc"
               Scenario.hi_entry Scenario.world in
  length (active (subscribers "acc" Scenario.world)) = 2
  /\ length (inactive (subscribers "acc" Scenario.world)) = 1
  /\ fst run = Ok tt
  /\ message_logs (snd run) = message_logs Scenario.world
  /\ List.map Axios.url (posts (trace (snd run)))
     = ["https://one.example/hook"].
Proof. cbv zeta. repeat split; vm_compute; reflexivity. Qed.

(** C2, amended.  For an account whose webhook list has [N] active and
    [M] inactive webhooks, when the store answers every query without
    an error, one dispatch appends exactly [N] rows to the log: one per
    active webhook, in order, each with direction [webhook], that
    webhook's id and address, and status [success] or [failed] according
    to the delivery.  The [M] inactive webhooks account for the rest of
    the list and for no row: no row carries the id of an inactive
    webhook. *)
Theorem sendToWebhooks_one_row_per_active_webhook
  (env : Env) (accountId : string) (messageData : MessageLog.t)
  (w : World) (N M : nat) :
  store_available env ->
  length (active (subscribers accountId w)) = N ->
  length (inactive (subscribers accountId w)) = M ->
  exists rows,
    message_logs (snd (sendToWebhooks env accountId messageData w))
    = message_logs w ++ rows
    /\ length rows = N
    /\ length rows + M = length (subscribers accountId w)
    /\ Forall2
         (fun webhook row =>
            records_delivery accountId webhook
              (axios_post env
                 (webhook_request accountId messageData webhook))
              row)
         (active (subscribers accountId w)) rows
    /\ forall webhook,
         In webhook (inactive (subscribers accountId w)) ->
         (forall other, In other (active (subscribers accountId w)) ->
                        Webhook.id other <> Webhook.id webhook) ->
         forall row, In row rows ->
           MessageLog.webhook_id row <> Some (Webhook.id webhook).
Proof.
  intros Havailable HN HM.
  rewrite sendToWebhooks_run by assumption. simpl.
  eexists; split; [reflexivity|].
  pose proof (delivery_entries_records env accountId messageData
                (subscribers accountId w) (ticks w)) as Hrows.
  assert (Hlength :
    length (delivery_entries env accountId messageData
              (subscribers accountId w) (ticks w)) = N)
    by (rewrite <- HN; symmetry; eapply Forall2_length, Hrows).
  split; [exact Hlength|]. split; [|split; [exact Hrows|]].
  - rewrite Hlength, <- HN, <- HM. apply filter_length.
  - intros webhook _ Hfresh row Hrow Hid.
    destruct (Forall2_right_In _ _ _ Hrows row Hrow)
      as (other & Hother & _ & _ & Hother_id & _).
    apply (Hfresh other Hother). congruence.
Qed.

Lemma sendToWebhooks_one_row_per_active_webhook_witness :
  store_available Scenario.env
  /\ length (active (subscribers "acc" Scenario.world)) = 2
  /\ length (inactive (subscribers "acc" Scenario.world)) = 1
  /\ exists rows,
       message_logs
         (snd (sendToWebhooks Scenario.env "acc" Scenario.hi_entry
                 Scenario.world))
       = message_logs Scenario.world ++ rows
       /\ length rows = 2.
Proof.
  split; [intros q; reflexivity|].
  split; [reflexivity|]. split; [reflexivity|].
  destruct (sendToWebhooks_one_row_per_active_webhook
              Scenario.env "acc" Scenario.hi_entry Scenario.world 2 1)
    as (rows & Hlog & Hlen & _);
    [intros q; reflexivity | reflexivity | reflexivity |].
  exists rows. split; assumption.
Defined.

Section Isolation.

Variables env1 env2 : Env.
Variable accountId : string.
Variable messageData : MessageLog.t.
Variable webhookId : string.





End Isolation.




(** The scenario of the specification: [w1] answers, [w2] times out;
    the switched-off webhook is not contacted. *)
Example dispatch_scenario :
  outcomes_for "w1"
    (message_logs
       (snd (sendToWebhooks Scenario.env "acc" Scenario.hi_entry
               Scenario.world)))
  = [(Some "w1", Some "https://one.example/hook", Some "success",
      Some 200%Z, None)]
  /\ outcomes_for "w2"
       (message_logs
          (snd (sendToWebhooks Scenario.env "acc" Scenario.hi_entry
                  Scenario.world)))
     = [(Some "w2", Some "https://two.example/hook", Some "failed",
         None, Some "timeout of 10000ms exceeded")]
  /\ outcomes_for "w0"
       (message_logs
          (snd (sendToWebhooks Scenario.env "acc" Scenario.hi_entry
                  Scenario.world)))
     = [].
Proof. repeat split; vm_compute; reflexivity. Qed.

(** ** Computations that only append *)

Section Appends.

Context {A B : Type}.

Lemma appends_ret (a : A) : appends (ret a).
Proof. intros w. exists (Ok a), [], [], 0. now rewrite after_nothing. Qed.

Lemma appends_throw (e : string) : appends (@throw A e).
Proof. intros w. exists (Throw e), [], [], 0. now rewrite after_nothing. Qed.

Lemma appends_lift (r : Res A) : appends (lift r).
Proof. intros w. exists r, [], [], 0. now rewrite after_nothing. Qed.

Lemma appends_get (proj : World -> A) : appends (get proj).
Proof.
  intros w. exists (Ok (proj w)), [], [], 0. now rewrite after_nothing.
Qed.

Lemma appends_bind (m : M A) (k : A -> M B) :
  appends m -> (forall a, appends (k a)) -> appends (bind m k).
Proof.
  intros Hm Hk w. unfold bind.
  destruct (Hm w) as ([a|e] & rows & effects & reads & ->).
  - destruct (Hk a (after w rows effects reads))
      as (r & rows' & effects' & reads' & ->).
    rewrite after_after. eauto 6.
  - eauto 6.
Qed.

Lemma appends_try_catch (m : M A) (h : string -> M A) :
  appends m -> (forall e, appends (h e)) -> appends (try_catch m h).
Proof.
  intros Hm Hh w. unfold try_catch.
  destruct (Hm w) as ([a|e] & rows & effects & reads & ->).
  - eauto 6.
  - destruct (Hh e (after w rows effects reads))
      as (r & rows' & effects' & reads' & ->).
    rewrite after_after. eauto 6.
Qed.

End Appends.

Lemma emit_run (e : Effect) (w : World) : emit e w = (Ok tt, after w [] [e] 0).
Proof. unfold emit, after. simpl. now rewrite app_nil_r. Qed.

Lemma now_run (env : Env) (w : World) :
  now env w = (Ok (clock env (ticks w)), after w [] [] 1).
Proof. unfold now, after. simpl. now rewrite !app_nil_r. Qed.

Lemma appends_emit (e : Effect) : appends (emit e).
Proof. intros w. rewrite emit_run. eauto 6. Qed.

Lemma appends_now (env : Env) : appends (now env).
Proof. intros w. rewrite now_run. eauto 6. Qed.

Lemma appends_logMessage (env : Env) (row : MessageLog.t) :
  appends (db.logMessage env row).
Proof.
  intros w. destruct (supabase_error env (InsertMessageLog row)) eqn:H.
  - erewrite logMessage_rejected by eassumption. eauto 6.
  - rewrite logMessage_accepted by assumption. eauto 6.
Qed.

Lemma appends_query (env : Env) (q : Query) : appends (db.query env q).
Proof.
  unfold db.query. apply appends_bind; [apply appends_emit|].
  intros _. destruct (supabase_error env q);
    [apply appends_throw | apply appends_ret].
Qed.

Lemma appends_for_of {A} (xs : list A) (body : A -> M unit) :
  (forall x, appends (body x)) -> appends (for_of xs body).
Proof.
  intros Hbody. induction xs as [|x rest IH]; simpl.
  - apply appends_ret.
  - apply appends_bind; [apply Hbody | intros _; exact IH].
Qed.

Create HintDb appends.
#[local] Hint Resolve appends_ret appends_throw appends_lift appends_get
  appends_emit appends_now appends_logMessage appends_query : appends.
#[local] Hint Resolve appends_bind appends_try_catch appends_for_of | 2
  : appends.

Lemma appends_deliver env accountId messageData webhook :
  appends (deliver env accountId messageData webhook).
Proof.
  unfold deliver, post. destruct (negb _); eauto 10 with appends.
Qed.

(** The dispatcher never throws; it asks for the webhooks first, and
    whatever the store and the subscribers do, it only adds rows and
    effects. *)
Lemma sendToWebhooks_appends env accountId messageData (w : World) :
  exists rows effects reads,
    sendToWebhooks env accountId messageData w
    = (Ok tt,
       after w rows (Supabase (SelectWebhooks accountId) :: effects) reads).
Proof.
  unfold sendToWebhooks, db.getWebhooks, db.query.
  unfold try_catch, bind at 1 2 3. rewrite emit_run.
  destruct (supabase_error env _) as [e|].
  - unfold throw, ret. exists [], [], 0. reflexivity.
  - unfold ret at 1. unfold bind, get, ret at 1.
    destruct (appends_for_of
                (List.filter
                   (fun row => String.eqb (Webhook.account_id row) accountId)
                   (webhooks (after w [] [Supabase (SelectWebhooks accountId)] 0)))
                (deliver env accountId messageData)
                (appends_deliver env accountId messageData)
                (after w [] [Supabase (SelectWebhooks accountId)] 0))
      as (r & rows & effects & reads & ->).
    rewrite after_after. simpl.
    exists rows, effects, (reads + 0). destruct r as [[]|e]; reflexivity.
Qed.

(** Whatever the store and the subscribers answer, a dispatch returns
    normally and the log it found is a prefix of the log it leaves: the
    incoming row is never touched. *)
Corollary sendToWebhooks_keeps_log env accountId messageData (w : World) :
  fst (sendToWebhooks env accountId messageData w) = Ok tt
  /\ exists rows,
       message_logs (snd (sendToWebhooks env accountId messageData w))
       = message_logs w ++ rows.
Proof.
  destruct (sendToWebhooks_appends env accountId messageData w)
    as (rows & effects & reads & ->).
  split; [reflexivity|]. now exists rows.
Qed.

(** ** The outbound send path *)


(** A refused send: the handler of line 306 tries to log the failure and
    rethrows; when the store rejects that row its error is the one
    thrown. *)
Lemma sendMessage_refused (env : Env) (accountId number message : string)
  (w : World) (error : string) :
  send_refusal w accountId = Some error ->
  let row :=
    outgoing_failed accountId number message error (clock env (ticks w)) in
  sendMessage env accountId number message w
  = match supabase_error env (InsertMessageLog row) with
    | None =>
        (Throw error, after w [row] [Supabase (InsertMessageLog row)] 1)
    | Some store_error =>
        (Throw store_error,
         after w [] [Supabase (InsertMessageLog row)] 1)
    end.
Proof.
  intros Hrefusal row. unfold send_refusal in Hrefusal.
  assert (Hbody :
    forall body : M Receipt.t, body w = (Throw error, w) ->
      try_catch body
        (fun error =>
           created <- now env ;;
           db.logMessage env
             (outgoing_failed accountId number message error created) ;;;
           throw error) w
      = match supabase_error env (InsertMessageLog row) with
        | None =>
            (Throw error, after w [row] [Supabase (InsertMessageLog row)] 1)
        | Some store_error =>
            (Throw store_error,
             after w [] [Supabase (InsertMessageLog row)] 1)
        end).
  { intros body Hbody. unfold try_catch. rewrite Hbody.
    unfold bind at 1. rewrite now_run. unfold bind at 1.
    fold row.
    destruct (supabase_error env (InsertMessageLog row)) eqn:Hstore.
    - erewrite logMessage_rejected by (simpl; exact Hstore).
      now rewrite after_after.
    - rewrite logMessage_accepted by (simpl; exact Hstore).
      unfold throw. now rewrite after_after. }
  unfold sendMessage. apply Hbody.
  unfold bind, get, throw.
  destruct (clients w !! accountId) as [client|]; [|congruence].
  simpl in Hrefusal.
  destruct (is_not_ready (accountStatus w !! accountId)); [congruence|].
  destruct (page_unavailable client); [congruence|discriminate].
Qed.

(** A send on a ready session: one call to the transport with the
    normalised address, one success row. *)
Example sendMessage_ready :
  let run := sendMessage Scenario.env "acc" "98765 43210" "hello"
               SendExample.world_ready in
  fst run = Ok {| Receipt.success := true;
                  Receipt.messageId := "true_919876543210@c.us_BB";
                  Receipt.timestamp := 1700000100 |}
  /\ trace (snd run)
     = [ClientSendMessage "acc" "+919876543210@c.us" "hello";
        Supabase (InsertMessageLog
          (outgoing_success "acc" "hello" Scenario.sent
             "2024-02-01T10:00:01.000Z"))]
  /\ List.map MessageLog.status (message_logs (snd run)) = [Some "success"].
Proof. repeat split; vm_compute; reflexivity. Qed.

(** C3, as the specification words it, at the scenario of its section 8:
    no session for the account, and yet the call leaves a row in the
    log. *)
Lemma sendMessage_without_session_writes_a_row :
  let run := sendMessage Scenario.env "acc" "9876543210" "hello"
               Scenario.world in
  clients Scenario.world !! "acc" = None
  /\ fst run = Throw client_not_found
  /\ message_logs (snd run)
     = message_logs Scenario.world
       ++ [outgoing_failed "acc" "9876543210" "hello" client_not_found
             "2024-02-01T10:00:01.000Z"]
  /\ message_logs (snd run) <> message_logs Scenario.world.
Proof.
  cbv zeta. split; [reflexivity|]. split; [vm_compute; reflexivity|].
  split; [vm_compute; reflexivity|]. vm_compute. discriminate.
Qed.

(** C3, amended.  A send on an account with no live session never
    reaches the transport and fails with the not-found error, and the
    call writes exactly one row, which the store accepts: an [outgoing]
    row with status [failed] and that error as its message. *)
Theorem sendMessage_without_session
  (env : Env) (accountId number message : string) (w : World) :
  clients w !! accountId = None ->
  let row :=
    outgoing_failed accountId number message client_not_found
      (clock env (ticks w)) in
  supabase_error env (InsertMessageLog row) = None ->
  let run := sendMessage env accountId number message w in
  fst run = Throw client_not_found
  /\ sends (trace (snd run)) = sends (trace w)
  /\ trace (snd run) = trace w ++ [Supabase (InsertMessageLog row)]
  /\ message_logs (snd run) = message_logs w ++ [row]
  /\ MessageLog.direction row = "outgoing"
  /\ MessageLog.status row = Some "failed"
  /\ MessageLog.error_message row = Some client_not_found.
Proof.
  intros Hclient row Hstore run. subst run.
  rewrite (sendMessage_refused env accountId number message w
             client_not_found)
    by (unfold send_refusal; now rewrite Hclient).
  fold row. rewrite Hstore. simpl.
  split; [reflexivity|]. split; [|repeat split].
  unfold sends. rewrite flat_map_app. simpl. apply app_nil_r.
Qed.

Lemma sendMessage_without_session_witness :
  clients Scenario.world !! "acc" = None
  /\ fst (sendMessage Scenario.env "acc" "9876543210" "hello" Scenario.world)
     = Throw client_not_found.
Proof.
  split; [reflexivity|].
  apply (sendMessage_without_session Scenario.env "acc" "9876543210" "hello"
           Scenario.world); reflexivity.
Defined.




(** When the store is down the error of the refused send is lost: the
    handler's own [logMessage] throws first. *)
Example sendMessage_not_ready_store_down :
  let env := {| supabase_error := fun _ => Some "connection refused";
                axios_post := axios_post Scenario.env;
                client_initialize := client_initialize Scenario.env;
                client_sendMessage := client_sendMessage Scenario.env;
                clock := clock Scenario.env |} in
  let run := sendMessage env "acc" "9876543210" "hello"
               SendExample.world_qr in
  fst run = Throw "connection refused" /\ message_logs (snd run) = [].
Proof. split; vm_compute; reflexivity. Qed.

(** ** The ingestion pipeline *)

Lemma attach_media_run (message : Message.t) (w : World) :
  attach_media message w = (media_of message, w).
Proof.
  unfold attach_media, media_of, bind, lift, ret, throw.
  destruct (Message.hasMedia message); [|reflexivity].
  now destruct (Message.downloadMedia message) as [[m|]|e].
Qed.

Lemma log_ingestion_failure_run env accountId error (w : World) :
  let row := incoming_failed accountId error (clock env (ticks w)) in
  exists result rows,
    log_ingestion_failure env accountId error w
    = (result, after w rows [Supabase (InsertMessageLog row)] 1).
Proof.
  intros row. unfold log_ingestion_failure, bind at 1. rewrite now_run.
  unfold bind. fold row.
  destruct (supabase_error env (InsertMessageLog row)) eqn:Hstore.
  - erewrite logMessage_rejected by (simpl; exact Hstore).
    rewrite after_after. eauto.
  - rewrite logMessage_accepted by (simpl; exact Hstore).
    unfold ret. rewrite after_after. eauto.
Qed.

(** [handleIncomingMessage], step by step. *)
Lemma handleIncomingMessage_run (env : Env) (client : Client.t)
  (accountId : string) (message : Message.t) (w : World) :
  handleIncomingMessage env client accountId message w
  = match Message.getChat message with
    | Throw e => log_ingestion_failure env accountId e w
    | Ok chat =>
        match media_of message with
        | Throw e =>
            log_ingestion_failure env accountId e (after w [] [] 1)
        | Ok media =>
            let entry := incoming_entry accountId message chat media
                           (clock env (ticks w)) in
            match supabase_error env (InsertMessageLog entry) with
            | Some e =>
                log_ingestion_failure env accountId e
                  (after w [] [Supabase (InsertMessageLog entry)] 1)
            | None =>
                sendToWebhooks env accountId entry
                  (after w [entry] [Supabase (InsertMessageLog entry)] 1)
            end
        end
    end.
Proof.
  unfold handleIncomingMessage.
  fold (log_ingestion_failure env accountId).
  destruct (Message.getChat message) as [chat|e]; [|reflexivity].
  destruct (media_of message) as [media|e] eqn:Hmedia; cbv zeta.
  - destruct (supabase_error env _) as [e|] eqn:Hstore;
      unfold try_catch, bind, lift; rewrite now_run, attach_media_run, Hmedia.
    + erewrite logMessage_rejected by exact Hstore.
      now rewrite after_after.
    + rewrite logMessage_accepted by exact Hstore.
      rewrite after_after. simpl.
      destruct (sendToWebhooks_appends env accountId
                  (incoming_entry accountId message chat media
                     (clock env (ticks w)))
                  (after w
                     [incoming_entry accountId message chat media
                        (clock env (ticks w))]
                     [Supabase (InsertMessageLog
                        (incoming_entry accountId message chat media
                           (clock env (ticks w))))] 1))
        as (rows & effects & reads & ->).
      reflexivity.
  - unfold try_catch, bind, lift. now rewrite now_run, attach_media_run, Hmedia.
Qed.

(** C9. When the normalisation of an inbound message or the persistence
    of its row fails with [error], the last effect of
    [handleIncomingMessage] is the attempt to insert a row of the account
    with direction [incoming], status [failed] and [error] as its error
    message, and no effect of the run belongs to a dispatch.  Otherwise
    the incoming row, which has no status, is in the log and its insertion
    precedes the first effect of the dispatch. *)
Theorem handleIncomingMessage_failure_logged
  (env : Env) (client : Client.t) (accountId : string)
  (message : Message.t) (w : World) :
  let w' := snd (handleIncomingMessage env client accountId message w) in
  match ingestion_failure env accountId message (ticks w) with
  | Some error =>
      exists before row,
        trace w' = trace w ++ before ++ [Supabase (InsertMessageLog row)]
        /\ MessageLog.account_id row = accountId
        /\ MessageLog.direction row = "incoming"
        /\ MessageLog.status row = Some "failed"
        /\ MessageLog.error_message row = Some error
        /\ Forall (fun effect => is_dispatch effect = false)
             (before ++ [Supabase (InsertMessageLog row)])
  | None =>
      exists entry rows effects,
        MessageLog.account_id entry = accountId
        /\ MessageLog.direction entry = "incoming"
        /\ MessageLog.status entry = None
        /\ message_logs w' = message_logs w ++ entry :: rows
        /\ trace w'
           = trace w ++ Supabase (InsertMessageLog entry)
                        :: Supabase (SelectWebhooks accountId) :: effects
  end.
Proof.
  cbv zeta. rewrite handleIncomingMessage_run. unfold ingestion_failure.
  assert (Hfailed : forall error before reads,
    Forall (fun effect => is_dispatch effect = false) before ->
    exists before' row,
      trace (snd (log_ingestion_failure env accountId error
                    (after w [] before reads)))
      = trace w ++ before' ++ [Supabase (InsertMessageLog row)]
      /\ MessageLog.account_id row = accountId
      /\ MessageLog.direction row = "incoming"
      /\ MessageLog.status row = Some "failed"
      /\ MessageLog.error_message row = Some error
      /\ Forall (fun effect => is_dispatch effect = false)
           (before' ++ [Supabase (InsertMessageLog row)])).
  { intros error before reads Hbefore.
    destruct (log_ingestion_failure_run env accountId error
                (after w [] before reads)) as (result & rows & ->).
    rewrite after_after. simpl.
    exists before. eexists. split; [reflexivity|].
    repeat (split; [reflexivity|]).
    apply Forall_app. split; [assumption|]. now constructor. }
  destruct (Message.getChat message) as [chat|e].
  - destruct (media_of message) as [media|e]; cbv zeta.
    + destruct (supabase_error env _) as [e|].
      * apply Hfailed. now repeat constructor.
      * destruct (sendToWebhooks_appends env accountId
                    (incoming_entry accountId message chat media
                       (clock env (ticks w)))
                    (after w
                       [incoming_entry accountId message chat media
                          (clock env (ticks w))]
                       [Supabase (InsertMessageLog
                          (incoming_entry accountId message chat media
                             (clock env (ticks w))))] 1))
          as (rows & effects & reads & ->).
        rewrite after_after. simpl.
        exists (incoming_entry accountId message chat media
                  (clock env (ticks w))), rows, effects.
        repeat (split; [reflexivity|]). reflexivity.
    + apply Hfailed. constructor.
  - replace (log_ingestion_failure env accountId e w)
      with (log_ingestion_failure env accountId e (after w [] [] 0))
      by now rewrite after_nothing.
    apply Hfailed. constructor.
Qed.

(** Normalisation fails: one failed row, nothing dispatched. *)
Example ingestion_getChat_fails :
  let w' := snd (handleIncomingMessage Scenario.env SendExample.client "acc"
                   IngestExample.orphan IngestExample.empty_world) in
  message_logs w'
  = [incoming_failed "acc" "Evaluation failed: chat not found"
       "2024-02-01T10:00:01.000Z"]
  /\ trace w'
     = [Supabase (InsertMessageLog
          (incoming_failed "acc" "Evaluation failed: chat not found"
             "2024-02-01T10:00:01.000Z"))].
Proof. split; vm_compute; reflexivity. Qed.

(** Persistence fails: the incoming row is refused, the failed row is
    written, nothing is dispatched. *)
Example ingestion_persistence_fails :
  let w' := snd (handleIncomingMessage IngestExample.env_rejecting_incoming
                   SendExample.client "acc" Scenario.hi
                   IngestExample.empty_world) in
  message_logs w'
  = [incoming_failed "acc" "null value in column status"
       "2024-02-01T10:00:01.000Z"]
  /\ List.map is_dispatch (trace w') = [false; false].
Proof. split; vm_compute; reflexivity. Qed.

(** The scenario of the specification: the incoming row, then one outcome
    row per active webhook. *)
Example ingestion_scenario :
  let w' := snd (handleIncomingMessage Scenario.env SendExample.client "acc"
                   Scenario.hi IngestExample.empty_world) in
  List.map (fun row => (MessageLog.direction row, MessageLog.status row,
                        MessageLog.webhook_id row))
    (message_logs w')
  = [("incoming", None, None);
     ("webhook", Some "success", Some "w1");
     ("webhook", Some "failed", Some "w2")].
Proof. vm_compute; reflexivity. Qed.

(** ** Message statistics *)

Lemma getMessageStats_run (env : Env) (accountId : string) (w : World)
  (stats : Stats.t) :
  fst (db.getMessageStats env accountId w) = Ok stats ->
  stats = db.stats_of (rows_of accountId w).
Proof.
  unfold db.getMessageStats, db.query. run_step.
  destruct (supabase_error env _); simpl; [discriminate|].
  unfold rows_of. congruence.
Qed.

Section Counting.

Variable data : list MessageLog.t.

(** A row counts as [success], as [failed], or has no status; never two
    of these. *)
Lemma status_exclusive (row : MessageLog.t) :
  Nat.b2n (db.has_status "success" row)
  + Nat.b2n (db.has_status "failed" row)
  + Nat.b2n (no_status row) <= 1.
Proof.
  unfold db.has_status, no_status.
  destruct (MessageLog.status row) as [s|]; [|simpl; lia].
  destruct (String.eqb s "success") eqn:Hs.
  - apply String.eqb_eq in Hs. subst s. simpl. lia.
  - destruct (String.eqb s "failed"); cbn [Nat.b2n Nat.add]; lia.
Qed.

Lemma status_counts :
  Stats.success (db.stats_of data) + Stats.failed (db.stats_of data)
  + length (List.filter no_status data)
  <= Stats.total (db.stats_of data).
Proof.
  unfold db.stats_of; simpl.
  induction data as [|row rest IH]; simpl; [lia|].
  pose proof (status_exclusive row) as Hrow.
  destruct (db.has_status "success" row),
    (db.has_status "failed" row), (no_status row);
    simpl in *; lia.
Qed.

(** A row has one direction: the four directions never count a row
    twice. *)
Lemma direction_exclusive (row : MessageLog.t) :
  Nat.b2n (db.has_direction "incoming" row)
  + Nat.b2n (db.has_direction "outgoing" row)
  + Nat.b2n (db.has_direction "webhook" row)
  + Nat.b2n (db.has_direction "webhook_incoming" row) <= 1.
Proof.
  unfold db.has_direction.
  destruct (String.eqb (MessageLog.direction row) "incoming") eqn:H1;
    [apply String.eqb_eq in H1; rewrite H1; simpl; lia|].
  destruct (String.eqb (MessageLog.direction row) "outgoing") eqn:H2;
    [apply String.eqb_eq in H2; rewrite H2; simpl; lia|].
  destruct (String.eqb (MessageLog.direction row) "webhook") eqn:H3;
    [apply String.eqb_eq in H3; rewrite H3; simpl; lia|].
  destruct (String.eqb (MessageLog.direction row) "webhook_incoming");
    cbn [Nat.b2n Nat.add]; lia.
Qed.

Lemma direction_counts :
  Stats.incoming (db.stats_of data) + Stats.outgoing (db.stats_of data)
  + length (List.filter (db.has_direction "webhook") data)
  + length (List.filter (db.has_direction "webhook_incoming") data)
  <= Stats.total (db.stats_of data).
Proof.
  unfold db.stats_of; simpl.
  induction data as [|row rest IH]; simpl; [lia|].
  pose proof (direction_exclusive row) as Hrow.
  destruct (db.has_direction "incoming" row),
    (db.has_direction "outgoing" row),
    (db.has_direction "webhook" row),
    (db.has_direction "webhook_incoming" row);
    simpl in *; lia.
Qed.

Lemma no_status_counted (row : MessageLog.t) :
  In row data -> MessageLog.status row = None ->
  1 <= length (List.filter no_status data).
Proof.
  intros Hin Hstatus.
  assert (H : In row (List.filter no_status data))
    by (apply filter_In; unfold no_status; now rewrite Hstatus).
  destruct (List.filter no_status data); [easy | simpl; lia].
Qed.

Lemma incoming_counted (row : MessageLog.t) :
  In row data -> MessageLog.direction row = "incoming" ->
  1 <= Stats.incoming (db.stats_of data).
Proof.
  intros Hin Hdirection. simpl.
  assert (H : In row (List.filter (db.has_direction "incoming") data))
    by (apply filter_In; unfold db.has_direction; now rewrite Hdirection).
  destruct (List.filter _ data); [easy | simpl; lia].
Qed.

End Counting.

Lemma getMessageStats_answered (env : Env) (accountId : string)
  (w : World) :
  supabase_error env (SelectMessageStats accountId) = None ->
  fst (db.getMessageStats env accountId w)
  = Ok (db.stats_of (rows_of accountId w)).
Proof.
  intros Hstore. unfold db.getMessageStats, db.query. run_step.
  now rewrite Hstore.
Qed.

(** C10. The statistics [getMessageStats] returns for an account are the
    counts over the rows of that account, and it returns them whenever
    the store answers its select.  For every account they satisfy
    [success + failed <= total], and [total] counts the rows of every
    direction, those of the webhook directions included.  A message
    ingested without failure leaves in the log a row of direction
    [incoming] that has no status; from then on, however the log grows,
    the statistics of its account count it in [total] and [incoming] and
    in neither [success] nor [failed]: [success + failed < total]. *)
Theorem stats_success_failed_below_total (env : Env) :
  (forall (w : World) (accountId : string),
     let stats := db.stats_of (rows_of accountId w) in
     (supabase_error env (SelectMessageStats accountId) = None ->
      fst (db.getMessageStats env accountId w) = Ok stats)
     /\ (forall returned,
           fst (db.getMessageStats env accountId w) = Ok returned ->
           returned = stats)
     /\ Stats.total stats = length (rows_of accountId w)
     /\ Stats.success stats + Stats.failed stats <= Stats.total stats
     /\ Stats.incoming stats + Stats.outgoing stats
        + length (List.filter (db.has_direction "webhook")
                    (rows_of accountId w))
        + length (List.filter (db.has_direction "webhook_incoming")
                    (rows_of accountId w))
        <= Stats.total stats)
  /\ (forall (client : Client.t) (accountId : string) (message : Message.t)
        (w : World),
        ingestion_failure env accountId message (ticks w) = None ->
        let w' :=
          snd (handleIncomingMessage env client accountId message w) in
        exists entry,
          In entry (message_logs w')
          /\ MessageLog.account_id entry = accountId
          /\ MessageLog.direction entry = "incoming"
          /\ MessageLog.status entry = None
          /\ db.has_status "success" entry = false
          /\ db.has_status "failed" entry = false
          /\ forall (later : World) (more : list MessageLog.t),
               message_logs later = message_logs w' ++ more ->
               let stats := db.stats_of (rows_of accountId later) in
               1 <= Stats.incoming stats
               /\ Stats.success stats + Stats.failed stats
                  < Stats.total stats).
Proof.
  split.
  - intros w accountId stats.
    split; [apply getMessageStats_answered|].
    split; [intros returned; apply getMessageStats_run|].
    split; [reflexivity|]. split.
    + pose proof (status_counts (rows_of accountId w)). subst stats. lia.
    + apply direction_counts.
  - intros client accountId message w Hingested w'. subst w'.
    rewrite handleIncomingMessage_run.
    unfold ingestion_failure in Hingested.
    destruct (Message.getChat message) as [chat|e]; [|discriminate].
    destruct (media_of message) as [media|e]; [|discriminate].
    cbv zeta. rewrite Hingested.
    set (entry := incoming_entry accountId message chat media
                    (clock env (ticks w))).
    destruct (sendToWebhooks_appends env accountId entry
                (after w [entry] [Supabase (InsertMessageLog entry)] 1))
      as (rows & effects & reads & ->).
    rewrite after_after. simpl.
    exists entry. split; [apply in_or_app; right; now left|].
    repeat (split; [reflexivity|]).
    intros later more Hlater. cbv zeta.
    assert (Hin : In entry (rows_of accountId later)).
    { unfold rows_of. apply filter_In. split.
      - rewrite Hlater. apply in_or_app. left.
        apply in_or_app. right. now left.
      - apply String.eqb_refl. }
    split; [now apply incoming_counted with entry|].
    pose proof (status_counts (rows_of accountId later)) as Hcounts.
    pose proof (no_status_counted (rows_of accountId later) entry Hin
                  eq_refl).
    unfold db.stats_of in Hcounts. simpl in Hcounts. lia.
Qed.

Lemma stats_success_failed_below_total_witness :
  let w' := snd (handleIncomingMessage Scenario.env SendExample.client
                   "acc" Scenario.hi IngestExample.empty_world) in
  ingestion_failure Scenario.env "acc" Scenario.hi
    (ticks IngestExample.empty_world) = None
  /\ supabase_error Scenario.env (SelectMessageStats "acc") = None
  /\ exists stats,
       fst (db.getMessageStats Scenario.env "acc" w') = Ok stats
       /\ 1 <= Stats.incoming stats
       /\ Stats.success stats + Stats.failed stats < Stats.total stats.
Proof.
  cbv zeta. split; [reflexivity|]. split; [reflexivity|].
  destruct (stats_success_failed_below_total Scenario.env)
    as [Hstats Hingested].
  destruct (Hingested SendExample.client "acc" Scenario.hi
              IngestExample.empty_world eq_refl)
    as (entry & _ & _ & _ & _ & _ & _ & Hlater).
  eexists. split.
  - apply Hstats. reflexivity.
  - apply (Hlater _ []). now rewrite app_nil_r.
Defined.

(** The statistics after the scenario of the specification: three rows,
    one success, one failed, and the incoming row in neither. *)
Example stats_scenario :
  fst (db.getMessageStats Scenario.env "acc"
         (snd (handleIncomingMessage Scenario.env SendExample.client "acc"
                 Scenario.hi IngestExample.empty_world)))
  = Ok {| Stats.total := 3; Stats.incoming := 1; Stats.outgoing := 0;
          Stats.success := 1; Stats.failed := 1 |}.
Proof. vm_compute; reflexivity. Qed.

(** ** Reconnection at start-up *)

Lemma reconnectAccount_run (env : Env) (account : Account.t) (w : World) :
  let id := Account.id account in
  let update := mark_disconnected (clock env (ticks w)) in
  reconnectAccount env account w
  = match client_initialize env id with
    | None =>
        (Ok tt,
         reconnected w id (launched_client id) "initializing"
           (whatsapp_accounts w) [ClientInitialize id] 0)
    | Some _ =>
        match supabase_error env (UpdateAccount id update) with
        | None =>
            (Ok tt,
             reconnected w id (fresh_client id) "disconnected"
               (updated_accounts id update (whatsapp_accounts w))
               [ClientInitialize id; Supabase (UpdateAccount id update)] 1)
        | Some store_error =>
            (Throw store_error,
             reconnected w id (fresh_client id) "initializing"
               (whatsapp_accounts w)
               [ClientInitialize id; Supabase (UpdateAccount id update)] 1)
        end
    end.
Proof.
  cbv zeta.
  unfold reconnectAccount, transport_initialize, db.updateAccount, db.query.
  run_step.
  destruct (client_initialize env (Account.id account)) as [e|]; simpl.
  - destruct (supabase_error env _) as [e'|]; simpl;
      unfold reconnected, fresh_client, updated_accounts; simpl;
      rewrite <- ?app_assoc, ?insert_insert_eq; reflexivity.
  - unfold reconnected, launched_client. simpl.
    now rewrite alter_insert_eq.
Qed.

Lemma attempts_app (a b : list Effect) :
  attempts (a ++ b) = attempts a ++ attempts b.
Proof. apply flat_map_app. Qed.

Section Reconnection.

Variable env : Env.

(** Whatever the store does, the loop calls [initialize] for a prefix of
    the selected accounts, in order. *)
Lemma reconnect_loop_prefix (accounts : list Account.t) (w : World) :
  exists result w' attempted rest,
    for_of accounts (reconnect_each env) w = (result, w')
    /\ attempts (trace w') = attempts (trace w) ++ attempted
    /\ eligible accounts = attempted ++ rest.
Proof.
  revert w. induction accounts as [|account others IH]; intros w.
  - exists (Ok tt), w, [], []. simpl. unfold ret.
    now rewrite app_nil_r.
  - simpl for_of. unfold bind at 1, reconnect_each at 1, eligible.
    simpl List.filter.
    destruct (to_reconnect account) eqn:Hselected.
    + rewrite reconnectAccount_run.
      destruct (client_initialize env (Account.id account)) as [e|].
      * destruct (supabase_error env _) as [e'|].
        -- do 2 eexists. exists [Account.id account], (eligible others).
           split; [reflexivity|]. simpl.
           rewrite attempts_app. auto.
        -- destruct (IH (reconnected w (Account.id account)
                           (fresh_client (Account.id account))
                           "disconnected"
                           (updated_accounts (Account.id account)
                              (mark_disconnected (clock env (ticks w)))
                              (whatsapp_accounts w))
                           [ClientInitialize (Account.id account);
                            Supabase (UpdateAccount (Account.id account)
                              (mark_disconnected (clock env (ticks w))))]
                           1))
             as (result & w' & attempted & rest & -> & Htrace & Hrest).
           exists result, w', (Account.id account :: attempted), rest.
           split; [reflexivity|]. simpl in *.
           rewrite Htrace, attempts_app, <- app_assoc. fold (eligible others).
           rewrite Hrest. auto.
      * destruct (IH (reconnected w (Account.id account)
                        (launched_client (Account.id account))
                        "initializing" (whatsapp_accounts w)
                        [ClientInitialize (Account.id account)] 0))
          as (result & w' & attempted & rest & -> & Htrace & Hrest).
        exists result, w', (Account.id account :: attempted), rest.
        split; [reflexivity|]. simpl in *.
        rewrite Htrace, attempts_app, <- app_assoc. fold (eligible others).
        rewrite Hrest. auto.
    + unfold ret at 1.
      destruct (IH w) as (result & w' & attempted & rest & -> & Htrace & Hrest).
      exists result, w', attempted, rest. auto.
Qed.

Hypothesis available : store_available env.


End Reconnection.

Lemma initializeExistingAccounts_run (env : Env) (w : World) :
  initializeExistingAccounts env w
  = match supabase_error env SelectAccounts with
    | Some _ => (Ok tt, after w [] [Supabase SelectAccounts] 0)
    | None =>
        let run := for_of (whatsapp_accounts w) (reconnect_each env)
                     (after w [] [Supabase SelectAccounts] 0) in
        (Ok tt, snd run)
    end.
Proof.
  unfold initializeExistingAccounts, db.getAccounts, db.query.
  fold (reconnect_each env).
  unfold try_catch, bind at 1 2 3. rewrite emit_run.
  destruct (supabase_error env SelectAccounts) as [e|].
  - reflexivity.
  - unfold ret at 1, get at 1, bind. simpl whatsapp_accounts.
    destruct (for_of _ _ _) as [[[]|e] w']; reflexivity.
Qed.




(** The start-up of the example, run: two accounts are reconnected, the
    other two are left alone. *)
Example startup_scenario :
  let w' := snd (initializeExistingAccounts StartupExample.env
                   StartupExample.world) in
  trace w'
  = [Supabase SelectAccounts;
     ClientInitialize "a-ready";
     ClientInitialize "a-qr";
     Supabase (UpdateAccount "a-qr"
       (mark_disconnected "2024-03-01T08:00:00.000Z"))]
  /\ accountStatus w' !! "a-ready" = Some "initializing"
  /\ accountStatus w' !! "a-qr" = Some "disconnected"
  /\ accountStatus w' !! "a-failed" = None
  /\ accountStatus w' !! "a-gone" = None.
Proof. repeat split; vm_compute; reflexivity. Qed.

(** What a failed re-attachment persists, for any account: the status
    and the time of the update, and nothing else; the column
    [error_message] keeps whatever it held. *)
Lemma reconnectAccount_failure (env : Env) (account : Account.t)
  (w : World) (reason : string) :
  client_initialize env (Account.id account) = Some reason ->
  let update := mark_disconnected (clock env (ticks w)) in
  supabase_error env (UpdateAccount (Account.id account) update) = None ->
  let w' := snd (reconnectAccount env account w) in
  accountStatus w' !! Account.id account = Some "disconnected"
  /\ whatsapp_accounts w'
     = updated_accounts (Account.id account) update (whatsapp_accounts w)
  /\ Forall2
       (fun before after =>
          Account.error_message after = Account.error_message before
          /\ (Account.id before = Account.id account ->
              Account.status after = "disconnected"))
       (whatsapp_accounts w) (whatsapp_accounts w').
Proof.
  intros Hinit update Hstore w'. subst w'.
  rewrite reconnectAccount_run. fold update. rewrite Hinit, Hstore.
  simpl. split; [apply lookup_insert_eq|]. split; [reflexivity|].
  induction (whatsapp_accounts w) as [|row rows IH]; simpl; constructor;
    [|exact IH].
  destruct (String.eqb (Account.id row) (Account.id account)) eqn:Hid.
  - split; reflexivity.
  - split; [reflexivity|]. intros Heq. apply String.eqb_neq in Hid.
    contradiction.
Qed.

(** C7, at a failing re-attachment: account ["a-qr"], persisted as
    [qr_ready], whose browser cannot be launched.  The in-memory status
    and the persisted status become [disconnected], but the reason of the
    failure is not persisted: the update sent to the store has no
    [error_message], and the column stays empty. *)
Theorem reconnectAccount_failure_reason_not_persisted :
  let account := StartupExample.account "a-qr" "qr_ready" in
  let w' := snd (reconnectAccount StartupExample.env account
                   StartupExample.world) in
  client_initialize StartupExample.env "a-qr"
  = Some "Failed to launch the browser"
  /\ accountStatus w' !! "a-qr" = Some "disconnected"
  /\ trace w'
     = [ClientInitialize "a-qr";
        Supabase (UpdateAccount "a-qr"
          {| Account.set_status := Some "disconnected";
             Account.set_phone_number := None;
             Account.set_qr_code := None;
             Account.set_error_message := None;
             Account.set_updated_at := Some "2024-03-01T08:00:00.000Z" |})]
  /\ List.map
       (fun row => (Account.id row, Account.status row,
                    Account.error_message row))
       (whatsapp_accounts w')
     = [("a-ready", "ready", None); ("a-failed", "auth_failed", None);
        ("a-qr", "disconnected", None); ("a-gone", "disconnected", None)].
Proof. repeat split; vm_compute; reflexivity. Qed.

(** ** The limit of the assumption on the store

    The results on the dispatcher take a store that answers.  The handler
    of line 234 is itself unprotected: when the store rejects the failure
    row of a webhook the exception leaves the loop, and the webhooks
    after it are not contacted. *)
Example dispatch_store_rejects_failure_row :
  let env := {| supabase_error := fun q =>
                  match q with
                  | InsertMessageLog row =>
                      match MessageLog.error_message row with
                      | Some _ => Some "value too long for column"
                      | None => None
                      end
                  | _ => None
                  end;
                axios_post := axios_post Scenario.env_w1_down;
                client_initialize := client_initialize Scenario.env;
                client_sendMessage := client_sendMessage Scenario.env;
                clock := clock Scenario.env |} in
  let run := sendToWebhooks env "acc" Scenario.hi_entry Scenario.world in
  fst run = Ok tt
  /\ message_logs (snd run) = message_logs Scenario.world
  /\ List.map is_dispatch (trace (snd run)) = [true; true; false].
Proof. repeat split; vm_compute; reflexivity. Qed.


(** * Further properties *)

(** ** The dispatcher, whatever the store does *)

Lemma posts_app (a b : list Effect) : posts (a ++ b) = posts a ++ posts b.
Proof. apply flat_map_app. Qed.

Lemma sends_app (a b : list Effect) : sends (a ++ b) = sends a ++ sends b.
Proof. apply flat_map_app. Qed.

(** Case analysis on the answer of the store to the next insertion into
    the log. *)
Ltac store_cases :=
  match goal with
  | |- context [db.logMessage ?env ?row ?w] =>
      let H := fresh "Hstore" in
      let e := fresh "store_error" in
      destruct (supabase_error env (InsertMessageLog row)) as [e|] eqn:H;
      [ rewrite (logMessage_rejected env row w e H)
      | rewrite (logMessage_accepted env row w H) ]
  end.

(** One turn of the loop on an active webhook posts once, whatever the
    answers of the subscriber and of the store. *)
Lemma deliver_active_posts env accountId messageData webhook (w : World) :
  Webhook.is_active webhook = true ->
  exists result rows effects reads,
    deliver env accountId messageData webhook w
    = (result,
       after w rows
         (AxiosPost (webhook_request accountId messageData webhook)
          :: effects) reads)
    /\ posts effects = [].
Proof.
  intros Hactive. unfold deliver, post. rewrite Hactive.
  change (negb true) with false. cbv iota beta.
  unfold try_catch, bind, lift, ret. rewrite emit_run.
  destruct (axios_post env _) as [response|error]; rewrite now_run;
    store_cases; rewrite ?now_run; try store_cases;
    rewrite !after_after; simpl; do 4 eexists; split; reflexivity.
Qed.

(** The loop posts to a prefix of the active webhooks, in order, and to
    all of them when it runs to its end. *)
Lemma for_of_deliver_posts env accountId messageData hooks (w : World) :
  exists result w' posted rest,
    for_of hooks (deliver env accountId messageData) w = (result, w')
    /\ posts (trace w') = posts (trace w) ++ posted
    /\ List.map (webhook_request accountId messageData) (active hooks)
       = posted ++ rest
    /\ (result = Ok tt -> rest = []).
Proof.
  revert w. induction hooks as [|webhook others IH]; intros w.
  - exists (Ok tt), w, [], []. simpl. unfold ret.
    now rewrite app_nil_r.
  - simpl for_of. unfold bind at 1. unfold active. simpl List.filter.
    fold (active others).
    destruct (Webhook.is_active webhook) eqn:Hactive.
    + destruct (deliver_active_posts env accountId messageData webhook w
                  Hactive)
        as (result & rows & effects & reads & -> & Hsilent).
      destruct result as [[]|e].
      * destruct (IH (after w rows
                        (AxiosPost
                           (webhook_request accountId messageData webhook)
                         :: effects) reads))
          as (result & w' & posted & rest & -> & Htrace & Hsplit & Hend).
        exists result, w',
          (webhook_request accountId messageData webhook :: posted), rest.
        split; [reflexivity|]. simpl in *.
        rewrite Htrace, posts_app. simpl. rewrite Hsilent, Hsplit.
        rewrite <- !app_assoc. auto.
      * do 2 eexists.
        exists [webhook_request accountId messageData webhook],
          (List.map (webhook_request accountId messageData) (active others)).
        split; [reflexivity|]. simpl.
        rewrite posts_app. simpl. rewrite Hsilent.
        repeat split. discriminate.
    + rewrite deliver_inactive by assumption.
      destruct (IH w)
        as (result & w' & posted & rest & -> & Htrace & Hsplit & Hend).
      exists result, w', posted, rest. auto.
Qed.

Lemma posts_delivery_effects env accountId messageData hooks tick :
  posts (delivery_effects env accountId messageData hooks tick)
  = List.map (webhook_request accountId messageData) (active hooks).
Proof.
  revert tick. induction hooks as [|webhook others IH]; intros tick;
    [reflexivity|].
  unfold active. simpl.
  destruct (Webhook.is_active webhook); simpl; [f_equal|]; apply IH.
Qed.

(** X1. Whatever the store and the subscribers answer, one dispatch
    posts at most once to each active webhook of the account, in the
    order of the list, with the message as payload, and to no other
    address: the requests posted are a prefix of the requests for the
    active webhooks.  With the store answering it posts to every one of
    them. *)
Theorem sendToWebhooks_posts_once_each
  (env : Env) (accountId : string) (messageData : MessageLog.t)
  (w : World) :
  exists posted rest,
    posts (trace (snd (sendToWebhooks env accountId messageData w)))
    = posts (trace w) ++ posted
    /\ List.map (webhook_request accountId messageData)
         (active (subscribers accountId w))
       = posted ++ rest
    /\ (store_available env -> rest = []).
Proof.
  assert (Hgeneral : exists posted rest,
    posts (trace (snd (sendToWebhooks env accountId messageData w)))
    = posts (trace w) ++ posted
    /\ List.map (webhook_request accountId messageData)
         (active (subscribers accountId w))
       = posted ++ rest).
  { unfold sendToWebhooks, db.getWebhooks, db.query.
    unfold try_catch, bind at 1 2 3. rewrite emit_run.
    destruct (supabase_error env _) as [e|].
    - unfold throw, ret. simpl.
      exists [], (List.map (webhook_request accountId messageData)
                    (active (subscribers accountId w))).
      rewrite posts_app, !app_nil_r. split; reflexivity.
    - unfold ret at 1, get at 1, bind, ret at 1.
      destruct (for_of_deliver_posts env accountId messageData
                  (List.filter
                     (fun row =>
                        String.eqb (Webhook.account_id row) accountId)
                     (webhooks
                        (after w [] [Supabase (SelectWebhooks accountId)] 0)))
                  (after w [] [Supabase (SelectWebhooks accountId)] 0))
        as (result & w' & posted & rest & -> & Htrace & Hsplit & _).
      exists posted, rest. split; [|exact Hsplit].
      replace (posts (trace w))
        with (posts (trace (after w [] [Supabase (SelectWebhooks accountId)]
                              0)))
        by (simpl; rewrite posts_app; simpl; apply app_nil_r).
      rewrite <- Htrace. now destruct result as [[]|e]. }
  destruct Hgeneral as (posted & rest & Htrace & Hsplit).
  exists posted, rest. split; [exact Htrace|]. split; [exact Hsplit|].
  intros Havailable.
  rewrite sendToWebhooks_run in Htrace by assumption. simpl in Htrace.
  rewrite posts_app in Htrace. simpl in Htrace.
  rewrite posts_delivery_effects in Htrace.
  apply app_inv_head in Htrace. rewrite Htrace in Hsplit.
  rewrite <- (app_nil_r posted) in Hsplit at 1.
  apply app_inv_head in Hsplit. congruence.
Qed.

Lemma sendToWebhooks_posts_once_each_witness :
  store_available Scenario.env
  /\ posts (trace (snd (sendToWebhooks Scenario.env "acc" Scenario.hi_entry
                          Scenario.world)))
     = [webhook_request "acc" Scenario.hi_entry Scenario.w1;
        webhook_request "acc" Scenario.hi_entry Scenario.w2].
Proof.
  split; [intros q; reflexivity|].
  destruct (sendToWebhooks_posts_once_each Scenario.env "acc"
              Scenario.hi_entry Scenario.world)
    as (posted & rest & Htrace & Hsplit & Hall).
  rewrite (Hall (fun q => eq_refl)), app_nil_r in Hsplit.
  rewrite Htrace, <- Hsplit. reflexivity.
Defined.

(** X2. A delivery that got a response is recorded as failed when the
    store rejects its success row and accepts the failure row: the inner
    handler of the loop takes the store's error for a delivery error.  The
    row written has status [failed] and the store's error as its message,
    and the turn of the loop ends normally. *)
Theorem deliver_response_logged_as_failed
  (env : Env) (accountId : string) (messageData : MessageLog.t)
  (webhook : Webhook.t) (w : World) (response : Axios.response)
  (store_error : string) :
  Webhook.is_active webhook = true ->
  axios_post env (webhook_request accountId messageData webhook)
  = Ok response ->
  supabase_error env
    (InsertMessageLog
       (delivery_success accountId webhook response (clock env (ticks w))))
  = Some store_error ->
  supabase_error env
    (InsertMessageLog
       (delivery_failed accountId webhook store_error
          (clock env (S (ticks w)))))
  = None ->
  let run := deliver env accountId messageData webhook w in
  fst run = Ok tt
  /\ posts (trace (snd run))
     = posts (trace w) ++ [webhook_request accountId messageData webhook]
  /\ message_logs (snd run)
     = message_logs w
       ++ [delivery_failed accountId webhook store_error
             (clock env (S (ticks w)))].
Proof.
  intros Hactive Hpost Hsuccess Hfailed run. subst run.
  unfold deliver, post. rewrite Hactive.
  change (negb true) with false. cbv iota beta.
  unfold try_catch, bind, lift, ret. rewrite emit_run, Hpost, now_run.
  erewrite logMessage_rejected by (simpl; exact Hsuccess).
  rewrite now_run.
  rewrite logMessage_accepted by (simpl; exact Hfailed).
  rewrite !after_after. simpl.
  split; [reflexivity|]. split; [|reflexivity].
  rewrite posts_app. reflexivity.
Qed.

Lemma deliver_response_logged_as_failed_witness :
  let run := deliver StoreScenario.env_no_response_status "acc"
               Scenario.hi_entry Scenario.w1 Scenario.world in
  axios_post StoreScenario.env_no_response_status
    (webhook_request "acc" Scenario.hi_entry Scenario.w1)
  = Ok {| Axios.status := 200 |}
  /\ List.map MessageLog.status (message_logs (snd run))
     = [None; Some "failed"].
Proof.
  cbv zeta. split; [reflexivity|].
  destruct (deliver_response_logged_as_failed
              StoreScenario.env_no_response_status "acc" Scenario.hi_entry
              Scenario.w1 Scenario.world {| Axios.status := 200 |}
              "column response_status does not exist"
              eq_refl eq_refl eq_refl eq_refl)
    as (_ & _ & ->).
  reflexivity.
Defined.

(** ** Ingestion and dispatch together *)

Lemma appends_attach_media (message : Message.t) :
  appends (attach_media message).
Proof.
  intros w. rewrite attach_media_run.
  exists (media_of message), [], [], 0. now rewrite after_nothing.
Qed.

Lemma appends_sendToWebhooks env accountId messageData :
  appends (sendToWebhooks env accountId messageData).
Proof.
  intros w.
  destruct (sendToWebhooks_appends env accountId messageData w)
    as (rows & effects & reads & ->).
  eauto 6.
Qed.

#[local] Hint Resolve appends_attach_media appends_sendToWebhooks : appends.

Lemma appends_handleIncomingMessage env client accountId message :
  appends (handleIncomingMessage env client accountId message).
Proof. unfold handleIncomingMessage. eauto 12 with appends. Qed.

(** X3. When the incoming row is persisted but the webhooks of the
    account cannot be listed, the dispatch is dropped without a trace in
    the log: the handler ends normally, the log gains the incoming row
    alone, and nothing is posted. *)
Theorem handleIncomingMessage_webhooks_unlisted
  (env : Env) (client : Client.t) (accountId : string)
  (message : Message.t) (w : World) (error : string) :
  ingestion_failure env accountId message (ticks w) = None ->
  supabase_error env (SelectWebhooks accountId) = Some error ->
  let run := handleIncomingMessage env client accountId message w in
  fst run = Ok tt
  /\ posts (trace (snd run)) = posts (trace w)
  /\ exists entry,
       message_logs (snd run) = message_logs w ++ [entry]
       /\ MessageLog.direction entry = "incoming"
       /\ MessageLog.status entry = None.
Proof.
  intros Hingested Hlist run. subst run.
  rewrite handleIncomingMessage_run.
  unfold ingestion_failure in Hingested.
  destruct (Message.getChat message) as [chat|e]; [|discriminate].
  destruct (media_of message) as [media|e]; [|discriminate].
  cbv zeta. rewrite Hingested.
  unfold sendToWebhooks, db.getWebhooks, db.query.
  unfold try_catch, bind. rewrite emit_run, Hlist.
  unfold throw, ret. rewrite after_after. simpl.
  split; [reflexivity|]. split.
  - rewrite posts_app. simpl. apply app_nil_r.
  - eexists. split; [reflexivity|]. split; reflexivity.
Qed.

Lemma handleIncomingMessage_webhooks_unlisted_witness :
  let run := handleIncomingMessage StoreScenario.env_no_webhooks
               SendExample.client "acc" Scenario.hi
               IngestExample.empty_world in
  fst run = Ok tt /\ posts (trace (snd run)) = [].
Proof.
  cbv zeta.
  destruct (handleIncomingMessage_webhooks_unlisted
              StoreScenario.env_no_webhooks SendExample.client "acc"
              Scenario.hi IngestExample.empty_world
              "relation webhooks does not exist" eq_refl eq_refl)
    as (Hresult & Hposts & _).
  split; assumption.
Defined.

(** X4. With the store answering, a message whose chat and media can be
    read is logged and then delivered as logged: the log gains the
    incoming row followed by one outcome row per active webhook, and the
    payload of every request posted is that incoming row. *)
Theorem handleIncomingMessage_delivers_logged_row
  (env : Env) (client : Client.t) (accountId : string)
  (message : Message.t) (w : World) (chat : Chat.t)
  (media : option Media.t) :
  store_available env ->
  Message.getChat message = Ok chat ->
  media_of message = Ok media ->
  let entry := incoming_entry accountId message chat media
                 (clock env (ticks w)) in
  let w' := snd (handleIncomingMessage env client accountId message w) in
  posts (trace w')
  = posts (trace w)
    ++ List.map (webhook_request accountId entry)
         (active (subscribers accountId w))
  /\ exists rows,
       message_logs w' = message_logs w ++ entry :: rows
       /\ Forall2
            (fun webhook row =>
               records_delivery accountId webhook
                 (axios_post env (webhook_request accountId entry webhook))
                 row)
            (active (subscribers accountId w)) rows.
Proof.
  intros Havailable Hchat Hmedia entry w'. subst w'.
  rewrite handleIncomingMessage_run, Hchat, Hmedia. cbv zeta.
  fold entry. rewrite Havailable.
  rewrite sendToWebhooks_run by assumption.
  rewrite after_after. simpl. split.
  - rewrite !posts_app. simpl. now rewrite posts_delivery_effects.
  - eexists. split; [reflexivity|]. apply delivery_entries_records.
Qed.

Lemma handleIncomingMessage_delivers_logged_row_witness :
  store_available Scenario.env
  /\ List.map Axios.data
       (posts (trace (snd (handleIncomingMessage Scenario.env
                             SendExample.client "acc" Scenario.hi
                             IngestExample.empty_world))))
     = [incoming_entry "acc" Scenario.hi Scenario.chat_of_hi None
          "2024-02-01T10:00:01.000Z";
        incoming_entry "acc" Scenario.hi Scenario.chat_of_hi None
          "2024-02-01T10:00:01.000Z"].
Proof.
  split; [intros q; reflexivity|].
  destruct (handleIncomingMessage_delivers_logged_row Scenario.env
              SendExample.client "acc" Scenario.hi
              IngestExample.empty_world Scenario.chat_of_hi None
              (fun q => eq_refl) eq_refl eq_refl)
    as [-> _].
  reflexivity.
Defined.

(** X5. The handler of the [message] event never throws and only
    appends to the log and to the trace, whatever the message, the store
    and the subscribers do; [handleIncomingMessage] on its own throws
    only when the ingestion has failed and the store has rejected the
    failure row as well. *)
Theorem on_message_never_throws
  (env : Env) (client : Client.t) (accountId : string)
  (message : Message.t) (w : World) :
  (exists rows effects reads,
     on_message env client accountId message w
     = (Ok tt, after w rows effects reads))
  /\ forall thrown,
       fst (handleIncomingMessage env client accountId message w)
       = Throw thrown ->
       exists error tick,
         ingestion_failure env accountId message (ticks w) = Some error
         /\ supabase_error env
              (InsertMessageLog
                 (incoming_failed accountId error (clock env tick)))
            = Some thrown.
Proof.
  split.
  - unfold on_message, try_catch.
    destruct (appends_handleIncomingMessage env client accountId message w)
      as ([[]|e] & rows & effects & reads & ->); unfold ret; eauto.
  - intros thrown. rewrite handleIncomingMessage_run.
    unfold ingestion_failure.
    assert (Hfailed : forall error w1,
      fst (log_ingestion_failure env accountId error w1) = Throw thrown ->
      supabase_error env
        (InsertMessageLog
           (incoming_failed accountId error (clock env (ticks w1))))
      = Some thrown).
    { intros error w1. unfold log_ingestion_failure, bind at 1.
      rewrite now_run. unfold bind.
      destruct (supabase_error env
                  (InsertMessageLog
                     (incoming_failed accountId error (clock env (ticks w1)))))
        as [e|] eqn:Hstore.
      - erewrite logMessage_rejected by (simpl; exact Hstore).
        simpl. congruence.
      - rewrite logMessage_accepted by (simpl; exact Hstore).
        unfold ret. simpl. discriminate. }
    destruct (Message.getChat message) as [chat|e].
    + destruct (media_of message) as [media|e]; cbv zeta.
      * destruct (supabase_error env _) as [e|] eqn:Hentry.
        -- intros H%Hfailed. eauto.
        -- destruct (sendToWebhooks_appends env accountId
                       (incoming_entry accountId message chat media
                          (clock env (ticks w)))
                       (after w
                          [incoming_entry accountId message chat media
                             (clock env (ticks w))]
                          [Supabase (InsertMessageLog
                             (incoming_entry accountId message chat media
                                (clock env (ticks w))))] 1))
             as (rows & effects & reads & ->).
           discriminate.
      * intros H%Hfailed. eauto.
    + intros H%Hfailed. eauto.
Qed.

(** ** The outbound send path, past the checks *)

Lemma log_send_failure_run env accountId number message error (w : World) :
  let row := outgoing_failed accountId number message error
               (clock env (ticks w)) in
  log_send_failure env accountId number message error w
  = match supabase_error env (InsertMessageLog row) with
    | None =>
        (Throw error, after w [row] [Supabase (InsertMessageLog row)] 1)
    | Some store_error =>
        (Throw store_error,
         after w [] [Supabase (InsertMessageLog row)] 1)
    end.
Proof.
  intros row. unfold log_send_failure, bind at 1. rewrite now_run.
  unfold bind. fold row.
  destruct (supabase_error env (InsertMessageLog row)) eqn:Hstore.
  - erewrite logMessage_rejected by (simpl; exact Hstore).
    now rewrite after_after.
  - rewrite logMessage_accepted by (simpl; exact Hstore).
    unfold throw. now rewrite after_after.
Qed.

(** [sendMessage] once the three checks have passed. *)
Lemma sendMessage_passed (env : Env) (accountId number message : string)
  (w : World) :
  send_refusal w accountId = None ->
  let call := ClientSendMessage accountId (formatPhoneNumber number)
                message in
  sendMessage env accountId number message w
  = match client_sendMessage env accountId (formatPhoneNumber number)
            message with
    | Throw error =>
        log_send_failure env accountId number message error
          (after w [] [call] 0)
    | Ok result =>
        let row := outgoing_success accountId message result
                     (clock env (ticks w)) in
        match supabase_error env (InsertMessageLog row) with
        | Some error =>
            log_send_failure env accountId number message error
              (after w [] [call; Supabase (InsertMessageLog row)] 1)
        | None =>
            (Ok {| Receipt.success := true;
                   Receipt.messageId := Sent.id_serialized result;
                   Receipt.timestamp := Sent.timestamp result |},
             after w [row] [call; Supabase (InsertMessageLog row)] 1)
        end
    end.
Proof.
  intros Hpassed call. unfold send_refusal in Hpassed.
  unfold sendMessage. fold (log_send_failure env accountId number message).
  unfold try_catch, bind at 1, get at 1.
  destruct (clients w !! accountId) as [client|]; [|discriminate].
  simpl in Hpassed. unfold bind at 1, get at 1.
  destruct (is_not_ready (accountStatus w !! accountId)); [discriminate|].
  destruct (page_unavailable client); [discriminate|].
  unfold transport_send, bind, lift. rewrite emit_run. fold call.
  destruct (client_sendMessage env accountId (formatPhoneNumber number)
              message) as [result|error]; [|reflexivity].
  rewrite now_run. cbv zeta.
  destruct (supabase_error env
              (InsertMessageLog
                 (outgoing_success accountId message result
                    (clock env (ticks w))))) as [e|] eqn:Hstore.
  - erewrite logMessage_rejected by (simpl; exact Hstore).
    now rewrite !after_after.
  - rewrite logMessage_accepted by (simpl; exact Hstore).
    unfold ret. now rewrite !after_after.
Qed.

Lemma sendMessage_refused_or_passed (w : World) (accountId : string) :
  (exists error, send_refusal w accountId = Some error)
  \/ send_refusal w accountId = None.
Proof. destruct (send_refusal w accountId); eauto. Qed.


(** A number sent as a JSON number to a ready session: the call fails
    before it reaches the transport. *)
Example sendMessage_of_json_number :
  let run := sendMessage_of Scenario.env "acc" (NotText (Some "9876543210"))
               "hello" SendExample.world_ready in
  send_refusal SendExample.world_ready "acc" = None
  /\ fst run = Throw "number.replace is not a function"
  /\ sends (trace (snd run)) = []
  /\ List.map MessageLog.status (message_logs (snd run)) = [Some "failed"].
Proof. cbv zeta. repeat split; vm_compute; reflexivity. Qed.


(** X7. The result of [sendMessage] and the log agree, and the call
    changes nothing but the log and the trace: when it returns, exactly
    one row was appended, an [outgoing] row with status [success] for the
    message id it returns; when it throws, either nothing was appended
    or one [outgoing] row with status [failed] for the number as it was
    given. *)
Theorem sendMessage_result_matches_log
  (env : Env) (accountId number message : string) (w : World) :
  exists result rows effects reads,
    sendMessage env accountId number message w
    = (result, after w rows effects reads)
    /\ match result with
       | Ok receipt =>
           exists sent created,
             rows = [outgoing_success accountId message sent created]
             /\ Receipt.messageId receipt = Sent.id_serialized sent
             /\ Receipt.timestamp receipt = Sent.timestamp sent
       | Throw _ =>
           rows = []
           \/ exists error created,
                rows = [outgoing_failed accountId number message error
                          created]
       end.
Proof.
  assert (Hhandler : forall error effects1 reads1,
    exists result rows effects reads,
      log_send_failure env accountId number message error
        (after w [] effects1 reads1)
      = (result, after w rows effects reads)
      /\ match result with
         | Ok _ => False
         | Throw _ =>
             rows = []
             \/ exists error created,
                  rows = [outgoing_failed accountId number message error
                            created]
         end).
  { intros error effects1 reads1.
    rewrite log_send_failure_run.
    destruct (supabase_error env _); rewrite after_after; simpl;
      do 4 eexists; (split; [reflexivity|]); cbv iota; eauto. }
  assert (Hthrown : forall error effects1 reads1,
    exists result rows effects reads,
      log_send_failure env accountId number message error
        (after w [] effects1 reads1)
      = (result, after w rows effects reads)
      /\ match result with
         | Ok receipt =>
             exists sent created,
               rows = [outgoing_success accountId message sent created]
               /\ Receipt.messageId receipt = Sent.id_serialized sent
               /\ Receipt.timestamp receipt = Sent.timestamp sent
         | Throw _ =>
             rows = []
             \/ exists error created,
                  rows = [outgoing_failed accountId number message error
                            created]
         end).
  { intros error effects1 reads1.
    destruct (Hhandler error effects1 reads1)
      as ([receipt|thrown] & rows & effects & reads & Hrun & Hrows);
      [contradiction|].
    exists (Throw thrown), rows, effects, reads. auto. }
  destruct (sendMessage_refused_or_passed w accountId)
    as [[error Hrefusal]|Hpassed].
  - rewrite (sendMessage_refused env accountId number message w error
               Hrefusal).
    destruct (supabase_error env _);
      do 4 eexists; (split; [reflexivity|]); cbv iota; eauto.
  - rewrite sendMessage_passed by assumption.
    destruct (client_sendMessage env accountId (formatPhoneNumber number)
                message) as [sent|error]; cbv zeta.
    + destruct (supabase_error env _) as [e|]; [apply Hthrown|].
      do 4 eexists. split; [reflexivity|]. cbv iota. eauto.
    + apply Hthrown.
Qed.

(** X8. When the transport rejects the message, [sendMessage] rethrows
    the transport's error and the failure row it writes (accepted by the
    store) carries that error and the number as the caller gave it, not
    the normalised address. *)
Theorem sendMessage_transport_error
  (env : Env) (accountId number message : string) (w : World)
  (error : string) :
  send_refusal w accountId = None ->
  client_sendMessage env accountId (formatPhoneNumber number) message
  = Throw error ->
  let row := outgoing_failed accountId number message error
               (clock env (ticks w)) in
  supabase_error env (InsertMessageLog row) = None ->
  let run := sendMessage env accountId number message w in
  fst run = Throw error
  /\ message_logs (snd run) = message_logs w ++ [row]
  /\ MessageLog.recipient row = Some number
  /\ MessageLog.error_message row = Some error.
Proof.
  intros Hpassed Hsend row Hstore run. subst run.
  rewrite sendMessage_passed by assumption. rewrite Hsend.
  rewrite log_send_failure_run. simpl ticks. fold row. rewrite Hstore.
  simpl. rewrite app_nil_r. repeat split.
Qed.

Lemma sendMessage_transport_error_witness :
  send_refusal SendExample.world_ready "acc" = None
  /\ fst (sendMessage TransportScenario.env_down "acc" "98765 43210" "hello"
            SendExample.world_ready)
     = Throw "Evaluation failed: invalid wid".
Proof.
  split; [reflexivity|].
  apply (sendMessage_transport_error TransportScenario.env_down "acc"
           "98765 43210" "hello" SendExample.world_ready
           "Evaluation failed: invalid wid"); reflexivity.
Defined.

(** X9. A message the transport has accepted is still reported as
    failed when the store rejects its success row: [sendMessage] throws
    although the message was sent, and no row with status [success] is
    written. *)
Theorem sendMessage_sent_but_reported_failed
  (env : Env) (accountId number message : string) (w : World)
  (sent : Sent.t) (store_error : string) :
  send_refusal w accountId = None ->
  client_sendMessage env accountId (formatPhoneNumber number) message
  = Ok sent ->
  supabase_error env
    (InsertMessageLog
       (outgoing_success accountId message sent (clock env (ticks w))))
  = Some store_error ->
  let run := sendMessage env accountId number message w in
  (exists thrown, fst run = Throw thrown)
  /\ sends (trace (snd run))
     = sends (trace w) ++ [(accountId, formatPhoneNumber number, message)]
  /\ exists rows,
       message_logs (snd run) = message_logs w ++ rows
       /\ Forall (fun row => MessageLog.status row <> Some "success") rows.
Proof.
  intros Hpassed Hsend Hstore run. subst run.
  rewrite sendMessage_passed by assumption. rewrite Hsend. cbv zeta.
  rewrite Hstore, log_send_failure_run. clear Hstore.
  destruct (supabase_error env _); simpl.
  - split; [eauto|]. split.
    + rewrite !sends_app. simpl. now rewrite app_nil_r.
    + exists []. split; [now rewrite <- app_assoc|constructor].
  - split; [eauto|]. split.
    + rewrite !sends_app. simpl. now rewrite app_nil_r.
    + eexists. split; [rewrite <- app_assoc; reflexivity|].
      constructor; [discriminate|constructor].
Qed.

Lemma sendMessage_sent_but_reported_failed_witness :
  let run := sendMessage StoreScenario.env_no_logs "acc" "98765 43210"
               "hello" SendExample.world_ready in
  sends (trace (snd run)) = [("acc", "+919876543210@c.us", "hello")]
  /\ fst run = Throw "permission denied for table message_logs".
Proof.
  cbv zeta.
  destruct (sendMessage_sent_but_reported_failed StoreScenario.env_no_logs
              "acc" "98765 43210" "hello" SendExample.world_ready
              Scenario.sent "permission denied for table message_logs"
              eq_refl eq_refl eq_refl)
    as (_ & -> & _).
  split; reflexivity.
Defined.

(** ** Statistics and the log *)

Lemma stats_of_app (data more : list MessageLog.t) :
  db.stats_of (data ++ more)
  = {| Stats.total :=
         Stats.total (db.stats_of data) + Stats.total (db.stats_of more);
       Stats.incoming :=
         Stats.incoming (db.stats_of data)
         + Stats.incoming (db.stats_of more);
       Stats.outgoing :=
         Stats.outgoing (db.stats_of data)
         + Stats.outgoing (db.stats_of more);
       Stats.success :=
         Stats.success (db.stats_of data) + Stats.success (db.stats_of more);
       Stats.failed :=
         Stats.failed (db.stats_of data) + Stats.failed (db.stats_of more) |}.
Proof.
  unfold db.stats_of. simpl.
  now rewrite !List.filter_app, !List.length_app.
Qed.

Lemma rows_of_after (accountId : string) (w : World) rows effects reads :
  rows_of accountId (after w rows effects reads)
  = rows_of accountId w
    ++ List.filter
         (fun row => String.eqb (MessageLog.account_id row) accountId) rows.
Proof. unfold rows_of. simpl. apply List.filter_app. Qed.

(** X10. Logging a row and reading the statistics: once the store has
    accepted a row, the statistics of the row's account count one more in
    [total] and one more in each of [incoming], [outgoing], [success] and
    [failed] that the row's direction and status match; the statistics of
    every other account are what they were. *)
Theorem stats_after_logMessage
  (env : Env) (row : MessageLog.t) (w : World) (accountId : string)
  (before later : Stats.t) :
  supabase_error env (InsertMessageLog row) = None ->
  fst (db.getMessageStats env accountId w) = Ok before ->
  fst (db.getMessageStats env accountId (snd (db.logMessage env row w)))
  = Ok later ->
  if String.eqb (MessageLog.account_id row) accountId
  then Stats.total later = S (Stats.total before)
       /\ Stats.incoming later
          = Stats.incoming before
            + Nat.b2n (db.has_direction "incoming" row)
       /\ Stats.outgoing later
          = Stats.outgoing before
            + Nat.b2n (db.has_direction "outgoing" row)
       /\ Stats.success later
          = Stats.success before + Nat.b2n (db.has_status "success" row)
       /\ Stats.failed later
          = Stats.failed before + Nat.b2n (db.has_status "failed" row)
  else later = before.
Proof.
  intros Hstore ->%getMessageStats_run.
  rewrite logMessage_accepted by assumption. simpl snd.
  intros ->%getMessageStats_run.
  rewrite rows_of_after, stats_of_app. simpl List.filter.
  destruct (String.eqb (MessageLog.account_id row) accountId).
  - unfold db.stats_of at 2 4 6 8 10. simpl.
    destruct (db.has_direction "incoming" row),
      (db.has_direction "outgoing" row), (db.has_status "success" row),
      (db.has_status "failed" row); simpl; repeat split; lia.
  - unfold db.stats_of. simpl. now rewrite !Nat.add_0_r.
Qed.

Lemma stats_after_logMessage_witness :
  fst (db.getMessageStats Scenario.env "acc"
         (snd (db.logMessage Scenario.env
                 (outgoing_success "acc" "hello" Scenario.sent "t")
                 Scenario.world)))
  = Ok {| Stats.total := 2; Stats.incoming := 1; Stats.outgoing := 1;
          Stats.success := 1; Stats.failed := 0 |}
  /\ (if String.eqb "acc" "acc" then 2 = S 1 /\ 1 = 1 + 0 /\ 1 = 0 + 1
                                     /\ 1 = 0 + 1 /\ 0 = 0 + 0
      else True).
Proof.
  split; [reflexivity|].
  exact (stats_after_logMessage Scenario.env
           (outgoing_success "acc" "hello" Scenario.sent "t")
           Scenario.world "acc"
           {| Stats.total := 1; Stats.incoming := 1; Stats.outgoing := 0;
              Stats.success := 0; Stats.failed := 0 |}
           {| Stats.total := 2; Stats.incoming := 1; Stats.outgoing := 1;
              Stats.success := 1; Stats.failed := 0 |}
           eq_refl eq_refl eq_refl).
Defined.

(** ** The routes *)

Lemma getWebhooks_run (env : Env) (accountId : string) (w : World) :
  db.getWebhooks env accountId w
  = (match supabase_error env (SelectWebhooks accountId) with
     | Some error => Throw error
     | None => Ok (subscribers accountId w)
     end,
     after w [] [Supabase (SelectWebhooks accountId)] 0).
Proof.
  unfold db.getWebhooks, db.query, bind. rewrite emit_run.
  destruct (supabase_error env _); reflexivity.
Qed.

Lemma appends_sendMessage env accountId number message :
  appends (sendMessage env accountId number message).
Proof.
  intros w.
  destruct (sendMessage_refused_or_passed w accountId)
    as [[error Hrefusal]|Hpassed].
  - rewrite (sendMessage_refused env accountId number message w error
               Hrefusal).
    destruct (supabase_error env _); eauto 6.
  - rewrite sendMessage_passed by assumption.
    destruct (client_sendMessage env accountId (formatPhoneNumber number)
                message) as [sent|error]; cbv zeta;
      [destruct (supabase_error env _) as [e|]|];
      rewrite ?log_send_failure_run;
      try (destruct (supabase_error env _)); rewrite ?after_after;
      eauto 6.
Qed.

Lemma post_webhook_run (env : Env) (accountId serialized : string)
  (w : World) :
  let row := webhook_incoming accountId serialized (clock env (ticks w)) in
  post_webhook env accountId serialized w
  = match supabase_error env (InsertMessageLog row) with
    | Some _ =>
        (Ok (Http.error 500 "Failed to process webhook"),
         after w [] [Supabase (InsertMessageLog row)] 1)
    | None =>
        (Ok (Http.ok Http.SuccessTrue),
         after w [row] [Supabase (InsertMessageLog row)] 1)
    end.
Proof.
  intros row.
  unfold post_webhook, try_catch, bind at 1. rewrite now_run.
  unfold bind. fold row.
  destruct (supabase_error env (InsertMessageLog row)) as [e|] eqn:Hstore.
  - erewrite logMessage_rejected by (simpl; exact Hstore).
    unfold ret. now rewrite after_after.
  - rewrite logMessage_accepted by (simpl; exact Hstore).
    unfold ret. now rewrite after_after.
Qed.

(** X11. The public endpoint [POST /webhook/:accountId] writes, for any
    account id and without looking the account up, a row with direction
    [webhook_incoming] and status [success]: when the store accepts it
    the answer is 200 and the statistics of that id count one more in
    [total] and in [success], and nothing more in [incoming], [outgoing]
    or [failed]; when the store rejects it the answer is 500 and the log
    is unchanged. *)
Theorem post_webhook_counts_as_success
  (env : Env) (accountId serialized : string) (w : World) :
  let row := webhook_incoming accountId serialized (clock env (ticks w)) in
  let run := post_webhook env accountId serialized w in
  match supabase_error env (InsertMessageLog row) with
  | Some _ =>
      fst run = Ok (Http.error 500 "Failed to process webhook")
      /\ message_logs (snd run) = message_logs w
  | None =>
      fst run = Ok (Http.ok Http.SuccessTrue)
      /\ message_logs (snd run) = message_logs w ++ [row]
      /\ forall before later,
           fst (db.getMessageStats env accountId w) = Ok before ->
           fst (db.getMessageStats env accountId (snd run)) = Ok later ->
           Stats.total later = S (Stats.total before)
           /\ Stats.success later = S (Stats.success before)
           /\ Stats.incoming later = Stats.incoming before
           /\ Stats.outgoing later = Stats.outgoing before
           /\ Stats.failed later = Stats.failed before
  end.
Proof.
  intros row run. subst run. rewrite post_webhook_run. fold row.
  destruct (supabase_error env (InsertMessageLog row)) as [e|].
  - simpl. split; [reflexivity|]. apply app_nil_r.
  - simpl. split; [reflexivity|]. split; [reflexivity|].
    intros before later ->%getMessageStats_run ->%getMessageStats_run.
    rewrite rows_of_after, stats_of_app. simpl List.filter.
    rewrite String.eqb_refl. simpl. repeat split; lia.
Qed.

Lemma post_webhook_reply_run (env : Env) (a n m s : string) (w : World) :
  String.eqb a "" || String.eqb n "" || String.eqb m "" || String.eqb s ""
  = false ->
  let listed := after w [] [Supabase (SelectWebhooks a)] 0 in
  post_webhook_reply env (Some a) (Some n) (Some m) (Some s) w
  = match supabase_error env (SelectWebhooks a) with
    | Some error =>
        (Ok (Http.error 500 (message_or "Failed to send message" error)),
         listed)
    | None =>
        match List.find (authorizes s) (subscribers a w) with
        | None => (Ok (Http.error 401 "Invalid webhook secret"), listed)
        | Some _ =>
            (Ok match fst (sendMessage env a n m listed) with
                | Ok receipt => Http.ok (Http.SentReceipt receipt)
                | Throw error =>
                    Http.error 500
                      (message_or "Failed to send message" error)
                end,
             snd (sendMessage env a n m listed))
        end
    end.
Proof.
  intros Hfields listed. unfold post_webhook_reply, try_catch.
  rewrite Hfields. unfold bind at 1. rewrite getWebhooks_run. fold listed.
  destruct (supabase_error env (SelectWebhooks a)) as [e|]; [reflexivity|].
  destruct (List.find (authorizes s) (subscribers a w)); [|reflexivity].
  unfold bind, ret.
  now destruct (sendMessage env a n m listed) as [[receipt|e] w'].
Qed.

(** X12. [POST /api/webhook-reply] always answers, and it sends a
    message or writes to the log only for a request whose four fields
    are present and non-empty and whose [webhook_secret] is the secret of
    an active webhook of that account: the secret of a switched-off
    webhook, of a webhook of another account, or an empty secret
    authorises nothing. *)
Theorem post_webhook_reply_needs_active_secret
  (env : Env) (account_id number message webhook_secret : option string)
  (w : World) :
  let run := post_webhook_reply env account_id number message
               webhook_secret w in
  (exists response, fst run = Ok response)
  /\ (sends (trace (snd run)) <> sends (trace w)
      \/ message_logs (snd run) <> message_logs w ->
      exists a secret webhook,
        account_id = Some a
        /\ webhook_secret = Some secret
        /\ secret <> ""
        /\ In webhook (subscribers a w)
        /\ Webhook.is_active webhook = true
        /\ Webhook.secret webhook = Some secret).
Proof.
  cbv zeta.
  assert (Hrejected :
    (missing account_id \/ missing number \/ missing message
     \/ missing webhook_secret) ->
    exists response,
      post_webhook_reply env account_id number message webhook_secret w
      = (Ok response, w)).
  { unfold missing, post_webhook_reply, try_catch, ret. intros Hmissing.
    destruct account_id as [a|]; [|eauto].
    destruct number as [n|]; [|eauto].
    destruct message as [m|]; [|eauto].
    destruct webhook_secret as [s|]; [|eauto].
    assert (Hempty : String.eqb a "" || String.eqb n "" || String.eqb m ""
                     || String.eqb s "" = true).
    { rewrite !orb_true_iff, !String.eqb_eq.
      destruct Hmissing as [[H|H]|[[H|H]|[[H|H]|[H|H]]]];
        try discriminate; injection H as ->; auto. }
    rewrite Hempty. eauto. }
  assert (Hquiet : forall response,
    post_webhook_reply env account_id number message webhook_secret w
    = (Ok response, w) ->
    (exists response,
       fst (post_webhook_reply env account_id number message
              webhook_secret w) = Ok response)
    /\ (sends (trace (snd (post_webhook_reply env account_id number
                             message webhook_secret w)))
        <> sends (trace w)
        \/ message_logs (snd (post_webhook_reply env account_id number
                                message webhook_secret w))
           <> message_logs w ->
        exists a secret webhook,
          account_id = Some a
          /\ webhook_secret = Some secret
          /\ secret <> ""
          /\ In webhook (subscribers a w)
          /\ Webhook.is_active webhook = true
          /\ Webhook.secret webhook = Some secret)).
  { intros response ->. simpl. split; [eauto|]. intros [H|H]; congruence. }
  destruct account_id as [a|];
    [|destruct Hrejected as [r Hr]; [unfold missing; auto | eauto]].
  destruct number as [n|];
    [|destruct Hrejected as [r Hr]; [unfold missing; auto | eauto]].
  destruct message as [m|];
    [|destruct Hrejected as [r Hr]; [unfold missing; auto | eauto]].
  destruct webhook_secret as [s|];
    [|destruct Hrejected as [r Hr]; [unfold missing; auto | eauto]].
  destruct (String.eqb a "" || String.eqb n "" || String.eqb m ""
            || String.eqb s "") eqn:Hempty.
  { destruct Hrejected as [r Hr]; [|eauto].
    unfold missing. rewrite !orb_true_iff, !String.eqb_eq in Hempty.
    destruct Hempty as [[[->| ->]| ->]| ->]; auto 10. }
  clear Hrejected Hquiet.
  rewrite (post_webhook_reply_run env a n m s w Hempty). cbv zeta.
  destruct (supabase_error env (SelectWebhooks a)) as [e|].
  - simpl. split; [eauto|]. rewrite sends_app, !app_nil_r.
    intros [H|H]; congruence.
  - destruct (List.find (authorizes s) (subscribers a w))
      as [valid|] eqn:Hfind.
    + apply find_some in Hfind as [Hin Hvalid].
      unfold authorizes in Hvalid.
      apply andb_prop in Hvalid as [Hs Hactive].
      destruct (Webhook.secret valid) as [s'|] eqn:Hsecret;
        [|discriminate].
      apply String.eqb_eq in Hs. subst s'.
      split; [simpl; eauto|].
      intros _. exists a, s, valid. repeat split; try assumption.
      intros ->. rewrite !orb_false_iff in Hempty.
      destruct Hempty as [_ Hs]. discriminate.
    + simpl. split; [eauto|]. rewrite sends_app, !app_nil_r.
      intros [H|H]; congruence.
Qed.

(** X13. A request to [POST /api/webhook-reply] or to [POST /api/send]
    with a missing or empty field is answered 400 before anything is
    looked up, sent or logged: the world is left as it was. *)
Theorem routes_reject_missing_fields
  (env : Env) (account_id number message webhook_secret : option string)
  (w : World) :
  (missing account_id \/ missing number \/ missing message
   \/ missing webhook_secret ->
   post_webhook_reply env account_id number message webhook_secret w
   = (Ok (Http.error 400
            "Account ID, number, message, and webhook_secret are required"),
      w))
  /\ (missing account_id \/ missing number \/ missing message ->
      post_send env account_id number message w
      = (Ok (Http.error 400 "Account ID, number, and message are required"),
         w)).
Proof.
  unfold missing, post_webhook_reply, post_send, try_catch, ret.
  split.
  - intros Hmissing.
    destruct account_id as [a|]; [|reflexivity].
    destruct number as [n|]; [|reflexivity].
    destruct message as [m|]; [|reflexivity].
    destruct webhook_secret as [s|]; [|reflexivity].
    assert (Hempty : String.eqb a "" || String.eqb n "" || String.eqb m ""
                     || String.eqb s "" = true).
    { rewrite !orb_true_iff, !String.eqb_eq.
      destruct Hmissing as [[H|H]|[[H|H]|[[H|H]|[H|H]]]];
        try discriminate; injection H as ->; auto. }
    now rewrite Hempty.
  - intros Hmissing.
    destruct account_id as [a|]; [|reflexivity].
    destruct number as [n|]; [|reflexivity].
    destruct message as [m|]; [|reflexivity].
    assert (Hempty : String.eqb a "" || String.eqb n "" || String.eqb m ""
                     = true).
    { rewrite !orb_true_iff, !String.eqb_eq.
      destruct Hmissing as [[H|H]|[[H|H]|[H|H]]];
        try discriminate; injection H as ->; auto. }
    now rewrite Hempty.
Qed.

Lemma routes_reject_missing_fields_witness :
  missing (Some "")
  /\ post_send Scenario.env (Some "acc") (Some "") (Some "hello")
       ReplyScenario.world
     = (Ok (Http.error 400 "Account ID, number, and message are required"),
        ReplyScenario.world).
Proof.
  split; [right; reflexivity|].
  apply (routes_reject_missing_fields Scenario.env (Some "acc") (Some "")
           (Some "hello") None ReplyScenario.world).
  right. left. right. reflexivity.
Defined.

(** The secret of the active webhook [w1] authorises a reply; the empty
    secret of [w2] and a wrong secret do not. *)
Example reply_scenario :
  Http.status
    (match fst (post_webhook_reply Scenario.env (Some "acc")
                  (Some "98765 43210") (Some "hello") (Some "s3cret")
                  ReplyScenario.world) with
     | Ok response => response
     | Throw _ => Http.error 0 ""
     end) = 200
  /\ fst (post_webhook_reply Scenario.env (Some "acc") (Some "98765 43210")
            (Some "hello") (Some "guess") ReplyScenario.world)
     = Ok (Http.error 401 "Invalid webhook secret").
Proof. split; vm_compute; reflexivity. Qed.

(** ** The lifecycle events *)

Lemma updateAccount_run (env : Env) (id : string)
  (updates : Account.updates) (w : World) :
  db.updateAccount env id updates w
  = match supabase_error env (UpdateAccount id updates) with
    | Some error =>
        (Throw error,
         transition w (qrCodes w) (accountStatus w) (whatsapp_accounts w)
           [Supabase (UpdateAccount id updates)] 0)
    | None =>
        (Ok (List.head
               (List.map (Account.apply updates)
                  (List.filter
                     (fun row => String.eqb (Account.id row) id)
                     (whatsapp_accounts w)))),
         transition w (qrCodes w) (accountStatus w)
           (updated_accounts id updates (whatsapp_accounts w))
           [Supabase (UpdateAccount id updates)] 0)
    end.
Proof.
  unfold db.updateAccount, db.query. run_step.
  destruct (supabase_error env _); reflexivity.
Qed.

Lemma on_qr_run (env : Env) (out : Outside) (accountId qr : string)
  (w : World) :
  on_qr env out accountId qr w
  = (Ok tt,
     match qrcode_toDataURL out qr with
     | Throw _ => w
     | Ok qrDataUrl =>
         let update := mark_qr_ready qrDataUrl (clock env (ticks w)) in
         match supabase_error env (UpdateAccount accountId update) with
         | Some _ =>
             transition w (<[accountId := qrDataUrl]> (qrCodes w))
               (accountStatus w) (whatsapp_accounts w)
               [Supabase (UpdateAccount accountId update)] 1
         | None =>
             transition w (<[accountId := qrDataUrl]> (qrCodes w))
               (<[accountId := "qr_ready"]> (accountStatus w))
               (updated_accounts accountId update (whatsapp_accounts w))
               [Supabase (UpdateAccount accountId update)] 1
         end
     end).
Proof.
  unfold on_qr, try_catch, bind at 1, lift.
  destruct (qrcode_toDataURL out qr) as [qrDataUrl|e]; [|reflexivity].
  unfold bind at 1, get at 1. unfold bind at 1, set_qrCodes at 1.
  unfold bind at 1, now at 1. simpl ticks. unfold bind at 1.
  rewrite updateAccount_run. cbv zeta.
  destruct (supabase_error env _); reflexivity.
Qed.

Lemma on_ready_run (env : Env) (out : Outside) (accountId : string)
  (w : World) :
  on_ready env out accountId w
  = (Ok tt,
     match client_info_user out accountId with
     | Throw _ => w
     | Ok user =>
         let update := mark_ready user (clock env (ticks w)) in
         match supabase_error env (UpdateAccount accountId update) with
         | Some _ =>
             transition w (qrCodes w) (accountStatus w)
               (whatsapp_accounts w)
               [Supabase (UpdateAccount accountId update)] 1
         | None =>
             transition w (delete accountId (qrCodes w))
               (<[accountId := "ready"]> (accountStatus w))
               (updated_accounts accountId update (whatsapp_accounts w))
               [Supabase (UpdateAccount accountId update)] 1
         end
     end).
Proof.
  unfold on_ready, try_catch, bind at 1, lift.
  destruct (client_info_user out accountId) as [user|e]; [|reflexivity].
  unfold bind at 1, now at 1. unfold bind at 1.
  rewrite updateAccount_run. cbv zeta. simpl ticks.
  destruct (supabase_error env _); reflexivity.
Qed.

Lemma on_failure_run (env : Env) (accountId status reason : string)
  (w : World) :
  let update := mark_failed status reason (clock env (ticks w)) in
  try_catch
    (updated <- now env ;;
     db.updateAccount env accountId (mark_failed status reason updated) ;;;
     statuses <- get accountStatus ;;
     set_accountStatus (<[accountId := status]> statuses))
    (fun error => ret tt) w
  = (Ok tt,
     match supabase_error env (UpdateAccount accountId update) with
     | Some _ =>
         transition w (qrCodes w) (accountStatus w) (whatsapp_accounts w)
           [Supabase (UpdateAccount accountId update)] 1
     | None =>
         transition w (qrCodes w) (<[accountId := status]> (accountStatus w))
           (updated_accounts accountId update (whatsapp_accounts w))
           [Supabase (UpdateAccount accountId update)] 1
     end).
Proof.
  cbv zeta. unfold try_catch, bind at 1, now at 1. unfold bind at 1.
  rewrite updateAccount_run. simpl ticks.
  destruct (supabase_error env _); reflexivity.
Qed.

Lemma updated_accounts_frame (id : string) (updates : Account.updates)
  (rows : list Account.t) :
  Forall2
    (fun before after =>
       Account.id after = Account.id before
       /\ (Account.id before <> id -> after = before))
    rows (updated_accounts id updates rows).
Proof.
  induction rows as [|row rows IH]; simpl; constructor; [|exact IH].
  destruct (String.eqb (Account.id row) id) eqn:Hid.
  - apply String.eqb_eq in Hid. split; [reflexivity|]. congruence.
  - auto.
Qed.

Lemma accounts_frame_refl (id : string) (rows : list Account.t) :
  Forall2
    (fun before after =>
       Account.id after = Account.id before
       /\ (Account.id before <> id -> after = before))
    rows rows.
Proof. induction rows; constructor; auto. Qed.

Lemma updated_accounts_status (id : string) (updates : Account.updates)
  (status : string) (rows : list Account.t) :
  Account.set_status updates = Some status ->
  Forall (fun row => Account.id row = id -> Account.status row = status)
    (updated_accounts id updates rows).
Proof.
  intros Hstatus. induction rows as [|row rows IH]; simpl; constructor;
    [|exact IH].
  destruct (String.eqb (Account.id row) id) eqn:Hid.
  - intros _. simpl. now rewrite Hstatus.
  - apply String.eqb_neq in Hid. intros H. contradiction.
Qed.

(** X14. No handler registered by [setupEventHandlers] ever throws, and
    a handler touches nothing but its own account: the registry of
    clients and the webhooks are left as they were, the log only grows,
    and the in-memory status, the cached QR code and the persisted row
    of every other account are unchanged. *)
Theorem setupEventHandlers_confined
  (env : Env) (out : Outside) (client : Client.t) (accountId : string)
  (event : Event) (w : World) :
  let run := setupEventHandlers env out client accountId event w in
  fst run = Ok tt
  /\ clients (snd run) = clients w
  /\ webhooks (snd run) = webhooks w
  /\ (exists rows, message_logs (snd run) = message_logs w ++ rows)
  /\ (forall other, other <> accountId ->
        accountStatus (snd run) !! other = accountStatus w !! other
        /\ qrCodes (snd run) !! other = qrCodes w !! other)
  /\ Forall2
       (fun before after =>
          Account.id after = Account.id before
          /\ (Account.id before <> accountId -> after = before))
       (whatsapp_accounts w) (whatsapp_accounts (snd run)).
Proof.
  assert (Hunchanged :
    fst (Ok tt, w) = Ok tt
    /\ clients (snd (@Ok unit tt, w)) = clients w
    /\ webhooks (snd (@Ok unit tt, w)) = webhooks w
    /\ (exists rows,
          message_logs (snd (@Ok unit tt, w)) = message_logs w ++ rows)
    /\ (forall other, other <> accountId ->
          accountStatus (snd (@Ok unit tt, w)) !! other
          = accountStatus w !! other
          /\ qrCodes (snd (@Ok unit tt, w)) !! other = qrCodes w !! other)
    /\ Forall2
         (fun before after =>
            Account.id after = Account.id before
            /\ (Account.id before <> accountId -> after = before))
         (whatsapp_accounts w) (whatsapp_accounts (snd (@Ok unit tt, w)))).
  { simpl. repeat split; auto using accounts_frame_refl.
    exists []. now rewrite app_nil_r. }
  assert (Hlog : exists rows, message_logs w = message_logs w ++ rows)
    by (exists []; now rewrite app_nil_r).
  cbv zeta. destruct event as [qr| | |msg|reason|message]; simpl.
  - rewrite on_qr_run.
    destruct (qrcode_toDataURL out qr) as [url|e]; [|exact Hunchanged].
    cbv zeta. destruct (supabase_error env _); simpl;
      repeat split; try exact Hlog; intros;
      rewrite ?lookup_insert_ne by congruence;
      auto using accounts_frame_refl, updated_accounts_frame.
  - rewrite on_ready_run.
    destruct (client_info_user out accountId) as [user|e];
      [|exact Hunchanged].
    cbv zeta. destruct (supabase_error env _); simpl;
      repeat split; try exact Hlog; intros;
      rewrite ?lookup_insert_ne, ?lookup_delete_ne by congruence;
      auto using accounts_frame_refl, updated_accounts_frame.
  - exact Hunchanged.
  - unfold on_auth_failure. rewrite on_failure_run.
    destruct (supabase_error env _); simpl;
      repeat split; try exact Hlog; intros;
      rewrite ?lookup_insert_ne by congruence;
      auto using accounts_frame_refl, updated_accounts_frame.
  - unfold on_disconnected. rewrite on_failure_run.
    destruct (supabase_error env _); simpl;
      repeat split; try exact Hlog; intros;
      rewrite ?lookup_insert_ne by congruence;
      auto using accounts_frame_refl, updated_accounts_frame.
  - unfold on_message, try_catch.
    destruct (appends_handleIncomingMessage env client accountId message w)
      as ([[]|e] & rows & effects & reads & ->); unfold ret; simpl;
      repeat split; eauto using accounts_frame_refl.
Qed.

(** X15. The in-memory status of an account follows the store: when a
    handler changes it, the store has accepted an update of that account
    to the same status, and every persisted row of the account has that
    status.  A rejected update leaves the in-memory status alone. *)
Theorem status_changes_only_after_persisted
  (env : Env) (out : Outside) (client : Client.t) (accountId : string)
  (event : Event) (w : World) :
  let w' := snd (setupEventHandlers env out client accountId event w) in
  accountStatus w' !! accountId <> accountStatus w !! accountId ->
  exists updates status,
    supabase_error env (UpdateAccount accountId updates) = None
    /\ Account.set_status updates = Some status
    /\ accountStatus w' !! accountId = Some status
    /\ whatsapp_accounts w'
       = updated_accounts accountId updates (whatsapp_accounts w)
    /\ Forall
         (fun row =>
            Account.id row = accountId -> Account.status row = status)
         (whatsapp_accounts w').
Proof.
  cbv zeta. destruct event as [qr| | |msg|reason|message]; simpl.
  - rewrite on_qr_run.
    destruct (qrcode_toDataURL out qr) as [url|e]; [|simpl; congruence].
    cbv zeta.
    destruct (supabase_error env _) eqn:Hstore; simpl; [congruence|].
    intros _. do 2 eexists. split; [exact Hstore|].
    split; [reflexivity|]. split; [apply lookup_insert_eq|].
    split; [reflexivity|]. now apply updated_accounts_status.
  - rewrite on_ready_run.
    destruct (client_info_user out accountId) as [user|e];
      [|simpl; congruence].
    cbv zeta.
    destruct (supabase_error env _) eqn:Hstore; simpl; [congruence|].
    intros _. do 2 eexists. split; [exact Hstore|].
    split; [reflexivity|]. split; [apply lookup_insert_eq|].
    split; [reflexivity|]. now apply updated_accounts_status.
  - congruence.
  - unfold on_auth_failure. rewrite on_failure_run.
    destruct (supabase_error env _) eqn:Hstore; simpl; [congruence|].
    intros _. do 2 eexists. split; [exact Hstore|].
    split; [reflexivity|]. split; [apply lookup_insert_eq|].
    split; [reflexivity|]. now apply updated_accounts_status.
  - unfold on_disconnected. rewrite on_failure_run.
    destruct (supabase_error env _) eqn:Hstore; simpl; [congruence|].
    intros _. do 2 eexists. split; [exact Hstore|].
    split; [reflexivity|]. split; [apply lookup_insert_eq|].
    split; [reflexivity|]. now apply updated_accounts_status.
  - unfold on_message, try_catch.
    destruct (appends_handleIncomingMessage env client accountId message w)
      as ([[]|e] & rows & effects & reads & ->); unfold ret; simpl;
      congruence.
Qed.

Lemma status_changes_only_after_persisted_witness :
  let w' := snd (setupEventHandlers Scenario.env EventScenario.out
                   SendExample.client "acc" Ready EventScenario.world) in
  accountStatus w' !! "acc" <> accountStatus EventScenario.world !! "acc"
  /\ List.map Account.status (whatsapp_accounts w') = ["ready"].
Proof.
  cbv zeta. split; [vm_compute; discriminate|].
  destruct (status_changes_only_after_persisted Scenario.env
              EventScenario.out SendExample.client "acc" Ready
              EventScenario.world)
    as (updates & status & _ & _ & _ & _ & _);
    [vm_compute; discriminate|].
  reflexivity.
Defined.

(** X16. The events [auth_failure] and [disconnected], once the store
    has accepted their update, leave the account with the status of the
    event in memory and in every persisted row, and with the reason of
    the event persisted as [error_message]; the client stays in the
    registry and a cached QR code stays cached. *)
Theorem failure_events_persist_reason
  (env : Env) (out : Outside) (client : Client.t) (accountId : string)
  (event : Event) (w : World) (status reason : string) :
  failure_of event = Some (status, reason) ->
  supabase_error env
    (UpdateAccount accountId
       (mark_failed status reason (clock env (ticks w))))
  = None ->
  let w' := snd (setupEventHandlers env out client accountId event w) in
  accountStatus w' !! accountId = Some status
  /\ Forall
       (fun row =>
          Account.id row = accountId ->
          Account.status row = status
          /\ Account.error_message row = Some reason)
       (whatsapp_accounts w')
  /\ clients w' = clients w
  /\ qrCodes w' = qrCodes w.
Proof.
  intros Hevent Hstore w'. subst w'.
  assert (Hrows : Forall
            (fun row =>
               Account.id row = accountId ->
               Account.status row = status
               /\ Account.error_message row = Some reason)
            (updated_accounts accountId
               (mark_failed status reason (clock env (ticks w)))
               (whatsapp_accounts w))).
  { induction (whatsapp_accounts w) as [|row rows IH]; simpl;
      constructor; [|exact IH].
    destruct (String.eqb (Account.id row) accountId) eqn:Hid.
    - intros _. split; reflexivity.
    - apply String.eqb_neq in Hid. intros H. contradiction. }
  destruct event as [qr| | |msg|reason'|message]; try discriminate;
    injection Hevent as <- <-; simpl.
  - unfold on_auth_failure. rewrite on_failure_run, Hstore. simpl.
    split; [apply lookup_insert_eq|]. repeat split. exact Hrows.
  - unfold on_disconnected. rewrite on_failure_run, Hstore. simpl.
    split; [apply lookup_insert_eq|]. repeat split. exact Hrows.
Qed.

Lemma failure_events_persist_reason_witness :
  let w' := snd (setupEventHandlers Scenario.env EventScenario.out
                   SendExample.client "acc" (Disconnected "NAVIGATION")
                   EventScenario.world) in
  failure_of (Disconnected "NAVIGATION")
  = Some ("disconnected", "NAVIGATION")
  /\ accountStatus w' !! "acc" = Some "disconnected".
Proof.
  cbv zeta. split; [reflexivity|].
  apply (failure_events_persist_reason Scenario.env EventScenario.out
           SendExample.client "acc" (Disconnected "NAVIGATION")
           EventScenario.world "disconnected" "NAVIGATION");
    reflexivity.
Defined.

(** X17. The handler of [qr] caches the rendered code before it
    persists it: when the store rejects the update, the new code is in
    the cache although the in-memory status and the persisted rows are
    unchanged. *)
Theorem on_qr_cached_before_persisted
  (env : Env) (out : Outside) (accountId qr : string) (w : World)
  (qrDataUrl error : string) :
  qrcode_toDataURL out qr = Ok qrDataUrl ->
  supabase_error env
    (UpdateAccount accountId
       (mark_qr_ready qrDataUrl (clock env (ticks w))))
  = Some error ->
  let w' := snd (on_qr env out accountId qr w) in
  qrCodes w' !! accountId = Some qrDataUrl
  /\ accountStatus w' = accountStatus w
  /\ whatsapp_accounts w' = whatsapp_accounts w.
Proof.
  intros Hrender Hstore w'. subst w'.
  rewrite on_qr_run, Hrender. cbv zeta. rewrite Hstore. simpl.
  split; [apply lookup_insert_eq|]. split; reflexivity.
Qed.

Lemma on_qr_cached_before_persisted_witness :
  let w' := snd (on_qr EventScenario.env_no_updates EventScenario.out
                   "acc" "ABC" EventScenario.world) in
  qrCodes w' !! "acc" = Some "data:image/png;base64,ABC"
  /\ accountStatus w' !! "acc" = Some "initializing".
Proof.
  cbv zeta.
  destruct (on_qr_cached_before_persisted EventScenario.env_no_updates
              EventScenario.out "acc" "ABC" EventScenario.world
              "data:image/png;base64,ABC" "connection reset"
              eq_refl eq_refl)
    as (Hcode & -> & _).
  split; [exact Hcode | reflexivity].
Defined.

Lemma updated_accounts_twice (id : string) (first second : Account.updates)
  (rows : list Account.t) :
  updated_accounts id second (updated_accounts id first rows)
  = List.map
      (fun row => if String.eqb (Account.id row) id
                  then Account.apply second (Account.apply first row)
                  else row)
      rows.
Proof.
  unfold updated_accounts. rewrite List.map_map.
  apply List.map_ext. intros row.
  destruct (String.eqb (Account.id row) id) eqn:Hid; simpl;
    now rewrite Hid.
Qed.

(** X18. A QR code followed by [ready], with the store answering: after
    the first event the account is [qr_ready] and its code is cached;
    after the second it is [ready], the cache holds no code for it and
    the QR route answers 404, and every persisted row of the account has
    the status [ready] and the phone number of the client, and still
    holds the code, which [ready] does not clear in the store. *)
Theorem qr_then_ready
  (env : Env) (out : Outside) (client : Client.t) (accountId qr : string)
  (w : World) (qrDataUrl user : string) :
  store_available env ->
  qrcode_toDataURL out qr = Ok qrDataUrl ->
  client_info_user out accountId = Ok user ->
  let w1 := snd (setupEventHandlers env out client accountId (Qr qr) w) in
  let w2 := snd (setupEventHandlers env out client accountId Ready w1) in
  accountStatus w1 !! accountId = Some "qr_ready"
  /\ qrCodes w1 !! accountId = Some qrDataUrl
  /\ accountStatus w2 !! accountId = Some "ready"
  /\ qrCodes w2 !! accountId = None
  /\ fst (get_qr accountId w2) = Ok (Http.error 404 "QR code not available")
  /\ Forall
       (fun row =>
          Account.id row = accountId ->
          Account.status row = "ready"
          /\ Account.phone_number row = Some user
          /\ Account.qr_code row = Some qrDataUrl)
       (whatsapp_accounts w2).
Proof.
  intros Havailable Hrender Huser w1 w2. subst w2 w1. simpl.
  rewrite on_qr_run, Hrender. cbv zeta. rewrite Havailable. simpl snd.
  rewrite on_ready_run, Huser. cbv zeta. rewrite Havailable. simpl.
  split; [apply lookup_insert_eq|]. split; [apply lookup_insert_eq|].
  split; [apply lookup_insert_eq|]. split; [apply lookup_delete_eq|].
  split.
  - unfold get_qr, getQRCode, try_catch, bind, get. simpl.
    now rewrite lookup_delete_eq.
  - rewrite updated_accounts_twice.
    induction (whatsapp_accounts w) as [|row rows IH]; simpl;
      constructor; [|exact IH].
    destruct (String.eqb (Account.id row) accountId) eqn:Hid.
    + intros _. repeat split.
    + apply String.eqb_neq in Hid. intros H. contradiction.
Qed.

Lemma qr_then_ready_witness :
  let w1 := snd (setupEventHandlers Scenario.env EventScenario.out
                   SendExample.client "acc" (Qr "ABC")
                   EventScenario.world) in
  let w2 := snd (setupEventHandlers Scenario.env EventScenario.out
                   SendExample.client "acc" Ready w1) in
  store_available Scenario.env
  /\ accountStatus w1 !! "acc" = Some "qr_ready"
  /\ accountStatus w2 !! "acc" = Some "ready".
Proof.
  cbv zeta. split; [intros q; reflexivity|].
  destruct (qr_then_ready Scenario.env EventScenario.out SendExample.client
              "acc" "ABC" EventScenario.world "data:image/png;base64,ABC"
              "1555000111" (fun q => eq_refl) eq_refl eq_refl)
    as (H1 & _ & H2 & _).
  split; assumption.
Defined.

(** X19. Events and sends.  With the store answering and a client in the
    registry: after [ready] a send passes the status check and is
    stopped only by a closed or missing page; after [auth_failure] or
    [disconnected] the client is still registered, so a send is refused
    with the not-ready error that names the new status, not with the
    not-found error. *)
Theorem sendMessage_after_event
  (env : Env) (out : Outside) (client : Client.t) (accountId : string)
  (event : Event) (w : World) :
  store_available env ->
  clients w !! accountId = Some client ->
  let w' := snd (setupEventHandlers env out client accountId event w) in
  (event = Ready ->
   forall user, client_info_user out accountId = Ok user ->
   send_refusal w' accountId
   = if page_unavailable client then Some page_not_available else None)
  /\ (forall status reason,
        failure_of event = Some (status, reason) ->
        send_refusal w' accountId
        = Some ("WhatsApp client is not ready. Current status: "
                +:+ status)).
Proof.
  intros Havailable Hclient w'. subst w'. split.
  - intros -> user Huser. simpl.
    rewrite on_ready_run, Huser. cbv zeta. rewrite Havailable.
    unfold send_refusal. simpl. rewrite Hclient, lookup_insert_eq.
    reflexivity.
  - intros status reason Hevent.
    destruct event as [qr| | |msg|reason'|message]; try discriminate;
      injection Hevent as <- <-; simpl.
    + unfold on_auth_failure. rewrite on_failure_run, Havailable.
      unfold send_refusal. simpl. rewrite Hclient, lookup_insert_eq.
      reflexivity.
    + unfold on_disconnected. rewrite on_failure_run, Havailable.
      unfold send_refusal. simpl. rewrite Hclient, lookup_insert_eq.
      reflexivity.
Qed.

Lemma sendMessage_after_event_witness :
  store_available Scenario.env
  /\ clients EventScenario.world !! "acc" = Some (launched_client "acc")
  /\ send_refusal
       (snd (setupEventHandlers Scenario.env EventScenario.out
               (launched_client "acc") "acc" (Disconnected "NAVIGATION")
               EventScenario.world)) "acc"
     = Some "WhatsApp client is not ready. Current status: disconnected".
Proof.
  split; [intros q; reflexivity|]. split; [reflexivity|].
  destruct (sendMessage_after_event Scenario.env EventScenario.out
              (launched_client "acc") "acc" (Disconnected "NAVIGATION")
              EventScenario.world (fun q => eq_refl) eq_refl)
    as [_ Hfailure].
  exact (Hfailure "disconnected" "NAVIGATION" eq_refl).
Defined.

(** ** Start-up, when something fails and when nothing does *)

(** X20. A store failure during one failed re-attachment stops the
    start-up: when the first listed account is selected, its
    [initialize] rejects and the store rejects the update that would mark
    it [disconnected], no account listed after it is attempted, the
    account stays [initializing] in memory and its persisted row keeps the
    status it had; [initializeExistingAccounts] still returns normally. *)
Theorem startup_stopped_by_rejected_update
  (env : Env) (w : World) (account : Account.t) (later : list Account.t)
  (reason error : string) :
  whatsapp_accounts w = account :: later ->
  supabase_error env SelectAccounts = None ->
  to_reconnect account = true ->
  client_initialize env (Account.id account) = Some reason ->
  supabase_error env
    (UpdateAccount (Account.id account)
       (mark_disconnected (clock env (ticks w))))
  = Some error ->
  let run := initializeExistingAccounts env w in
  fst run = Ok tt
  /\ attempts (trace (snd run))
     = attempts (trace w) ++ [Account.id account]
  /\ accountStatus (snd run) !! Account.id account = Some "initializing"
  /\ whatsapp_accounts (snd run) = whatsapp_accounts w.
Proof.
  intros Haccounts Hselect Hselected Hinit Hupdate run. subst run.
  assert (Hrun :
    initializeExistingAccounts env w
    = (Ok tt,
       reconnected (after w [] [Supabase SelectAccounts] 0)
         (Account.id account) (fresh_client (Account.id account))
         "initializing" (whatsapp_accounts w)
         [ClientInitialize (Account.id account);
          Supabase (UpdateAccount (Account.id account)
            (mark_disconnected (clock env (ticks w))))] 1)).
  { rewrite initializeExistingAccounts_run, Hselect. cbv zeta.
    rewrite Haccounts. simpl for_of. unfold bind, reconnect_each.
    rewrite Hselected, reconnectAccount_run, Hinit. simpl ticks.
    rewrite Hupdate. simpl. now rewrite Haccounts. }
  rewrite Hrun. simpl.
  split; [reflexivity|]. split.
  - rewrite !attempts_app. simpl. now rewrite app_nil_r.
  - split; [apply lookup_insert_eq | reflexivity].
Qed.

Lemma startup_stopped_by_rejected_update_witness :
  to_reconnect (StartupExample.account "a-qr" "qr_ready") = true
  /\ attempts
       (trace (snd (initializeExistingAccounts RestartScenario.env
                      RestartScenario.world)))
     = ["a-qr"].
Proof.
  split; [reflexivity|].
  exact (proj1 (proj2 (startup_stopped_by_rejected_update
            RestartScenario.env RestartScenario.world
            (StartupExample.account "a-qr" "qr_ready")
            [StartupExample.account "a-ready" "ready"]
            "Failed to launch the browser" "connection reset"
            eq_refl eq_refl eq_refl eq_refl eq_refl))).
Defined.

Lemma reconnect_loop_quiet (env : Env) (accounts : list Account.t)
  (w : World) :
  (forall account, In account accounts -> to_reconnect account = true ->
     client_initialize env (Account.id account) = None) ->
  exists w',
    for_of accounts (reconnect_each env) w = (Ok tt, w')
    /\ whatsapp_accounts w' = whatsapp_accounts w
    /\ message_logs w' = message_logs w
    /\ webhooks w' = webhooks w
    /\ qrCodes w' = qrCodes w
    /\ (forall id, accountStatus w !! id = Some "initializing" ->
          accountStatus w' !! id = Some "initializing")
    /\ forall account, In account accounts -> to_reconnect account = true ->
         accountStatus w' !! Account.id account = Some "initializing".
Proof.
  revert w. induction accounts as [|account others IH]; intros w Hquiet.
  - exists w. simpl. unfold ret. repeat split; auto. intros ? [].
  - simpl for_of. unfold bind at 1, reconnect_each at 1.
    assert (Hothers : forall a, In a others -> to_reconnect a = true ->
              client_initialize env (Account.id a) = None)
      by (intros a Ha; apply Hquiet; now right).
    destruct (to_reconnect account) eqn:Hselected.
    + rewrite reconnectAccount_run, (Hquiet account) by (auto; now left).
      destruct (IH (reconnected w (Account.id account)
                      (launched_client (Account.id account)) "initializing"
                      (whatsapp_accounts w)
                      [ClientInitialize (Account.id account)] 0) Hothers)
        as (w' & -> & Haccounts & Hlog & Hhooks & Hcodes & Hkeep & Hall).
      exists w'. split; [reflexivity|]. simpl in *.
      repeat split; try assumption.
      * intros id Hid. apply Hkeep.
        destruct (decide (Account.id account = id)) as [->|Hne];
          [apply lookup_insert_eq | now rewrite lookup_insert_ne].
      * intros a [<-|Ha] Hsel; [|now apply Hall].
        apply Hkeep, lookup_insert_eq.
    + unfold ret at 1.
      destruct (IH w Hothers)
        as (w' & -> & Haccounts & Hlog & Hhooks & Hcodes & Hkeep & Hall).
      exists w'. split; [reflexivity|].
      repeat split; try assumption.
      intros a [<-|Ha] Hsel; [congruence | now apply Hall].
Qed.

(** X21. A start-up in which every [initialize] succeeds writes nothing
    to the store: the tables of accounts, webhooks and logs are as they
    were, so every reconnected account is [initializing] in memory while
    its persisted status is still [ready] or [qr_ready], until an event
    of the transport arrives. *)
Theorem startup_without_failure_writes_nothing
  (env : Env) (w : World) :
  supabase_error env SelectAccounts = None ->
  (forall account,
     In account (whatsapp_accounts w) -> to_reconnect account = true ->
     client_initialize env (Account.id account) = None) ->
  let w' := snd (initializeExistingAccounts env w) in
  whatsapp_accounts w' = whatsapp_accounts w
  /\ message_logs w' = message_logs w
  /\ webhooks w' = webhooks w
  /\ forall account,
       In account (whatsapp_accounts w') ->
       Account.status account = "ready"
       \/ Account.status account = "qr_ready" ->
       accountStatus w' !! Account.id account = Some "initializing".
Proof.
  intros Hselect Hquiet w'. subst w'.
  rewrite initializeExistingAccounts_run, Hselect. cbv zeta.
  destruct (reconnect_loop_quiet env (whatsapp_accounts w)
              (after w [] [Supabase SelectAccounts] 0) Hquiet)
    as (w' & Hrun & Haccounts & Hlog & Hhooks & _ & _ & Hall).
  rewrite Hrun. simpl snd. simpl in *.
  rewrite Haccounts, Hlog, Hhooks, app_nil_r.
  repeat split. intros account Hin Hstatus. apply Hall; [assumption|].
  unfold to_reconnect. rewrite orb_true_iff, !String.eqb_eq. exact Hstatus.
Qed.

Lemma startup_without_failure_writes_nothing_witness :
  let w' := snd (initializeExistingAccounts Scenario.env
                   RestartScenario.world_ready) in
  supabase_error Scenario.env SelectAccounts = None
  /\ List.map Account.status (whatsapp_accounts w') = ["ready"]
  /\ accountStatus w' !! "a-ready" = Some "initializing".
Proof.
  cbv zeta. split; [reflexivity|].
  destruct (startup_without_failure_writes_nothing Scenario.env
              RestartScenario.world_ready eq_refl (fun _ _ _ => eq_refl))
    as (Haccounts & _ & _ & Hall).
  split; [now rewrite Haccounts|].
  apply (Hall (StartupExample.account "a-ready" "ready"));
    [rewrite Haccounts; now left | now left].
Defined.

(** ** Creating and deleting an account *)

Lemma createAccount_run (env : Env) (out : Outside)
  (accountId accountName : string) (description : option string)
  (w : World) :
  let row :=
    new_account accountId accountName description (clock env (ticks w)) in
  createAccount env out accountId accountName description w
  = match insert_account_error out row with
    | Some error => (Throw error, after w [] [] 1)
    | None =>
        match client_initialize env accountId with
        | Some error =>
            (Throw error,
             reconnected w accountId (fresh_client accountId) "initializing"
               (row :: whatsapp_accounts w) [ClientInitialize accountId] 1)
        | None =>
            (Ok row,
             reconnected w accountId (launched_client accountId)
               "initializing" (row :: whatsapp_accounts w)
               [ClientInitialize accountId] 1)
        end
    end.
Proof.
  cbv zeta.
  unfold createAccount, db_accounts.createAccount, transport_initialize.
  fold (new_account accountId accountName description (clock env (ticks w))).
  run_step.
  fold (new_account accountId accountName description (clock env (ticks w))).
  destruct (insert_account_error out _) as [e|]; simpl.
  - unfold after. simpl. now rewrite !app_nil_r.
  - destruct (client_initialize env accountId) as [e|]; simpl;
      unfold reconnected, fresh_client, launched_client; simpl;
      rewrite ?alter_insert_eq; reflexivity.
Qed.

Lemma deleteAccount_run (out : Outside) (accountId : string) (w : World) :
  deleteAccount out accountId w
  = match clients w !! accountId, client_destroy out accountId with
    | Some _, Some error => (Throw error, w)
    | _, _ =>
        match delete_account_error out accountId with
        | Some error =>
            (Throw error, forgotten w accountId (whatsapp_accounts w))
        | None =>
            (Ok true,
             forgotten w accountId (without accountId (whatsapp_accounts w)))
        end
    end.
Proof.
  unfold deleteAccount, db_accounts.deleteAccount, set_qrCodes.
  run_step.
  destruct (clients w !! accountId) as [client|] eqn:Hclient; simpl.
  - destruct (client_destroy out accountId) as [e|]; simpl.
    + now destruct w.
    + destruct (delete_account_error out accountId) as [e|]; reflexivity.
  - assert (Hsame : delete accountId (clients w) = clients w)
      by now apply delete_id.
    destruct (client_destroy out accountId) as [e|];
      destruct (delete_account_error out accountId) as [e'|];
      unfold forgotten, without; simpl; rewrite Hsame; now destruct w.
Qed.

Lemma deleteAccount_destroyed (out : Outside) (accountId : string)
  (w : World) :
  clients w !! accountId = None \/ client_destroy out accountId = None ->
  deleteAccount out accountId w
  = match delete_account_error out accountId with
    | Some error =>
        (Throw error, forgotten w accountId (whatsapp_accounts w))
    | None =>
        (Ok true,
         forgotten w accountId (without accountId (whatsapp_accounts w)))
    end.
Proof.
  intros Hpast. rewrite deleteAccount_run.
  destruct Hpast as [-> | ->]; [reflexivity|].
  now destruct (clients w !! accountId).
Qed.

Lemma without_spec (id : string) (rows : list Account.t) (row : Account.t) :
  In row (without id rows) <-> In row rows /\ Account.id row <> id.
Proof.
  unfold without. rewrite List.filter_In, negb_true_iff, String.eqb_neq.
  reflexivity.
Qed.

Lemma without_fresh (id : string) (rows : list Account.t) :
  (forall row, In row rows -> Account.id row <> id) ->
  without id rows = rows.
Proof.
  induction rows as [|row rows IH]; intros Hfresh; [reflexivity|].
  unfold without in *. simpl.
  destruct (String.eqb_spec (Account.id row) id) as [Heq|_]; simpl.
  - exfalso. apply (Hfresh row); [now left | exact Heq].
  - f_equal. apply IH. intros r Hr. apply Hfresh. now right.
Qed.

Lemma without_idem (id : string) (rows : list Account.t) :
  without id (without id rows) = without id rows.
Proof.
  apply without_fresh. intros row Hrow. now apply without_spec in Hrow.
Qed.

Lemma eligible_new_account (accountId accountName : string)
  (description : option string) (created : string)
  (rows : list Account.t) :
  eligible (new_account accountId accountName description created :: rows)
  = eligible rows.
Proof. reflexivity. Qed.

(** X22. [createAccount] writes to the store before it touches the
    registry: when the store rejects the insert, the error is rethrown,
    no client is registered, no status is set, no row is added and
    [initialize] is not called. *)
Theorem createAccount_insert_rejected
  (env : Env) (out : Outside) (accountId accountName : string)
  (description : option string) (w : World) (error : string) :
  insert_account_error out
    (new_account accountId accountName description (clock env (ticks w)))
  = Some error ->
  let run := createAccount env out accountId accountName description w in
  fst run = Throw error
  /\ clients (snd run) = clients w
  /\ accountStatus (snd run) = accountStatus w
  /\ whatsapp_accounts (snd run) = whatsapp_accounts w
  /\ trace (snd run) = trace w.
Proof.
  intros Hinsert run. subst run.
  rewrite createAccount_run. cbv zeta. rewrite Hinsert. simpl.
  now rewrite app_nil_r.
Qed.

Lemma createAccount_insert_rejected_witness :
  fst (createAccount Scenario.env AccountScenario.out_no_insert
         "acc-2" "Shop" None EventScenario.world)
  = Throw "duplicate key value"
  /\ clients (snd (createAccount Scenario.env AccountScenario.out_no_insert
                     "acc-2" "Shop" None EventScenario.world)) !! "acc-2"
     = None.
Proof.
  destruct (createAccount_insert_rejected Scenario.env
              AccountScenario.out_no_insert "acc-2" "Shop" None
              EventScenario.world "duplicate key value" eq_refl)
    as (Hresult & Hclients & _).
  split; [exact Hresult|]. rewrite Hclients. reflexivity.
Defined.

(** X23. When the row was inserted and [initialize] rejects,
    [createAccount] rethrows the error and rolls nothing back: the new
    row stays in the store with status [initializing], the client stays
    in the registry without a page, and a send from the account is
    refused as not ready. *)
Theorem createAccount_launch_failed
  (env : Env) (out : Outside) (accountId accountName : string)
  (description : option string) (w : World) (error : string) :
  let row :=
    new_account accountId accountName description (clock env (ticks w)) in
  insert_account_error out row = None ->
  client_initialize env accountId = Some error ->
  let run := createAccount env out accountId accountName description w in
  fst run = Throw error
  /\ whatsapp_accounts (snd run) = row :: whatsapp_accounts w
  /\ clients (snd run) !! accountId = Some (fresh_client accountId)
  /\ accountStatus (snd run) !! accountId = Some "initializing"
  /\ send_refusal (snd run) accountId
     = Some (client_not_ready (Some "initializing")).
Proof.
  intros row Hinsert Hinit run. subst run row.
  rewrite createAccount_run. cbv zeta. rewrite Hinsert, Hinit.
  unfold send_refusal. simpl. rewrite !lookup_insert_eq. auto.
Qed.

Lemma createAccount_launch_failed_witness :
  fst (createAccount AccountScenario.env_no_browser EventScenario.out
         "acc-2" "Shop" None EventScenario.world)
  = Throw "Failed to launch the browser"
  /\ List.map Account.id
       (whatsapp_accounts
          (snd (createAccount AccountScenario.env_no_browser
                  EventScenario.out "acc-2" "Shop" None
                  EventScenario.world)))
     = ["acc-2"; "acc"].
Proof.
  destruct (createAccount_launch_failed AccountScenario.env_no_browser
              EventScenario.out "acc-2" "Shop" None EventScenario.world
              "Failed to launch the browser" eq_refl eq_refl)
    as (Hresult & Hrows & _).
  split; [exact Hresult|]. rewrite Hrows. reflexivity.
Defined.

(** X24. An account that [createAccount] has inserted is not picked up by
    a later start-up as long as no event has changed its persisted
    status: on any world whose table of accounts is the one
    [createAccount] left, [initializeExistingAccounts] calls
    [initialize] only for a prefix of the accounts that were selected
    before the creation. *)
Theorem created_account_not_reconnected
  (env : Env) (out : Outside) (accountId accountName : string)
  (description : option string) (w : World) (env' : Env) (w1 : World) :
  insert_account_error out
    (new_account accountId accountName description (clock env (ticks w)))
  = None ->
  whatsapp_accounts w1
  = whatsapp_accounts
      (snd (createAccount env out accountId accountName description w)) ->
  exists attempted rest,
    attempts (trace (snd (initializeExistingAccounts env' w1)))
    = attempts (trace w1) ++ attempted
    /\ eligible (whatsapp_accounts w) = attempted ++ rest.
Proof.
  intros Hinsert Htable.
  rewrite createAccount_run in Htable. cbv zeta in Htable.
  rewrite Hinsert in Htable.
  assert (Hrows : whatsapp_accounts w1
                  = new_account accountId accountName description
                      (clock env (ticks w)) :: whatsapp_accounts w)
    by (destruct (client_initialize env accountId); exact Htable).
  rewrite initializeExistingAccounts_run.
  destruct (supabase_error env' SelectAccounts) as [e|].
  - exists [], (eligible (whatsapp_accounts w)). simpl.
    rewrite attempts_app. simpl. now rewrite !app_nil_r.
  - cbv zeta.
    destruct (reconnect_loop_prefix env' (whatsapp_accounts w1)
                (after w1 [] [Supabase SelectAccounts] 0))
      as (result & w' & attempted & rest & Hrun & Htrace & Hsplit).
    rewrite Hrun. simpl snd. exists attempted, rest.
    rewrite Htrace. simpl. rewrite attempts_app. simpl.
    rewrite app_nil_r. split; [reflexivity|].
    now rewrite <- Hsplit, Hrows, eligible_new_account.
Qed.

Lemma created_account_not_reconnected_witness :
  exists attempted rest,
    attempts
      (trace (snd (initializeExistingAccounts Scenario.env
                     (snd (createAccount Scenario.env EventScenario.out
                             "acc-2" "Shop" None StartupExample.world)))))
    = attempts
        (trace (snd (createAccount Scenario.env EventScenario.out
                       "acc-2" "Shop" None StartupExample.world)))
      ++ attempted
    /\ eligible (whatsapp_accounts StartupExample.world) = attempted ++ rest.
Proof.
  exact (created_account_not_reconnected Scenario.env EventScenario.out
           "acc-2" "Shop" None StartupExample.world Scenario.env
           (snd (createAccount Scenario.env EventScenario.out
                   "acc-2" "Shop" None StartupExample.world))
           eq_refl eq_refl).
Defined.

(** X25. When the account has a client and [destroy] rejects,
    [deleteAccount] rethrows the error and has changed nothing: the
    registry, the QR codes, the statuses and the store are as before. *)
Theorem deleteAccount_destroy_rejected
  (out : Outside) (accountId : string) (w : World) (client : Client.t)
  (error : string) :
  clients w !! accountId = Some client ->
  client_destroy out accountId = Some error ->
  deleteAccount out accountId w = (Throw error, w).
Proof.
  intros Hclient Hdestroy.
  now rewrite deleteAccount_run, Hclient, Hdestroy.
Qed.

Lemma deleteAccount_destroy_rejected_witness :
  deleteAccount AccountScenario.out_no_destroy "acc" EventScenario.world
  = (Throw "Protocol error: Target closed", EventScenario.world).
Proof.
  exact (deleteAccount_destroy_rejected AccountScenario.out_no_destroy
           "acc" EventScenario.world (launched_client "acc")
           "Protocol error: Target closed" eq_refl eq_refl).
Defined.

(** X26. The store is asked last: when it rejects the delete,
    [deleteAccount] rethrows the error after it has forgotten the
    account in memory.  The persisted rows are all still there, while the
    account has no client, no QR code and no status any more, so a send
    from it is refused as not found. *)
Theorem deleteAccount_store_rejected
  (out : Outside) (accountId : string) (w : World) (error : string) :
  clients w !! accountId = None \/ client_destroy out accountId = None ->
  delete_account_error out accountId = Some error ->
  let run := deleteAccount out accountId w in
  fst run = Throw error
  /\ whatsapp_accounts (snd run) = whatsapp_accounts w
  /\ clients (snd run) !! accountId = None
  /\ qrCodes (snd run) !! accountId = None
  /\ accountStatus (snd run) !! accountId = None
  /\ send_refusal (snd run) accountId = Some client_not_found.
Proof.
  intros Hpast Hdelete run. subst run.
  rewrite deleteAccount_destroyed, Hdelete by assumption.
  unfold send_refusal. simpl. rewrite !lookup_delete_eq. auto 10.
Qed.

Lemma deleteAccount_store_rejected_witness :
  fst (deleteAccount AccountScenario.out_no_delete "acc"
         EventScenario.world)
  = Throw "permission denied"
  /\ List.map Account.id
       (whatsapp_accounts
          (snd (deleteAccount AccountScenario.out_no_delete "acc"
                  EventScenario.world)))
     = ["acc"]
  /\ send_refusal
       (snd (deleteAccount AccountScenario.out_no_delete "acc"
               EventScenario.world)) "acc"
     = Some client_not_found.
Proof.
  destruct (deleteAccount_store_rejected AccountScenario.out_no_delete
              "acc" EventScenario.world "permission denied"
              (or_intror eq_refl) eq_refl)
    as (Hresult & Hrows & _ & _ & _ & Hsend).
  split; [exact Hresult|]. split; [|exact Hsend].
  rewrite Hrows. reflexivity.
Defined.

(** X27. A [deleteAccount] that succeeds removes exactly the account
    from the table of accounts and from the manager: the account rows
    left are the rows of the other accounts, the account has no client,
    no QR code and no status, and every other account keeps its own. *)
Theorem deleteAccount_removes_only_the_account
  (out : Outside) (accountId : string) (w : World) :
  clients w !! accountId = None \/ client_destroy out accountId = None ->
  delete_account_error out accountId = None ->
  let run := deleteAccount out accountId w in
  fst run = Ok true
  /\ (forall row,
        In row (whatsapp_accounts (snd run))
        <-> In row (whatsapp_accounts w) /\ Account.id row <> accountId)
  /\ (clients (snd run) !! accountId = None
      /\ qrCodes (snd run) !! accountId = None
      /\ accountStatus (snd run) !! accountId = None)
  /\ (forall other, other <> accountId ->
        clients (snd run) !! other = clients w !! other
        /\ qrCodes (snd run) !! other = qrCodes w !! other
        /\ accountStatus (snd run) !! other = accountStatus w !! other).
Proof.
  intros Hpast Hdelete run. subst run.
  rewrite deleteAccount_destroyed, Hdelete by assumption. simpl.
  split; [reflexivity|]. split; [intros row; apply without_spec|].
  rewrite !lookup_delete_eq. split; [auto|].
  intros other Hother. now rewrite !lookup_delete_ne by congruence.
Qed.

Lemma deleteAccount_removes_only_the_account_witness :
  fst (deleteAccount EventScenario.out "acc" EventScenario.world) = Ok true
  /\ clients (snd (deleteAccount EventScenario.out "acc"
                     EventScenario.world)) !! "acc" = None.
Proof.
  destruct (deleteAccount_removes_only_the_account EventScenario.out "acc"
              EventScenario.world (or_intror eq_refl) eq_refl)
    as (Hresult & _ & (Hclient & _) & _).
  split; [exact Hresult | exact Hclient].
Defined.

(** X28. Deleting an account a second time succeeds and changes
    nothing, also when [destroy] would reject by then: the client is
    gone from the registry, so [destroy] is not called again. *)
Theorem deleteAccount_twice
  (out out' : Outside) (accountId : string) (w : World) :
  clients w !! accountId = None \/ client_destroy out accountId = None ->
  delete_account_error out accountId = None ->
  delete_account_error out' accountId = None ->
  let w1 := snd (deleteAccount out accountId w) in
  deleteAccount out' accountId w1 = (Ok true, w1).
Proof.
  intros Hpast Hdelete Hdelete' w1. subst w1.
  rewrite (deleteAccount_destroyed out accountId w), Hdelete by assumption.
  simpl snd. rewrite deleteAccount_destroyed, Hdelete'
    by (left; apply lookup_delete_eq).
  unfold forgotten. simpl.
  now rewrite !delete_delete_eq, without_idem.
Qed.

Lemma deleteAccount_twice_witness :
  deleteAccount AccountScenario.out_no_destroy "acc"
    (snd (deleteAccount EventScenario.out "acc" EventScenario.world))
  = (Ok true, snd (deleteAccount EventScenario.out "acc" EventScenario.world)).
Proof.
  exact (deleteAccount_twice EventScenario.out AccountScenario.out_no_destroy
           "acc" EventScenario.world (or_intror eq_refl) eq_refl eq_refl).
Defined.

(** X29. Creating an account under an id that is new to the registry
    and to the store and deleting it again gives back the registry, the
    QR codes, the statuses and the three tables as they were, whether
    or not the [initialize] of the creation succeeded. *)
Theorem createAccount_then_deleteAccount
  (env : Env) (out : Outside) (accountId accountName : string)
  (description : option string) (w : World) :
  clients w !! accountId = None ->
  accountStatus w !! accountId = None ->
  qrCodes w !! accountId = None ->
  (forall row, In row (whatsapp_accounts w) -> Account.id row <> accountId) ->
  insert_account_error out
    (new_account accountId accountName description (clock env (ticks w)))
  = None ->
  client_destroy out accountId = None ->
  delete_account_error out accountId = None ->
  let created :=
    snd (createAccount env out accountId accountName description w) in
  let run := deleteAccount out accountId created in
  fst run = Ok true
  /\ clients (snd run) = clients w
  /\ qrCodes (snd run) = qrCodes w
  /\ accountStatus (snd run) = accountStatus w
  /\ whatsapp_accounts (snd run) = whatsapp_accounts w
  /\ webhooks (snd run) = webhooks w
  /\ message_logs (snd run) = message_logs w.
Proof.
  intros Hclient Hstatus Hcode Hfresh Hinsert Hdestroy Hdelete created run.
  subst run created.
  rewrite deleteAccount_destroyed, Hdelete by now right.
  rewrite createAccount_run. cbv zeta. rewrite Hinsert.
  assert (Hrows :
    without accountId
      (new_account accountId accountName description (clock env (ticks w))
       :: whatsapp_accounts w)
    = whatsapp_accounts w).
  { unfold without. simpl. rewrite String.eqb_refl. simpl.
    now apply without_fresh. }
  destruct (client_initialize env accountId) as [e|]; cbn -[without];
    rewrite Hrows, !delete_insert_id, (delete_id (qrCodes w)) by assumption;
    auto 10.
Qed.

Lemma createAccount_then_deleteAccount_witness :
  whatsapp_accounts
    (snd (deleteAccount EventScenario.out "acc-2"
            (snd (createAccount Scenario.env EventScenario.out
                    "acc-2" "Shop" None EventScenario.world))))
  = whatsapp_accounts EventScenario.world.
Proof.
  assert (Hfresh : forall row,
            In row (whatsapp_accounts EventScenario.world) ->
            Account.id row <> "acc-2").
  { intros row [<-|[]]. discriminate. }
  exact (proj1 (proj2 (proj2 (proj2 (proj2
           (createAccount_then_deleteAccount Scenario.env EventScenario.out
              "acc-2" "Shop" None EventScenario.world
              eq_refl eq_refl eq_refl Hfresh eq_refl eq_refl eq_refl)))))).
Defined.

(** ** Separators in a destination *)

(** X30. Characters that are neither digits nor plus signs do not
    matter to the destination, wherever they stand: a number with such
    characters put in at any place is normalised to the same address as
    the number without them. *)
Theorem formatPhoneNumber_ignores_separators (a separators b : string) :
  forallb (fun c => negb (Js.in_class_digit_plus c))
    (list_ascii_of_string separators) = true ->
  formatPhoneNumber (a +:+ separators +:+ b) = formatPhoneNumber (a +:+ b).
Proof.
  intros Hout.
  assert (Hgone : Js.replace_non_digit_plus separators = "").
  { induction separators as [|c s IH]; [reflexivity|].
    simpl in Hout. apply andb_true_iff in Hout as [Hc Hs].
    simpl. apply negb_true_iff in Hc. rewrite Hc. now apply IH. }
  unfold formatPhoneNumber. now rewrite !replace_app, Hgone.
Qed.

Lemma formatPhoneNumber_ignores_separators_witness :
  formatPhoneNumber ("+1 555" +:+ " - (" +:+ "000) 111")
  = formatPhoneNumber ("+1 555" +:+ "000) 111").
Proof.
  exact (formatPhoneNumber_ignores_separators "+1 555" " - (" "000) 111"
           eq_refl).
Defined.
